(** * Conjure client core (tapdance/conjure.go): a shallow embedding

    The development follows the layout of [conjure.go]:
    - byte strings, hexadecimal and decimal formatting (Go's [encoding/hex],
      [strconv], [fmt] as far as the file uses them);
    - SHA-256, HMAC and HKDF (Go's [crypto/sha256], [crypto/hmac],
      [x/crypto/hkdf]), on which [conjureHMAC] and [generateSharedKeys] rest;
    - the session and registration records, [IDString], [SelectDecoys],
      [register], [send], [createRequest], [generateVSP], [generateFSP] and
      the two copies of the connect path.

    Numbers are [Z] or [N] with the wrap-around of the machine type written
    out; byte slices are [list byte]; effects (dialling, writing to a
    connection, sealing) are recorded in an explicit trace. *)

From Stdlib Require Import ZArith List Strings.String Strings.Ascii Strings.Byte Lia.
From stdpp Require Import base list strings pretty.

Local Open Scope Z_scope.

(** ** Bytes *)

Abbreviation bytes := (list byte).

Definition byte_to_Z (b : byte) : Z := Z.of_N (Byte.to_N b).

(** The low eight bits of an integer, as Go's [byte(x)] conversion. *)
Definition Z_to_byte (z : Z) : byte :=
  byte_of_ascii (ascii_of_N (Z.to_N (z mod 256))).

(** [[]byte(str)] *)
Definition bytes_of_string (s : string) : bytes := list_byte_of_string s.

Definition zero_bytes (n : nat) : bytes := replicate n x00%byte.

Definition xor_byte (c : Z) (b : byte) : byte := Z_to_byte (Z.lxor (byte_to_Z b) c).

(** Big-endian serialisation of the low [8 * n] bits of [z]. *)
Fixpoint be_bytes (n : nat) (z : Z) : bytes :=
  match n with
  | O => []
  | S k => Z_to_byte (Z.shiftr z (8 * Z.of_nat k)) :: be_bytes k z
  end.

(** Big-endian unsigned integer held by a byte string ([big.Int.SetBytes]). *)
Definition be_to_Z (bs : bytes) : Z :=
  fold_left (fun acc b => acc * 256 + byte_to_Z b) bs 0.

(** ** SHA-256 (FIPS 180-4), the hash behind [sha256.New] *)

Module SHA256.

Definition wrap32 (z : Z) : Z := z mod 2 ^ 32.

Definition add32 (x y : Z) : Z := wrap32 (x + y).

Definition rotr (n x : Z) : Z :=
  Z.lor (Z.shiftr x n) (wrap32 (Z.shiftl x (32 - n))).

Definition not32 (x : Z) : Z := Z.lxor x (2 ^ 32 - 1).

Definition Ch (x y z : Z) : Z := Z.lxor (Z.land x y) (Z.land (not32 x) z).

Definition Maj (x y z : Z) : Z :=
  Z.lxor (Z.lxor (Z.land x y) (Z.land x z)) (Z.land y z).

Definition Sigma0 (x : Z) : Z := Z.lxor (Z.lxor (rotr 2 x) (rotr 13 x)) (rotr 22 x).
Definition Sigma1 (x : Z) : Z := Z.lxor (Z.lxor (rotr 6 x) (rotr 11 x)) (rotr 25 x).
Definition sigma0 (x : Z) : Z := Z.lxor (Z.lxor (rotr 7 x) (rotr 18 x)) (Z.shiftr x 3).
Definition sigma1 (x : Z) : Z := Z.lxor (Z.lxor (rotr 17 x) (rotr 19 x)) (Z.shiftr x 10).

(** The round constants are the first 32 fractional bits of the cube roots of
    the first 64 primes, the initial state those of the square roots of the
    first 8; both are computed here rather than tabulated. *)

Definition is_prime (p : Z) : bool :=
  (2 <=? p) && forallb (fun d => negb (p mod d =? 0))
                        (map Z.of_nat (seq 2 (Z.to_nat (Z.sqrt p) - 1))).

Definition primes64 : list Z :=
  Eval vm_compute in filter (fun p => is_prime p) (map Z.of_nat (seq 2 310)).

Fixpoint icbrt_bits (n : nat) (x acc : Z) : Z :=
  match n with
  | O => acc
  | S k =>
      let c := acc + 2 ^ Z.of_nat k in
      if c * c * c <=? x then icbrt_bits k x c else icbrt_bits k x acc
  end.

(** Integer cube root of [x], for [x < 2 ^ 120]. *)
Definition icbrt (x : Z) : Z := icbrt_bits 40 x 0.

Definition K : list Z :=
  Eval vm_compute in map (fun p => wrap32 (icbrt (p * 2 ^ 96))) primes64.

Definition H0 : list Z :=
  Eval vm_compute in map (fun p => wrap32 (Z.sqrt (p * 2 ^ 64))) (take 8 primes64).

Record state := State {
  sa : Z; sb : Z; sc : Z; sd : Z; se : Z; sf : Z; sg : Z; sh : Z
}.

Definition init : state :=
  match H0 with
  | [a; b; c; d; e; f; g; h] => State a b c d e f g h
  | _ => State 0 0 0 0 0 0 0 0
  end.

(** Padding: a one bit, zeros up to 56 mod 64, then the bit length on 64 bits. *)
Definition pad (msg : bytes) : bytes :=
  let l := Z.of_nat (length msg) in
  msg ++ [x80%byte] ++ zero_bytes (Z.to_nat ((55 - l) mod 64)) ++ be_bytes 8 (8 * l).

Fixpoint words (n : nat) (bs : bytes) : list Z :=
  match n with
  | O => []
  | S k => be_to_Z (take 4 bs) :: words k (drop 4 bs)
  end.

(** Message schedule, kept most recent word first while it is extended. *)
Fixpoint extend (n : nat) (rw : list Z) : list Z :=
  match n with
  | O => rw
  | S k =>
      let w := add32 (add32 (add32 (sigma1 (nth 1 rw 0)) (nth 6 rw 0))
                            (sigma0 (nth 14 rw 0))) (nth 15 rw 0) in
      extend k (w :: rw)
  end.

Definition schedule (block : bytes) : list Z :=
  rev (extend 48 (rev (words 16 block))).

Definition round (s : state) (kw : Z * Z) : state :=
  let t1 := add32 (add32 (add32 (add32 (sh s) (Sigma1 (se s)))
                                 (Ch (se s) (sf s) (sg s))) (fst kw)) (snd kw) in
  let t2 := add32 (Sigma0 (sa s)) (Maj (sa s) (sb s) (sc s)) in
  State (add32 t1 t2) (sa s) (sb s) (sc s) (add32 (sd s) t1) (se s) (sf s) (sg s).

Definition compress (s : state) (block : bytes) : state :=
  let r := fold_left round (combine K (schedule block)) s in
  State (add32 (sa s) (sa r)) (add32 (sb s) (sb r)) (add32 (sc s) (sc r))
        (add32 (sd s) (sd r)) (add32 (se s) (se r)) (add32 (sf s) (sf r))
        (add32 (sg s) (sg r)) (add32 (sh s) (sh r)).

Fixpoint blocks (n : nat) (s : state) (bs : bytes) : state :=
  match n with
  | O => s
  | S k => blocks k (compress s (take 64 bs)) (drop 64 bs)
  end.

Definition digest (s : state) : bytes :=
  be_bytes 4 (sa s) ++ be_bytes 4 (sb s) ++ be_bytes 4 (sc s) ++ be_bytes 4 (sd s) ++
  be_bytes 4 (se s) ++ be_bytes 4 (sf s) ++ be_bytes 4 (sg s) ++ be_bytes 4 (sh s).

Definition sum (msg : bytes) : bytes :=
  let p := pad msg in
  digest (blocks (length p / 64) init p).

Definition Size : nat := 32.
Definition BlockSize : nat := 64.

End SHA256.

(** ** HMAC (RFC 2104) over SHA-256, as [hmac.New(sha256.New, key)] *)

Module HMAC.

Definition block_key (key : bytes) : bytes :=
  let k := if (SHA256.BlockSize <? length key)%nat then SHA256.sum key else key in
  k ++ zero_bytes (SHA256.BlockSize - length k).

Definition sum (key msg : bytes) : bytes :=
  let k := block_key key in
  SHA256.sum (map (xor_byte 0x5c) k ++ SHA256.sum (map (xor_byte 0x36) k ++ msg)).

End HMAC.

(** ** Hexadecimal *)

Definition hex_digit (n : Z) : ascii :=
  nth (Z.to_nat n) (list_ascii_of_string "0123456789abcdef") "0"%char.

(** [hex.Encode]: two lower-case digits per byte. *)
Fixpoint hex_encode (bs : bytes) : list ascii :=
  match bs with
  | [] => []
  | b :: r => hex_digit (byte_to_Z b / 16) :: hex_digit (byte_to_Z b mod 16) :: hex_encode r
  end.

Definition hex_string (bs : bytes) : string := string_of_list_ascii (hex_encode bs).

(** [hex.DecodeString], total on the digits used in this file's examples. *)
Definition unhex_digit (c : ascii) : Z :=
  let n := Z.of_N (N_of_ascii c) in
  if (48 <=? n) && (n <=? 57) then n - 48
  else if (97 <=? n) && (n <=? 102) then n - 87 else 0.

Fixpoint unhex_list (cs : list ascii) : bytes :=
  match cs with
  | h :: l :: r => Z_to_byte (16 * unhex_digit h + unhex_digit l) :: unhex_list r
  | _ => []
  end.

Definition unhex (s : string) : bytes := unhex_list (list_ascii_of_string s).


(** ** HKDF (RFC 5869) over SHA-256, as [hkdf.New(sha256.New, secret, salt, info)] *)

Module HKDF.

Definition extract (salt secret : bytes) : bytes := HMAC.sum salt secret.

(** The first [n] output blocks [T(1) .. T(n)], [prev] being [T(i - 1)]. *)
Fixpoint expand_blocks (n : nat) (prk info prev : bytes) (i : Z) : bytes :=
  match n with
  | O => []
  | S k =>
      let t := HMAC.sum prk (prev ++ info ++ [Z_to_byte i]) in
      t ++ expand_blocks k prk info t (i + 1)
  end.

(** The reader: the pseudo-random key, the info string and the number of
    bytes already handed out. *)
Record reader := Reader { prk : bytes; info : bytes; offset : nat }.

Definition New (secret salt info : bytes) : reader :=
  Reader (extract salt secret) info 0.

(** [Read] hands out the next [n] bytes of the stream; the stream ends
    after 255 blocks. *)
Definition Read (r : reader) (n : nat) : option (bytes * reader) :=
  if (255 * SHA256.Size <? offset r + n)%nat then None
  else
    let nblocks := ((offset r + n + SHA256.Size - 1) / SHA256.Size)%nat in
    let stream := expand_blocks nblocks (prk r) (info r) [] 1 in
    Some (take n (drop (offset r) stream), Reader (prk r) (info r) (offset r + n)).

End HKDF.

(** ** Go values: errors, panics, and the trace of effects *)

(** The dynamic types of [error] that occur in the file. [RegErrorV] is a
    [RegError] value, [RegErrorP] a [*RegError]; a type assertion
    [err.(RegError)] succeeds on the first only. [OpError] is a
    [*net.OpError] with the text of the whole error and of its inner [Err]. *)
Inductive error : Type :=
| RegErrorV (code : N) (msg : string)
| RegErrorP (code : N) (msg : string)
| OpError (text : string) (inner : string)
| ErrorString (msg : string).

(** Error codes ([iota] block at the end of the file). *)
Definition Unreachable : N := 0.
Definition DialFailure : N := 1.
Definition NotImplemented : N := 2.
Definition Unknown : N := 3.

(** [(T, error)] results of functions that return exactly one of the two. *)
Inductive result (A : Type) : Type :=
| Ok (a : A)
| Err (e : error).
Arguments Ok {A} a.
Arguments Err {A} e.

(** How a call ends: it returns, it panics, or it never returns. *)
Inductive outcome (A : Type) : Type :=
| Done (a : A)
| Panic (msg : string)
| Blocked.
Arguments Done {A} a.
Arguments Panic {A} msg.
Arguments Blocked {A}.

#[global] Instance outcome_ret : MRet outcome := fun A a => Done a.
#[global] Instance outcome_bind : MBind outcome := fun A B f m =>
  match m with
  | Done a => f a
  | Panic s => Panic s
  | Blocked => Blocked
  end.

(** Dereference of a pointer that may be nil. *)
Definition deref {A} (p : option A) : outcome A :=
  match p with
  | Some a => Done a
  | None => Panic "invalid memory address or nil pointer dereference"
  end.

(** Connections are handles; what happens on them is in the trace. *)
Definition Conn : Type := N.
Definition UConn : Type := N.

Inductive event : Type :=
| EvDial (address : string) (deadline : option Z)
| EvHandshake (c : Conn) (serverName : string) (deadline : Z)
| EvSeal (key iv plaintext : bytes)
| EvGetOutKeystream (c : UConn) (n : nat)
| EvConnWrite (c : Conn) (data : bytes)
| EvTLSWrite (c : UConn) (data : bytes)
| EvConnClose (c : Conn)
| EvTLSClose (c : UConn)
| EvReadAndClose (c : Conn)
| EvPost (r : option error)
| EvCallback.

(** A computation with effects: the events it performed, in order, and how
    it ended. *)
Definition M (A : Type) : Type := (list event * outcome A)%type.

#[global] Instance M_ret : MRet M := fun A a => ([], Done a).
#[global] Instance M_bind : MBind M := fun A B f m =>
  match m.2 with
  | Done a => (m.1 ++ (f a).1, (f a).2)
  | Panic s => (m.1, Panic s)
  | Blocked => (m.1, Blocked)
  end.

Definition emit (e : event) : M unit := ([e], Done tt).
Definition lift {A} (o : outcome A) : M A := ([], o).

Definition is_seal (e : event) : bool :=
  match e with EvSeal _ _ _ => true | _ => false end.

Definition is_write (e : event) : bool :=
  match e with EvConnWrite _ _ | EvTLSWrite _ _ => true | _ => false end.

Definition is_post (e : event) : bool :=
  match e with EvPost _ => true | _ => false end.

(** The bytes written to connection [c], in order. *)
Definition written_to (c : Conn) (tr : list event) : list bytes :=
  omap (fun e => match e with
                 | EvConnWrite c' d => if (c' =? c)%N then Some d else None
                 | _ => None
                 end) tr.

(** ** Constants and records of [conjure.go] *)

Definition v4 : N := 0.
Definition v6 : N := 1.
Definition both : N := 2.

Definition defaultRegWidth : N := 5.

Definition MinTransport : N := 0.
Definition NullTransport : N := 1.
Definition Obfs4Transport : N := 2.

(** [V6]; [checked] is a time in nanoseconds. *)
Record V6 : Type := {
  support : bool;
  include : N;
  checked : Z
}.

(** A byte slice that the file compares with [nil]: [None] is the nil slice. *)
Definition slice_bytes (s : option bytes) : bytes := default [] s.

Record sharedKeys : Type := {
  SharedSecret : option bytes;
  Representative : bytes;
  FspKey : bytes;
  FspIv : bytes;
  VspKey : bytes;
  VspIv : bytes;
  NewMasterSecret : bytes;
  ConjureSeed : bytes
}.

(** Modelled from the spec: [pb.TLSDecoySpec] is declared in the protobuf
    package, which is not part of the sources at hand. A decoy is "an
    SNI/hostname and one or both of IPv4/IPv6 addresses"; the file uses its
    hostname and its dial address only. *)
Record TLSDecoySpec : Type := {
  Hostname : string;
  IpAddrStr : string
}.

(** [*pb.TLSDecoySpec]; [None] is the nil pointer. The getters are nil-safe. *)
Definition decoy_ptr : Type := option TLSDecoySpec.

Definition GetHostname (d : decoy_ptr) : string := from_option Hostname "" d.
Definition GetIpAddrStr (d : decoy_ptr) : string := from_option IpAddrStr "" d.

(** Modelled from the spec: [pb.SessionStats], of which the file reads and
    writes the round-trip times in milliseconds. *)
Record SessionStats : Type := {
  TcpToDecoy : option N;
  TlsToDecoy : option N;
  TotalTimeToConnect : option N
}.

Definition empty_stats : SessionStats :=
  {| TcpToDecoy := None; TlsToDecoy := None; TotalTimeToConnect := None |}.

Definition GetTcpToDecoy (s : SessionStats) : N := default 0%N (TcpToDecoy s).

(** [net.IP] *)
Definition IP : Type := bytes.

(** [ConjureSession]. The unexported field [stats] is [session_stats] here
    (the registration has a field of the same name). *)
Record ConjureSession : Type := {
  Keys : option sharedKeys;
  Width : N;
  V6Support : option V6;
  UseProxyHeader : bool;
  SessionID : N;
  RegDecoys : list decoy_ptr;
  Phantom : option IP;
  Transport : N;
  CovertAddress : string;
  session_stats : option SessionStats
}.

(** [ConjureReg], without its mutex. *)
Record ConjureReg : Type := {
  seed : bytes;
  sessionIDStr : string;
  phantom : option IP;
  useProxyHeader : bool;
  covertAddress : string;
  phantomSNI : string;
  v6Support : bool;
  transport : N;
  stats : option SessionStats;
  keys : option sharedKeys
}.

(** Modelled from the spec: the asset snapshot behind [Assets()], "a
    process-wide handle supplying ... the current decoy list partitioned by
    family, a generation counter". It is an explicit argument here. *)
Record Assets : Type := {
  GetV4Decoys : list decoy_ptr;
  GetV6Decoys : list decoy_ptr;
  GetAllDecoys : list decoy_ptr;
  GetGeneration : N
}.

(** ** Formatting *)

(** [strconv.FormatUint(x, 10)] and the [%d] verb on an unsigned integer. *)
Definition FormatUint10 (x : N) : string := pretty x.

(** The two characters of a line end. *)
Definition crlf : string := String "013" (String "010" EmptyString).

(** ** [conjureHMAC] *)

Definition conjureHMAC (key : bytes) (str : string) : bytes :=
  HMAC.sum key (bytes_of_string str).

(** ** [IDString] *)

Definition IDString (cjSession : ConjureSession) : string :=
  let id := FormatUint10 (SessionID cjSession) in
  match Keys cjSession with
  | None => "[" +:+ id +:+ "-000000]"
  | Some k =>
      match SharedSecret k with
      | None => "[" +:+ id +:+ "-000000]"
      | Some sharedSecret =>
          let secret := hex_encode sharedSecret in
          let n := length secret in
          if (n <? 6)%nat then "[" +:+ id +:+ "-000000]"
          else "[" +:+ id +:+ "-" +:+ string_of_list_ascii (take 6 secret) +:+ "]"
      end
  end.

(** ** [SelectDecoys] *)

Definition decoy_pool (a : Assets) (version : N) : list decoy_ptr :=
  if (version =? v6)%N then GetV6Decoys a
  else if (version =? v4)%N then GetV4Decoys a
  else if (version =? both)%N then GetAllDecoys a
  else GetAllDecoys a.

(** The body of the loop, for [n] more iterations from index [i].
    [big.Int.Mod] panics on a zero modulus; indexing panics out of range.
    [idx] is below [len(allDecoys)], so [idx.Int64()] is exact. *)
Fixpoint SelectDecoys_loop (n : nat) (i : N) (sharedSecret : bytes)
    (allDecoys decoys : list decoy_ptr) : outcome (list decoy_ptr) :=
  match n with
  | O => Done decoys
  | S n' =>
      let numDecoys := Z.of_nat (length allDecoys) in
      let macString := "registrationdecoy" +:+ FormatUint10 i in
      let hmac := conjureHMAC sharedSecret macString in
      let hmacInt := be_to_Z (take 8 hmac) in
      let hmacInt := be_to_Z hmac in
      let hmacInt := Z.abs hmacInt in
      if numDecoys =? 0 then Panic "division by zero"
      else
        let idx := hmacInt mod numDecoys in
        match allDecoys !! Z.to_nat idx with
        | None => Panic "index out of range"
        | Some d =>
            SelectDecoys_loop n' (i + 1)%N sharedSecret allDecoys (<[N.to_nat i := d]> decoys)
        end
  end.

Definition SelectDecoys (a : Assets) (sharedSecret : bytes) (version width : N)
    : outcome (list decoy_ptr) :=
  let allDecoys := decoy_pool a version in
  let decoys := replicate (N.to_nat width) (None : decoy_ptr) in
  SelectDecoys_loop (N.to_nat width) 0%N sharedSecret allDecoys decoys.

(** ** The registration message and its wire encoding *)

(** Modelled from the spec: [pb.ClientToStation] and [proto.Size] /
    [proto.Marshal] belong to the protobuf package and library, which are not
    part of the sources at hand. The spec fixes the field set
    ([covert_address], [decoy_list_generation], [v6_support],
    [masked_decoy_server_name], [padding]) and leaves the schema open ("any
    stable schema that the station accepts"), so the field numbers are a
    parameter. The encoding is the proto2 wire format: a field that is nil is
    absent, fields are written in the order of their numbers. *)
Module Proto.

Record Schema : Type := {
  covert_address_no : Z;
  decoy_list_generation_no : Z;
  v6_support_no : Z;
  masked_decoy_server_name_no : Z;
  padding_no : Z
}.

Record ClientToStation : Type := {
  CovertAddress : option string;
  DecoyListGeneration : option N;
  V6SupportField : option bool;
  MaskedDecoyServerName : option string;
  Padding : option bytes
}.

(** Base-128 varint, least significant group first; ten groups hold 64 bits. *)
Fixpoint varint_groups (n : nat) (x : Z) : bytes :=
  match n with
  | O => []
  | S k =>
      if x <? 128 then [Z_to_byte x]
      else Z_to_byte (x mod 128 + 128) :: varint_groups k (x / 128)
  end.

Definition varint (x : Z) : bytes := varint_groups 10 x.

Definition key (field wire : Z) : bytes := varint (field * 8 + wire).

Definition varint_field (field x : Z) : bytes := key field 0 ++ varint x.

Definition bytes_field (field : Z) (payload : bytes) : bytes :=
  key field 2 ++ varint (Z.of_nat (length payload)) ++ payload.

Fixpoint insert_field (f : Z * bytes) (l : list (Z * bytes)) : list (Z * bytes) :=
  match l with
  | [] => [f]
  | g :: r => if f.1 <? g.1 then f :: g :: r else g :: insert_field f r
  end.

Definition by_number (l : list (Z * bytes)) : list (Z * bytes) :=
  fold_right insert_field [] l.

(** The fields that are present, each with its number and encoding. *)
Definition present (sch : Schema) (m : ClientToStation) : list (Z * bytes) :=
  omap id
    [ (fun s => (covert_address_no sch,
                 bytes_field (covert_address_no sch) (bytes_of_string s)))
        <$> CovertAddress m;
      (fun g => (decoy_list_generation_no sch,
                 varint_field (decoy_list_generation_no sch) (Z.of_N g)))
        <$> DecoyListGeneration m;
      (fun b => (v6_support_no sch,
                 varint_field (v6_support_no sch) (if b : bool then 1 else 0)))
        <$> V6SupportField m;
      (fun s => (masked_decoy_server_name_no sch,
                 bytes_field (masked_decoy_server_name_no sch) (bytes_of_string s)))
        <$> MaskedDecoyServerName m;
      (fun p => (padding_no sch, bytes_field (padding_no sch) p))
        <$> Padding m ].

Definition Marshal (sch : Schema) (m : ClientToStation) : bytes :=
  concat (map snd (by_number (present sch m))).

Definition Size (sch : Schema) (m : ClientToStation) : nat :=
  length (Marshal sch m).

(** [m.Padding = append(m.Padding, b)] *)
Definition append_padding (m : ClientToStation) (b : byte) : ClientToStation :=
  {| CovertAddress := CovertAddress m;
     DecoyListGeneration := DecoyListGeneration m;
     V6SupportField := V6SupportField m;
     MaskedDecoyServerName := MaskedDecoyServerName m;
     Padding := Some (default [] (Padding m) ++ [b]) |}.

End Proto.

(** ** What the file takes from elsewhere *)

(** Modelled from the spec: "AEAD: AES-128-GCM, 16-byte tag appended". *)
Definition AES_GCM_TAG_SIZE : nat := 16.

(** Functions and constants of the package that are defined in other files,
    and library functions, taken as parameters. *)
Record Externals : Type := {
  aesGcmEncrypt : bytes -> bytes -> bytes -> result bytes;
  reverseEncrypt : bytes -> bytes -> bytes;
  generateHTTPRequestBeginning : string -> bytes;
  SelectPhantom : bytes -> bool -> option IP * option error;
  default_flags : Z;
  tdFlagProxyHeader : Z;
  IP_String : IP -> string;
  SplitHostPort : string -> result (string * string);
  schema : Proto.Schema
}.

(** Modelled from the spec: "AES-128-GCM (16-byte key, 12-byte IV, 16-byte
    tag)". With a key and an IV of these sizes sealing succeeds, and the
    ciphertext is the plaintext's length plus the tag. *)
Definition aes_128_gcm (X : Externals) : Prop :=
  forall plaintext key iv,
    length key = 16%nat -> length iv = 12%nat ->
    exists ct, aesGcmEncrypt X plaintext key iv = Ok ct /\
               length ct = (length plaintext + AES_GCM_TAG_SIZE)%nat.

(** The network, the clock and the random source, as one run presents them.
    Times are in nanoseconds, as [time.Duration]. *)
Record World : Type := {
  DialContext : string -> option Z -> result Conn;
  Handshake : Conn -> string -> Z -> result UConn;
  GetOutKeystream : UConn -> nat -> result bytes;
  TLSWrite : UConn -> bytes -> option error;
  Now : Z;
  getRandInt : Z -> Z -> Z;
  getRandomDuration : Z -> Z -> Z;
  tcp_ms : string -> N;
  tls_ms : Conn -> N;
  generateEligatorTransformedKey : bytes -> result (bytes * bytes)
}.

Definition Millisecond : Z := 1000000.

Definition rttInt (millis : N) : Z :=
  let defaultValue := 300 in
  if (millis =? 0)%N then defaultValue else Z.of_N millis.

Section Conjure.

Variable X : Externals.
Variable W : World.

(** ** [generateVSP] and [generateFSP] *)

(** The padding loop [for (proto.Size(initProto)+AES_GCM_TAG_SIZE)%3 != 0],
    run for at most [fuel] appends; [Blocked] if it is still running then. *)
Fixpoint pad_to_three (fuel : nat) (initProto : Proto.ClientToStation)
    : outcome Proto.ClientToStation :=
  let again := negb ((Proto.Size (schema X) initProto + AES_GCM_TAG_SIZE) mod 3 =? 0)%nat in
  match fuel with
  | O => if again then Blocked else Done initProto
  | S fuel' =>
      if again then pad_to_three fuel' (Proto.append_padding initProto x00%byte)
      else Done initProto
  end.

Definition generateVSP (fuel : nat) (a : Assets) (reg : ConjureReg)
    : outcome (result bytes) :=
  let covert :=
    if (0 <? String.length (covertAddress reg))%nat then Some (covertAddress reg) else None in
  let currentGen := GetGeneration a in
  let initProto :=
    {| Proto.CovertAddress := covert;
       Proto.DecoyListGeneration := Some currentGen;
       Proto.V6SupportField := Some (v6Support reg);
       Proto.MaskedDecoyServerName :=
         if (0 <? String.length (phantomSNI reg))%nat then Some (phantomSNI reg) else None;
       Proto.Padding := None |} in
  initProto ← pad_to_three fuel initProto;
  mret (Ok (Proto.Marshal (schema X) initProto)).

(** [espSize] is a [uint16]; [flags] is a [uint8]. *)
Definition generateFSP (reg : ConjureReg) (espSize : Z) : bytes :=
  let buf := zero_bytes 6 in
  let buf := <[1%nat := Z_to_byte espSize]> (<[0%nat := Z_to_byte (Z.shiftr espSize 8)]> buf) in
  let flags := default_flags X in
  let flags := if useProxyHeader reg then Z.lor flags (tdFlagProxyHeader X) else flags in
  <[2%nat := Z_to_byte flags]> buf.

(** ** [createRequest] *)

Definition seal (plaintext key iv : bytes) : M (result bytes) :=
  _ ← emit (EvSeal key iv plaintext);
  mret (aesGcmEncrypt X plaintext key iv).

Definition out_keystream (tlsConn : UConn) (n : nat) : M (result bytes) :=
  _ ← emit (EvGetOutKeystream tlsConn n);
  mret (GetOutKeystream W tlsConn n).

Definition PayloadTooLarge : error :=
  ErrorString ("Variable-Size Payload exceeds " +:+ FormatUint10 65535).

(** The first half of [createRequest]: the two payloads are built and
    sealed, and the tag is put together. *)
Definition assemble_tag (fuel : nat) (a : Assets) (reg : ConjureReg) : M (result bytes) :=
  r ← lift (generateVSP fuel a reg);
  match r with
  | Err err => mret (Err err)
  | Ok vsp =>
      if 65535 <? Z.of_nat (length vsp) then mret (Err PayloadTooLarge)
      else
        k ← lift (deref (keys reg));
        r ← seal vsp (VspKey k) (VspIv k);
        match r with
        | Err err => mret (Err err)
        | Ok encryptedVsp =>
            let fsp := generateFSP reg (Z.of_nat (length encryptedVsp) mod 2 ^ 16) in
            r ← seal fsp (FspKey k) (FspIv k);
            match r with
            | Err err => mret (Err err)
            | Ok encryptedFsp =>
                let tag := encryptedVsp ++ Representative k in
                let tag := tag ++ encryptedFsp in
                mret (Ok tag)
            end
        end
  end.

(** [createRequest]: the tag, then its embedding in the HTTP request. *)
Definition createRequest (fuel : nat) (a : Assets) (reg : ConjureReg)
    (tlsConn : UConn) (decoy : decoy_ptr) : M (result bytes) :=
  r ← assemble_tag fuel a reg;
  match r with
  | Err err => mret (Err err)
  | Ok tag =>
      let httpRequest := generateHTTPRequestBeginning X (GetHostname decoy) in
      let keystreamOffset := length httpRequest in
      let keystreamSize := ((length tag / 3 + 1) * 4 + keystreamOffset)%nat in
      r ← out_keystream tlsConn keystreamSize;
      match r with
      | Err err => mret (Err err)
      | Ok wholeKeystream =>
          if (length wholeKeystream <? keystreamOffset)%nat
          then lift (Panic "slice bounds out of range")
          else
            let keystreamAtTag := drop keystreamOffset wholeKeystream in
            let httpRequest := httpRequest ++ reverseEncrypt X tag keystreamAtTag in
            let httpRequest := httpRequest ++ bytes_of_string (crlf +:+ crlf) in
            mret (Ok httpRequest)
      end
  end.

(** ** [send] and its helpers *)

Definition setTCPToDecoy (reg : ConjureReg) (tcprtt : option N) : ConjureReg :=
  let st := default empty_stats (stats reg) in
  {| seed := seed reg; sessionIDStr := sessionIDStr reg; phantom := phantom reg;
     useProxyHeader := useProxyHeader reg; covertAddress := covertAddress reg;
     phantomSNI := phantomSNI reg; v6Support := v6Support reg;
     transport := transport reg;
     stats := Some {| TcpToDecoy := tcprtt; TlsToDecoy := TlsToDecoy st;
                      TotalTimeToConnect := TotalTimeToConnect st |};
     keys := keys reg |}.

Definition setTLSToDecoy (reg : ConjureReg) (tlsrtt : option N) : ConjureReg :=
  let st := default empty_stats (stats reg) in
  {| seed := seed reg; sessionIDStr := sessionIDStr reg; phantom := phantom reg;
     useProxyHeader := useProxyHeader reg; covertAddress := covertAddress reg;
     phantomSNI := phantomSNI reg; v6Support := v6Support reg;
     transport := transport reg;
     stats := Some {| TcpToDecoy := TcpToDecoy st; TlsToDecoy := tlsrtt;
                      TotalTimeToConnect := TotalTimeToConnect st |};
     keys := keys reg |}.

Definition dial (address : string) (deadline : option Z) : M (result Conn) :=
  _ ← emit (EvDial address deadline);
  mret (DialContext W address deadline).

(** [createTLSConn]: building the handshake state, marshalling the
    ClientHello and the handshake itself are one step of the world. *)
Definition createTLSConn (reg : ConjureReg) (dialConn : Conn) (addres hostname : string)
    (deadline : Z) : M (result UConn) :=
  let finish serverName :=
    _ ← emit (EvHandshake dialConn serverName deadline);
    mret (Handshake W dialConn serverName deadline) in
  if String.eqb hostname "" then
    match SplitHostPort X addres with
    | Err err => mret (Err err)
    | Ok hp => finish hp.1
    end
  else finish hostname.

Definition post (r : option error) : M unit := emit (EvPost r).

(** [send] posts one result on [dialError] ([EvPost]); it returns the
    registration with the statistics it has set. *)
Definition send (fuel : nat) (a : Assets) (reg : ConjureReg) (decoy : decoy_ptr)
    : M ConjureReg :=
  r ← dial (GetIpAddrStr decoy) None;
  let reg := setTCPToDecoy reg (Some (tcp_ms W (GetIpAddrStr decoy))) in
  match r with
  | Err err =>
      match err with
      | OpError text inner =>
          if String.eqb inner "connect: network is unreachable"
          then _ ← post (Some (RegErrorV Unreachable text)); mret reg
          else _ ← post (Some err); mret reg
      | _ => _ ← post (Some err); mret reg
      end
  | Ok dialConn =>
      st ← lift (deref (stats reg));
      tcp ← lift (deref (TcpToDecoy st));
      let rtt := rttInt tcp in
      let delay := getRandomDuration W (1061 * rtt * 2) (1953 * rtt * 3) in
      let deadline := Now W + delay in
      r ← createTLSConn reg dialConn (GetIpAddrStr decoy) (GetHostname decoy) deadline;
      match r with
      | Err err =>
          _ ← emit (EvConnClose dialConn);
          _ ← post (Some err); mret reg
      | Ok tlsConn =>
          let reg := setTLSToDecoy reg (Some (tls_ms W dialConn)) in
          r ← createRequest fuel a reg tlsConn decoy;
          match r with
          | Err err => _ ← post (Some err); mret reg
          | Ok httpRequest =>
              _ ← emit (EvTLSWrite tlsConn httpRequest);
              match TLSWrite W tlsConn httpRequest with
              | Some err =>
                  _ ← emit (EvTLSClose tlsConn);
                  _ ← post (Some err); mret reg
              | None =>
                  _ ← post None;
                  _ ← emit (EvReadAndClose dialConn);
                  _ ← emit EvCallback;
                  mret reg
              end
          end
      end
  end.

(** ** [register] *)

(** [err.(RegError)] succeeds and the code is [Unreachable]. *)
Definition is_unreachable (err : option error) : bool :=
  match err with
  | Some (RegErrorV code _) => (code =? Unreachable)%N
  | _ => false
  end.

(** The loop [for err := range dialErrors]. [arrivals] is what the send
    goroutines post on the channel, in the order of arrival; the channel is
    never closed, so a receive with nothing left to arrive never returns.
    The loop yields the count of unreachable results and what it left
    unread. [unreachableCount] stays at or below [width], a slice length,
    so its increment does not wrap. *)
Fixpoint tally (arrivals : list (option error)) (width unreachableCount : N)
    : outcome (N * list (option error)) :=
  match arrivals with
  | [] => Blocked
  | err :: rest =>
      if is_unreachable err then
        let unreachableCount := (unreachableCount + 1)%N in
        if (unreachableCount <? width)%N then tally rest width unreachableCount
        else Done (unreachableCount, rest)
      else Done (unreachableCount, rest)
  end.

Definition with_selection (cjSession : ConjureSession) (decoys : list decoy_ptr)
    (ph : option IP) : ConjureSession :=
  {| Keys := Keys cjSession; Width := Width cjSession; V6Support := V6Support cjSession;
     UseProxyHeader := UseProxyHeader cjSession; SessionID := SessionID cjSession;
     RegDecoys := decoys; Phantom := ph; Transport := Transport cjSession;
     CovertAddress := CovertAddress cjSession; session_stats := session_stats cjSession |}.

Definition AllUnreachable : error :=
  RegErrorP Unreachable "All decoys failed to register -- Dial Unreachable".

(** [register] returns the session as it has updated it, what it left unread
    on the channel, and its two results. The registration is the one handed
    to the send goroutines; they set the round-trip times in its [stats]
    while [register] waits, which the value returned here does not show. *)
Definition register (a : Assets) (cjSession : ConjureSession)
    (arrivals : list (option error))
    : outcome (ConjureSession * list (option error) * (option ConjureReg * option error)) :=
  k ← deref (Keys cjSession);
  v ← deref (V6Support cjSession);
  decoys ← SelectDecoys a (slice_bytes (SharedSecret k)) (include v) (Width cjSession);
  let sel := SelectPhantom X (ConjureSeed k) (support v) in
  let cjSession := with_selection cjSession decoys sel.1 in
  match sel.2, Phantom cjSession with
  | Some err, _ => Done (cjSession, arrivals, (None, Some err))
  | None, None => Done (cjSession, arrivals, (None, None))
  | None, Some _ =>
      let reg :=
        {| seed := []; sessionIDStr := IDString cjSession; phantom := Phantom cjSession;
           useProxyHeader := false; covertAddress := CovertAddress cjSession;
           phantomSNI := ""; v6Support := support v; transport := 0%N;
           stats := Some empty_stats; keys := Keys cjSession |} in
      let width := N.of_nat (length (RegDecoys cjSession)) in
      t ← tally arrivals width 0%N;
      let unreachableCount := t.1 in
      if (unreachableCount =? width)%N then Done (cjSession, t.2, (None, Some AllUnreachable))
      else Done (cjSession, t.2, (Some reg, None))
  end.

(** ** The connect path *)

Definition reg_getTcpToDecoy (reg : ConjureReg) : N :=
  match stats reg with
  | Some st => GetTcpToDecoy st
  | None => 0%N
  end.

(** [reg.getRandomDuration]; the division of [int]s truncates. *)
Definition reg_getRandomDuration (reg : ConjureReg) (base min max : Z) : Z :=
  let addon := Z.quot (getRandInt W min max) 1000 in
  let rtt := rttInt (reg_getTcpToDecoy reg) in
  Millisecond * (base + rtt * addon).

Definition session_getTcpToDecoy (cjSession : ConjureSession) : N :=
  match session_stats cjSession with
  | Some st => GetTcpToDecoy st
  | None => 0%N
  end.

Definition session_getRandomDuration (cjSession : ConjureSession) (base min max : Z) : Z :=
  let addon := Z.quot (getRandInt W min max) 1000 in
  let rtt := rttInt (session_getTcpToDecoy cjSession) in
  Millisecond * (base + rtt * addon).

(** [net.JoinHostPort] *)
Definition JoinHostPort (host port : string) : string :=
  if existsb (fun c => Ascii.eqb c ":") (list_ascii_of_string host)
  then "[" +:+ host +:+ "]:" +:+ port
  else host +:+ ":" +:+ port.

Definition conn_write (conn : Conn) (data : bytes) : M unit :=
  emit (EvConnWrite conn data).

(** [context.Context], as far as the file looks at it. *)
Record Context : Type := { Deadline : option Z }.

(** [cjSession.connect], the session-level copy. *)
Definition connect (cjSession : ConjureSession) (ctx : Context)
    : M (option Conn * option error) :=
  let deadline :=
    match Deadline ctx with
    | Some d => d
    | None => Now W + session_getRandomDuration cjSession 0 (1061 * 2) (1953 * 3)
    end in
  ph ← lift (deref (Phantom cjSession));
  let phantomAddr := JoinHostPort (IP_String X ph) "443" in
  r ← dial phantomAddr (Some deadline);
  match r with
  | Err err => mret (None, Some err)
  | Ok conn =>
      if (Transport cjSession =? MinTransport)%N then
        k ← lift (deref (Keys cjSession));
        let connectTag := conjureHMAC (slice_bytes (SharedSecret k)) "MinTrasportHMACString" in
        _ ← conn_write conn connectTag;
        mret (Some conn, None)
      else if (Transport cjSession =? Obfs4Transport)%N then
        mret (None, Some (ErrorString "connect not yet implemented"))
      else if (Transport cjSession =? NullTransport)%N then
        mret (Some conn, None)
      else
        k ← lift (deref (Keys cjSession));
        let connectTag := conjureHMAC (slice_bytes (SharedSecret k)) "MinTrasportHMACString" in
        _ ← conn_write conn connectTag;
        mret (Some conn, None)
  end.

(** [reg.Connect], the registration-level copy, which [DialConjure] calls. *)
Definition Connect (reg : ConjureReg) (ctx : Context) : M (option Conn * option error) :=
  let deadline :=
    match Deadline ctx with
    | Some d => d
    | None => Now W + reg_getRandomDuration reg 0 (1061 * 2) (1953 * 3)
    end in
  ph ← lift (deref (phantom reg));
  let phantomAddr := JoinHostPort (IP_String X ph) "443" in
  r ← dial phantomAddr (Some deadline);
  match r with
  | Err err => mret (None, Some err)
  | Ok conn =>
      if (transport reg =? MinTransport)%N then
        k ← lift (deref (keys reg));
        let connectTag := conjureHMAC (slice_bytes (SharedSecret k)) "MinTrasportHMACString" in
        _ ← conn_write conn connectTag;
        mret (None, None)
      else if (transport reg =? Obfs4Transport)%N then
        mret (None, Some (ErrorString "connect not yet implemented"))
      else
        k ← lift (deref (keys reg));
        let connectTag := conjureHMAC (slice_bytes (SharedSecret k)) "MinTrasportHMACString" in
        _ ← conn_write conn connectTag;
        mret (None, None)
  end.

(** ** [generateSharedKeys] *)

(** One [tdHkdf.Read] into a buffer of [n] zero bytes. Once a read has
    failed the function returns, so the later buffers stay as made. *)
Definition read_key (r : option HKDF.reader) (n : nat) : bytes * option HKDF.reader :=
  match r with
  | None => (zero_bytes n, None)
  | Some r =>
      match HKDF.Read r n with
      | Some (b, r') => (b, Some r')
      | None => (zero_bytes n, None)
      end
  end.

Definition generateSharedKeys (pubkey : bytes) : option sharedKeys * option error :=
  match generateEligatorTransformedKey W pubkey with
  | Err err => (None, Some err)
  | Ok (sharedSecret, representative) =>
      let tdHkdf :=
        HKDF.New sharedSecret (bytes_of_string "conjureconjureconjureconjure") [] in
      let '(fspKey, r) := read_key (Some tdHkdf) 16 in
      let '(fspIv, r) := read_key r 12 in
      let '(vspKey, r) := read_key r 16 in
      let '(vspIv, r) := read_key r 12 in
      let '(newMasterSecret, r) := read_key r 48 in
      let '(conjureSeed, r) := read_key r 16 in
      let keys :=
        {| SharedSecret := Some sharedSecret; Representative := representative;
           FspKey := fspKey; FspIv := fspIv; VspKey := vspKey; VspIv := vspIv;
           NewMasterSecret := newMasterSecret; ConjureSeed := conjureSeed |} in
      (Some keys,
       match r with
       | Some _ => None
       | None => Some (ErrorString "hkdf: entropy limit reached")
       end)
  end.

End Conjure.

(** ** Keys as [generateSharedKeys] makes them *)

Definition keys_wf (k : sharedKeys) : Prop :=
  length (slice_bytes (SharedSecret k)) = 32%nat /\
  length (Representative k) = 32%nat /\
  length (FspKey k) = 16%nat /\ length (FspIv k) = 12%nat /\
  length (VspKey k) = 16%nat /\ length (VspIv k) = 12%nat /\
  length (NewMasterSecret k) = 48%nat /\ length (ConjureSeed k) = 16%nat.

(** The result of the phantom dial as [Connect] sees it. *)
Definition phantom_dial (X : Externals) (W : World) (ph : IP) (deadline : Z) : result Conn :=
  DialContext W (JoinHostPort (IP_String X ph) "443") (Some deadline).

Definition reg_deadline (W : World) (reg : ConjureReg) (ctx : Context) : Z :=
  match Deadline ctx with
  | Some d => d
  | None => Now W + reg_getRandomDuration W reg 0 (1061 * 2) (1953 * 3)
  end.

Definition session_deadline (W : World) (cjSession : ConjureSession) (ctx : Context) : Z :=
  match Deadline ctx with
  | Some d => d
  | None => Now W + session_getRandomDuration W cjSession 0 (1061 * 2) (1953 * 3)
  end.

(** ** Data for the examples *)

Module Demo.

Definition secret : bytes :=
  unhex "abcdef0123456789abcdef0123456789abcdef0123456789abcdef0123456789".

Definition representative : bytes :=
  unhex "00112233445566778899aabbccddeeff00112233445566778899aabbccddeeff".

Definition phantom_ip : IP := [xc0; x7a; xbe; x07]%byte.

(** Sealing that keeps the sizes of AES-128-GCM: it wants a 16-byte key and
    a 12-byte IV and appends a 16-byte tag. *)
Definition externals : Externals :=
  {| aesGcmEncrypt := fun plaintext key iv =>
       if ((length key =? 16) && (length iv =? 12))%nat
       then Ok (plaintext ++ zero_bytes AES_GCM_TAG_SIZE)
       else Err (ErrorString "crypto/aes: invalid key size");
     reverseEncrypt := fun tag keystream => tag;
     generateHTTPRequestBeginning := fun hostname =>
       bytes_of_string ("GET / HTTP/1.1" +:+ crlf +:+ "Host: " +:+ hostname +:+ crlf);
     SelectPhantom := fun seed v6 => (Some phantom_ip, None);
     default_flags := 1;
     tdFlagProxyHeader := 2;
     IP_String := fun ip => "192.122.190.7";
     SplitHostPort := fun s => Ok (s, "443");
     schema := {| Proto.covert_address_no := 20;
                  Proto.decoy_list_generation_no := 2;
                  Proto.v6_support_no := 22;
                  Proto.masked_decoy_server_name_no := 21;
                  Proto.padding_no := 100 |} |}.

(** A world in which every dial and handshake succeeds. *)
Definition world : World :=
  {| DialContext := fun address deadline => Ok 7%N;
     Handshake := fun c serverName deadline => Ok 8%N;
     GetOutKeystream := fun c n => Ok (zero_bytes n);
     TLSWrite := fun c data => None;
     Now := 0;
     getRandInt := fun min max => min;
     getRandomDuration := fun min max => min;
     tcp_ms := fun address => 40%N;
     tls_ms := fun c => 90%N;
     generateEligatorTransformedKey := fun pubkey => Ok (secret, representative) |}.

Definition no_keys : sharedKeys :=
  {| SharedSecret := None; Representative := []; FspKey := []; FspIv := [];
     VspKey := []; VspIv := []; NewMasterSecret := []; ConjureSeed := [] |}.

Definition shared_keys : sharedKeys :=
  Eval vm_compute in default no_keys (generateSharedKeys world (zero_bytes 32)).1.

Definition decoy (n : string) : decoy_ptr :=
  Some {| Hostname := n +:+ ".example.org"; IpAddrStr := "10.0.0." +:+ n +:+ ":443" |}.

Definition assets : Assets :=
  {| GetV4Decoys := [decoy "1"; decoy "2"; decoy "3"];
     GetV6Decoys := [];
     GetAllDecoys := [decoy "1"; decoy "2"; decoy "3"];
     GetGeneration := 957 |}.

Definition session : ConjureSession :=
  {| Keys := Some shared_keys; Width := 2;
     V6Support := Some {| support := false; include := v4; checked := 0 |};
     UseProxyHeader := true; SessionID := 7; RegDecoys := []; Phantom := None;
     Transport := NullTransport; CovertAddress := "example.com:443";
     session_stats := None |}.

Definition session_without_keys : ConjureSession :=
  {| Keys := None; Width := 2;
     V6Support := Some {| support := false; include := v4; checked := 0 |};
     UseProxyHeader := false; SessionID := 7; RegDecoys := []; Phantom := None;
     Transport := NullTransport; CovertAddress := ""; session_stats := None |}.

Definition reg_with (t : N) (covert : string) : ConjureReg :=
  {| seed := []; sessionIDStr := IDString session; phantom := Some phantom_ip;
     useProxyHeader := false; covertAddress := covert; phantomSNI := "";
     v6Support := false; transport := t; stats := Some empty_stats; keys := Some shared_keys |}.

Definition reg : ConjureReg := reg_with MinTransport "example.com:443".
Definition null_reg : ConjureReg := reg_with NullTransport "example.com:443".

(** A covert address of 70000 characters. *)
Definition long_reg : ConjureReg :=
  reg_with MinTransport (string_of_list_ascii (replicate (Z.to_nat 70000) "a"%char)).

(** The session with the transport and the phantom that a caller of the
    session-level [connect] would have set. *)
Definition session_at (t : N) : ConjureSession :=
  {| Keys := Some shared_keys; Width := 2;
     V6Support := Some {| support := false; include := v4; checked := 0 |};
     UseProxyHeader := true; SessionID := 7; RegDecoys := []; Phantom := Some phantom_ip;
     Transport := t; CovertAddress := "example.com:443"; session_stats := None |}.

Definition ctx : Context := {| Deadline := None |}.

Definition v4_only : V6 := {| support := false; include := v4; checked := 0 |}.

(** Two results on the channel: one unreachable, then a success. *)
Definition arrivals : list (option error) :=
  [Some (RegErrorV Unreachable "dial tcp 10.0.0.1:443: connect: network is unreachable");
   None].

(** What [register] makes of the session and these arrivals. *)
Definition registered : outcome (ConjureSession * list (option error)
                                 * (option ConjureReg * option error)) :=
  Eval vm_compute in register externals assets session arrivals.

Definition registration : ConjureReg :=
  Eval vm_compute in
    match registered with
    | Done (_, _, (Some r, _)) => r
    | _ => reg
    end.

Definition session_after : ConjureSession :=
  Eval vm_compute in
    match registered with
    | Done (s, _, _) => s
    | _ => session
    end.

End Demo.

(** ** The rest of [conjure.go]: the v6 policy, [Register], [DialConjure] and
    session creation *)

Definition Hour : Z := 3600 * 1000 * Millisecond.

Definition with_V6 (cjSession : ConjureSession) (v : V6) : ConjureSession :=
  {| Keys := Keys cjSession; Width := Width cjSession; V6Support := Some v;
     UseProxyHeader := UseProxyHeader cjSession; SessionID := SessionID cjSession;
     RegDecoys := RegDecoys cjSession; Phantom := Phantom cjSession;
     Transport := Transport cjSession; CovertAddress := CovertAddress cjSession;
     session_stats := session_stats cjSession |}.

(** [setV6Support]; the argument is [support] in the source. It writes two
    fields of the [V6] that the session points to. *)
Definition setV6Support (cjSession : ConjureSession) (supportArg : N)
    : outcome ConjureSession :=
  v ← deref (V6Support cjSession);
  let v' :=
    if (supportArg =? v4)%N then {| support := false; include := v4; checked := checked v |}
    else if (supportArg =? v6)%N then {| support := true; include := v6; checked := checked v |}
    else if (supportArg =? both)%N then
      {| support := true; include := both; checked := checked v |}
    else {| support := true; include := v6; checked := checked v |} in
  mret (with_V6 cjSession v').

(** [useV4] and [useV6], at the time [now]; [t.Before(u)] is [t < u]. *)
Definition useV4 (cjSession : ConjureSession) (now : Z) : outcome bool :=
  v ← deref (V6Support cjSession);
  if checked v <? now + - 2 * Hour then mret false
  else if negb (include v =? v4)%N then mret false
  else mret true.

Definition useV6 (cjSession : ConjureSession) (now : Z) : outcome bool :=
  v ← deref (V6Support cjSession);
  if checked v <? now + - 2 * Hour then mret false
  else if (include v =? v4)%N then mret false
  else mret true.

Section Dialing.

Variable X : Externals.
Variable W : World.

(** The decoy that [Assets().GetV6Decoy()] hands to [testV6]; the assets
    are not part of this file. *)
Variable v6Decoy : decoy_ptr.

(** [testV6]. A goroutine dials the v6 decoy, closes the connection if the
    dial succeeded, and posts the result; [testV6] sleeps 500 microseconds
    and answers whether nothing has been posted yet. [probe] is that
    answer. With [probe = false] the goroutine has finished, so its dial
    and its close are in the trace; with [probe = true] the dial is still
    in flight, and what the goroutine does after [testV6] has returned is
    not in the trace. *)
Definition testV6 (probe : bool) : M bool :=
  r ← dial W (GetIpAddrStr v6Decoy) None;
  if probe then mret true
  else
    match r with
    | Ok conn => _ ← emit (EvConnClose conn); mret false
    | Err err => mret false
    end.

(** [Register]. The trace is that of the probe: the send goroutines that
    [register] starts have their effects in [send]. *)
Definition Register (probe : bool) (a : Assets) (cjSession : ConjureSession)
    (arrivals : list (option error))
    : M (ConjureSession * list (option error) * (option ConjureReg * option error)) :=
  testV6 probe ≫= fun b : bool =>
  if b then
    cjSession ← lift (setV6Support cjSession both);
    lift (register X a cjSession arrivals)
  else
    cjSession ← lift (setV6Support cjSession v4);
    lift (register X a cjSession arrivals).

(** The registration with the statistics that the send goroutines, which
    share it, have written so far. *)
Definition with_stats (reg : ConjureReg) (st : SessionStats) : ConjureReg :=
  {| seed := seed reg; sessionIDStr := sessionIDStr reg; phantom := phantom reg;
     useProxyHeader := useProxyHeader reg; covertAddress := covertAddress reg;
     phantomSNI := phantomSNI reg; v6Support := v6Support reg;
     transport := transport reg; stats := Some st; keys := keys reg |}.

(** [getRandomDuration] and [Connect] on a [*ConjureReg] that may be nil:
    the first is nil-safe, the second dereferences the registration. *)
Definition ptr_getRandomDuration (reg : option ConjureReg) (base min max : Z) : Z :=
  match reg with
  | Some r => reg_getRandomDuration W r base min max
  | None => Millisecond * (base + rttInt 0 * Z.quot (getRandInt W min max) 1000)
  end.

Definition ptr_Connect (reg : option ConjureReg) (ctx : Context)
    : M (option Conn * option error) :=
  match reg with
  | Some r => Connect X W r ctx
  | None => lift (Panic "invalid memory address or nil pointer dereference")
  end.

(** What a call of [DialConjure] leaves: the [V6] it has stored in the
    assets, the time it has slept, and its two results. *)
Record Dialed : Type := {
  stored_v6 : option V6;
  slept : option Z;
  returned : option Conn * option error
}.

(** [DialConjure]. [seen] is the statistics record of the registration when
    [Register] returns. The trace holds the effects of the probe and of the
    connect; those of the send goroutines are in [send]. *)
Definition DialConjure (probe : bool) (a : Assets) (cjSession : option ConjureSession)
    (arrivals : list (option error)) (seen : SessionStats) (ctx : Context) : M Dialed :=
  match cjSession with
  | None =>
      mret {| stored_v6 := None; slept := None;
              returned := (None, Some (ErrorString "No Session Provided")) |}
  | Some cjSession =>
      r ← Register probe a cjSession arrivals;
      match r.2.2 with
      | Some err => mret {| stored_v6 := None; slept := None; returned := (None, Some err) |}
      | None =>
          let cjSession := r.1.1 in
          let registration := (fun reg => with_stats reg seen) <$> r.2.1 in
          let toSleep := ptr_getRandomDuration registration 3000 212 3449 in
          res ← ptr_Connect registration ctx;
          mret {| stored_v6 := V6Support cjSession; slept := Some toSleep; returned := res |}
      end
  end.

(** Modelled from the spec: "a numeric session ID (monotone per process)".
    [GetAndInc] of the session counter, a [uint64] whose type is not part of
    this file: it returns the value held and leaves one more. *)
Definition GetAndInc (counter : N) : N * N :=
  (counter, ((counter + 1) mod 2 ^ 64)%N).

(** [makeConjureSession]. The station key, the assets' [V6] and the session
    counter are arguments; the counter is returned as [GetAndInc] leaves it. *)
Definition makeConjureSession (pubkey : bytes) (v : option V6) (sessionsTotal : N)
    (covert : string) : option ConjureSession * N :=
  match generateSharedKeys W pubkey with
  | (_, Some err) => (None, sessionsTotal)
  | (keys, None) =>
      (Some {| Keys := keys; Width := defaultRegWidth; V6Support := v;
               UseProxyHeader := false; SessionID := (GetAndInc sessionsTotal).1;
               RegDecoys := []; Phantom := None; Transport := NullTransport;
               CovertAddress := covert; session_stats := None |},
       (GetAndInc sessionsTotal).2)
  end.

(** [DialConjureAddr] *)
Definition DialConjureAddr (probe : bool) (a : Assets) (pubkey : bytes) (v : option V6)
    (sessionsTotal : N) (arrivals : list (option error)) (seen : SessionStats)
    (ctx : Context) (address : string) : M Dialed :=
  let cjSession := (makeConjureSession pubkey v sessionsTotal address).1 in
  DialConjure probe a cjSession arrivals seen ctx.

End Dialing.

(** ** The command line: [setSingleDecoyHost] *)

Module Cli.

(** Modelled from the spec: the client configuration behind
    [Assets().GetClientConfPtr()], of which the function sets the decoy list
    and the generation. *)
Record ClientConf : Type := {
  DecoyList : list decoy_ptr;
  Generation : option N
}.

(** The resolver, the address parser and the decoy constructor, which are
    library functions and a function of the protobuf package. *)
Record Net : Type := {
  LookupHost : string -> result (list string);
  ParseIP : string -> option IP;
  InitTLSDecoySpec : string -> string -> TLSDecoySpec
}.

(** [strings.Split(s, ",")] *)
Fixpoint Split (s : string) : list string :=
  match s with
  | EmptyString => [EmptyString]
  | String c r =>
      if Ascii.eqb c "," then EmptyString :: Split r
      else match Split r with
           | h :: t => String c h :: t
           | [] => [String c EmptyString]
           end
  end.

(** The character of a double quote. *)
Definition dquote : string := String "034" EmptyString.

Definition setSingleDecoyHost (net : Net) (conf : ClientConf) (decoy : string)
    : outcome (ClientConf * option error) :=
  let splitDecoy := Split decoy in
  let set ip :=
    sni ← deref (splitDecoy !! 0%nat);
    let decoySpec := InitTLSDecoySpec net ip sni in
    mret ({| DecoyList := [Some decoySpec]; Generation := Some (2 ^ 32 - 1)%N |}, None) in
  match length splitDecoy with
  | 1%nat =>
      match LookupHost net decoy with
      | Err err => mret (conf, Some err)
      | Ok ips =>
          match ips !! 0%nat with
          | None => Panic "index out of range"
          | Some ip => set ip
          end
      end
  | 2%nat =>
      match splitDecoy !! 1%nat with
      | None => Panic "index out of range"
      | Some ip =>
          match ParseIP net ip with
          | None =>
              mret (conf, Some (ErrorString
                ("provided IP address " +:+ dquote +:+ ip +:+ dquote +:+ " is invalid")))
          | Some _ => set ip
          end
      end
  | _ =>
      mret (conf, Some (ErrorString (dquote +:+ decoy +:+ dquote +:+ " contains too many commas")))
  end.

End Cli.

(** ** More data for the examples *)

Module Scenario.

Definition unreachable_text : string :=
  "dial tcp 10.0.0.1:443: connect: network is unreachable".

(** A world without a route: every dial fails as unreachable. *)
Definition unreachable_world : World :=
  {| DialContext := fun address deadline =>
       Err (OpError unreachable_text "connect: network is unreachable");
     Handshake := fun c serverName deadline => Ok 8%N;
     GetOutKeystream := fun c n => Ok (zero_bytes n);
     TLSWrite := fun c data => None;
     Now := 0;
     getRandInt := fun min max => min;
     getRandomDuration := fun min max => min;
     tcp_ms := fun address => 40%N;
     tls_ms := fun c => 90%N;
     generateEligatorTransformedKey := fun pubkey => Ok (Demo.secret, Demo.representative) |}.

(** A world in which the Elligator step fails. *)
Definition keyless_world : World :=
  {| DialContext := fun address deadline => Ok 7%N;
     Handshake := fun c serverName deadline => Ok 8%N;
     GetOutKeystream := fun c n => Ok (zero_bytes n);
     TLSWrite := fun c data => None;
     Now := 0;
     getRandInt := fun min max => min;
     getRandomDuration := fun min max => min;
     tcp_ms := fun address => 40%N;
     tls_ms := fun c => 90%N;
     generateEligatorTransformedKey := fun pubkey =>
       Err (ErrorString "elligator: no representative") |}.

(** The externals of the examples with a phantom selection that returns
    neither a phantom nor an error. *)
Definition no_phantom : Externals :=
  {| aesGcmEncrypt := aesGcmEncrypt Demo.externals;
     reverseEncrypt := reverseEncrypt Demo.externals;
     generateHTTPRequestBeginning := generateHTTPRequestBeginning Demo.externals;
     SelectPhantom := fun seed v6 => (None, None);
     default_flags := default_flags Demo.externals;
     tdFlagProxyHeader := tdFlagProxyHeader Demo.externals;
     IP_String := IP_String Demo.externals;
     SplitHostPort := SplitHostPort Demo.externals;
     schema := schema Demo.externals |}.

Definition obfs4_reg : ConjureReg := Demo.reg_with Obfs4Transport "example.com:443".

(** The example session with a width of zero. *)
Definition zero_width_session : ConjureSession :=
  {| Keys := Some Demo.shared_keys; Width := 0;
     V6Support := Some Demo.v4_only;
     UseProxyHeader := true; SessionID := 7; RegDecoys := []; Phantom := None;
     Transport := NullTransport; CovertAddress := "example.com:443";
     session_stats := None |}.

(** The statistics once a send has recorded a TCP time of 40 ms. *)
Definition seen : SessionStats :=
  {| TcpToDecoy := Some 40%N; TlsToDecoy := Some 90%N; TotalTimeToConnect := None |}.

(** A resolver that knows one address, and a parser that accepts one. *)
Definition net : Cli.Net :=
  {| Cli.LookupHost := fun host => Ok ["192.0.2.1"%string];
     Cli.ParseIP := fun s => if String.eqb s "192.0.2.7" then Some Demo.phantom_ip else None;
     Cli.InitTLSDecoySpec := fun ip sni => {| Hostname := sni; IpAddrStr := ip +:+ ":443" |} |}.

Definition conf : Cli.ClientConf :=
  {| Cli.DecoyList := Demo.assets.(GetAllDecoys); Cli.Generation := Some 957%N |}.

(** The decoy that the v6 probe dials. *)
Definition v6_decoy : decoy_ptr :=
  Some {| Hostname := "v6.example.org"; IpAddrStr := "[2001:db8::1]:443" |}.

(** What [DialConjure] does for the example session when the probe finds no
    v6: its dial has returned within the 500 microseconds. *)
Definition dialed : M Dialed :=
  Eval vm_compute in
    DialConjure Demo.externals Demo.world v6_decoy false Demo.assets (Some Demo.session)
      Demo.arrivals seen Demo.ctx.

End Scenario.

(** * Properties *)

Arguments conjureHMAC : simpl never.
Arguments HMAC.sum : simpl never.
Arguments SHA256.sum : simpl never.
Arguments JoinHostPort : simpl never.
Arguments reg_getRandomDuration : simpl never.
Arguments session_getRandomDuration : simpl never.
Arguments FormatUint10 : simpl never.
Arguments Proto.Marshal : simpl never.

(** ** Hashing: known answers and sizes *)

Example K_first_last :
  hd 0 SHA256.K = 0x428a2f98 /\ last SHA256.K = Some 0xc67178f2 /\ length SHA256.K = 64%nat.
Proof. vm_compute. auto. Qed.

Example H0_values :
  SHA256.H0 = [0x6a09e667; 0xbb67ae85; 0x3c6ef372; 0xa54ff53a;
               0x510e527f; 0x9b05688c; 0x1f83d9ab; 0x5be0cd19].
Proof. vm_compute. reflexivity. Qed.

Example sha256_abc :
  hex_string (SHA256.sum (bytes_of_string "abc"))
  = "ba7816bf8f01cfea414140de5dae2223b00361a396177a9cb410ff61f20015ad"%string.
Proof. vm_compute. reflexivity. Qed.

Example sha256_empty :
  hex_string (SHA256.sum [])
  = "e3b0c44298fc1c149afbf4c8996fb92427ae41e4649b934ca495991b7852b855"%string.
Proof. vm_compute. reflexivity. Qed.

Example sha256_two_blocks :
  hex_string (SHA256.sum (bytes_of_string
     "abcdbcdecdefdefgefghfghighijhijkijkljklmklmnlmnomnopnopq"))
  = "248d6a61d20638b8e5c026930c3e6039a33ce45964ff2167f6ecedd419db06c1"%string.
Proof. vm_compute. reflexivity. Qed.

(** RFC 4231, test cases 2 and 6 (the latter with a key longer than a block). *)
Example hmac_rfc4231_2 :
  hex_string (HMAC.sum (bytes_of_string "Jefe")
                       (bytes_of_string "what do ya want for nothing?"))
  = "5bdcc146bf60754e6a042426089575c75a003f089d2739839dec58b964ec3843"%string.
Proof. vm_compute. reflexivity. Qed.

Example hmac_rfc4231_6 :
  hex_string (HMAC.sum (replicate 131 xaa%byte)
     (bytes_of_string "Test Using Larger Than Block-Size Key - Hash Key First"))
  = "60e431591ee0b67f0d8a26aacbf5b77f8e0bc6213728c5140546040f0ee37f54"%string.
Proof. vm_compute. reflexivity. Qed.

Example hmac_empty_key_empty_message :
  hex_string (HMAC.sum [] [])
  = "b613679a0814d9ec772f95d778c35fc5ff1697c493715653c6c712144292c5ad"%string.
Proof. vm_compute. reflexivity. Qed.

(** The tag of the Min transport for a key of 32 zero bytes. *)
Example min_tag_zero_key :
  hex_string (conjureHMAC (zero_bytes 32) "MinTrasportHMACString")
  = "eeff073379f43acfc6fc967695fd78be7fd7c42ae6194eccfeff8461b7a41be8"%string.
Proof. vm_compute. reflexivity. Qed.

Lemma length_be_bytes n z : length (be_bytes n z) = n.
Proof. induction n as [|n IH]; simpl; [reflexivity | by rewrite IH]. Qed.

Lemma SHA256_sum_length msg : length (SHA256.sum msg) = 32%nat.
Proof.
  unfold SHA256.sum, SHA256.digest.
  rewrite !length_app, !length_be_bytes. reflexivity.
Qed.

Lemma conjureHMAC_eq key str :
  conjureHMAC key str = HMAC.sum key (bytes_of_string str).
Proof. unfold conjureHMAC. reflexivity. Qed.

Lemma conjureHMAC_length key str : length (conjureHMAC key str) = 32%nat.
Proof. unfold conjureHMAC, HMAC.sum. apply SHA256_sum_length. Qed.

Lemma byte_to_Z_range b : 0 <= byte_to_Z b < 256.
Proof. unfold byte_to_Z. pose proof (Byte.to_N_bounded b). lia. Qed.

Lemma be_to_Z_nonneg bs : 0 <= be_to_Z bs.
Proof.
  unfold be_to_Z.
  assert (H : forall acc, 0 <= acc ->
                0 <= fold_left (fun acc b => acc * 256 + byte_to_Z b) bs acc).
  { induction bs as [|b bs IH]; intros acc Hacc; simpl; [exact Hacc|].
    apply IH. pose proof (byte_to_Z_range b). lia. }
  apply H. lia.
Qed.

(** ** The connect path *)

Section ConnectPath.

Variable X : Externals.
Variable W : World.

(** What [reg.Connect] does once the phantom dial has succeeded and the
    transport is not Obfs4: it writes the tag and returns no connection. *)
Lemma Connect_after_dial reg ctx ph k conn :
  phantom reg = Some ph -> keys reg = Some k ->
  phantom_dial X W ph (reg_deadline W reg ctx) = Ok conn ->
  transport reg <> Obfs4Transport ->
  Connect X W reg ctx =
    ([EvDial (JoinHostPort (IP_String X ph) "443") (Some (reg_deadline W reg ctx));
      EvConnWrite conn (conjureHMAC (slice_bytes (SharedSecret k)) "MinTrasportHMACString")],
     Done (None, None)).
Proof.
  intros Hph Hk Hd Ho.
  unfold Connect. rewrite Hph, Hk. cbn.
  unfold phantom_dial, reg_deadline in Hd. rewrite Hd.
  destruct (N.eqb_spec (transport reg) MinTransport) as [E|E]; cbn; [reflexivity|].
  destruct (N.eqb_spec (transport reg) Obfs4Transport) as [E'|E']; [contradiction|].
  reflexivity.
Qed.

(** C1, on the code. With the phantom dial succeeding on [conn] and a
    transport other than Obfs4, [reg.Connect] returns [(nil, nil)]: the
    connection it has dialled is not handed to the caller. *)
Theorem Connect_returns_nil reg ctx ph k conn :
  phantom reg = Some ph -> keys reg = Some k ->
  phantom_dial X W ph (reg_deadline W reg ctx) = Ok conn ->
  transport reg <> Obfs4Transport ->
  (Connect X W reg ctx).2 = Done (None, None).
Proof. intros Hph Hk Hd Ho. by rewrite (Connect_after_dial reg ctx ph k conn). Qed.

(** C2, on the code. With [transport = NullTransport] and the phantom dial
    succeeding on [conn], [reg.Connect] writes the 32-byte Min tag to [conn]:
    the switch has no case for the Null transport, which falls to [default]. *)
Theorem Connect_null_writes_tag reg ctx ph k conn :
  phantom reg = Some ph -> keys reg = Some k ->
  phantom_dial X W ph (reg_deadline W reg ctx) = Ok conn ->
  transport reg = NullTransport ->
  written_to conn (Connect X W reg ctx).1 =
    [conjureHMAC (slice_bytes (SharedSecret k)) "MinTrasportHMACString"] /\
  length (conjureHMAC (slice_bytes (SharedSecret k)) "MinTrasportHMACString") = 32%nat.
Proof.
  intros Hph Hk Hd Ht. split; [|apply conjureHMAC_length].
  rewrite (Connect_after_dial reg ctx ph k conn); [|done|done|done|by rewrite Ht].
  cbn. by rewrite N.eqb_refl.
Qed.

(** C3. With the phantom dial succeeding on [conn] and a transport that is
    neither Null nor Obfs4 (Min, or any unknown value), [reg.Connect] dials and
    then writes to [conn], once, exactly the 32 bytes
    HMAC-SHA256(SharedSecret, "MinTrasportHMACString"), and nothing else. *)
Theorem Connect_min_tag reg ctx ph k conn :
  phantom reg = Some ph -> keys reg = Some k ->
  phantom_dial X W ph (reg_deadline W reg ctx) = Ok conn ->
  transport reg <> NullTransport -> transport reg <> Obfs4Transport ->
  let tag := HMAC.sum (slice_bytes (SharedSecret k))
                      (bytes_of_string "MinTrasportHMACString") in
  (Connect X W reg ctx).1 =
    [EvDial (JoinHostPort (IP_String X ph) "443") (Some (reg_deadline W reg ctx));
     EvConnWrite conn tag] /\
  written_to conn (Connect X W reg ctx).1 = [tag] /\
  length tag = 32%nat /\
  list_ascii_of_string "MinTrasportHMACString" =
    map ascii_of_byte (unhex "4d696e54726173706f7274484d4143537472696e67").
Proof.
  intros Hph Hk Hd Hn Ho tag.
  rewrite (Connect_after_dial reg ctx ph k conn) by done.
  subst tag. rewrite <- conjureHMAC_eq.
  split; [reflexivity|]. split; [|split].
  - cbn. by rewrite N.eqb_refl.
  - apply conjureHMAC_length.
  - vm_compute. reflexivity.
Qed.

(** The session-level copy of the connect path does return the connection,
    and has a case for the Null transport that writes nothing. *)
Lemma connect_returns_conn s ctx ph k conn :
  Phantom s = Some ph -> Keys s = Some k ->
  phantom_dial X W ph (session_deadline W s ctx) = Ok conn ->
  Transport s <> Obfs4Transport ->
  (connect X W s ctx).2 = Done (Some conn, None) /\
  (Transport s = NullTransport -> written_to conn (connect X W s ctx).1 = []).
Proof.
  intros Hph Hk Hd Ho.
  unfold connect. rewrite Hph, Hk. cbn.
  unfold phantom_dial, session_deadline in Hd. rewrite Hd.
  destruct (N.eqb_spec (Transport s) MinTransport) as [E|E]; cbn.
  { split; [reflexivity|]. intros Hn. rewrite Hn in E. discriminate. }
  destruct (N.eqb_spec (Transport s) Obfs4Transport) as [E'|E']; [contradiction|].
  destruct (N.eqb_spec (Transport s) NullTransport) as [E''|E'']; cbn.
  - split; [reflexivity|]. reflexivity.
  - split; [reflexivity|]. intros Hn. contradiction.
Qed.

End ConnectPath.

(** ** Decoy selection *)

(** The index drawn for position [i]: the HMAC read as a big-endian unsigned
    integer, its absolute value, modulo the size of the pool. *)
Local Abbreviation decoy_index sharedSecret pool i :=
  (Z.to_nat (Z.abs (be_to_Z (conjureHMAC sharedSecret
                               ("registrationdecoy" +:+ FormatUint10 i)))
             mod Z.of_nat (length pool))) (only parsing).

Lemma decoy_index_lt sharedSecret (pool : list decoy_ptr) i :
  pool <> [] -> (decoy_index sharedSecret pool i < length pool)%nat.
Proof.
  intros Hne.
  assert (0 < Z.of_nat (length pool)) by (destruct pool; [done | simpl; lia]).
  pose proof (Z.mod_pos_bound
    (Z.abs (be_to_Z (conjureHMAC sharedSecret ("registrationdecoy" +:+ FormatUint10 i))))
    (Z.of_nat (length pool))). lia.
Qed.

(** One iteration of the loop. *)
Lemma SelectDecoys_loop_unfold n i sharedSecret allDecoys decoys :
  SelectDecoys_loop (S n) i sharedSecret allDecoys decoys =
    if Z.of_nat (length allDecoys) =? 0 then Panic "division by zero"
    else
      match allDecoys !! Z.to_nat
              (Z.abs (be_to_Z (conjureHMAC sharedSecret
                                 ("registrationdecoy" +:+ FormatUint10 i)))
               mod Z.of_nat (length allDecoys)) with
      | None => Panic "index out of range"
      | Some d =>
          SelectDecoys_loop n (i + 1)%N sharedSecret allDecoys (<[N.to_nat i := d]> decoys)
      end.
Proof. reflexivity. Qed.

Lemma SelectDecoys_loop_step n i sharedSecret pool decoys d :
  pool <> [] ->
  pool !! decoy_index sharedSecret pool i = Some d ->
  SelectDecoys_loop (S n) i sharedSecret pool decoys =
  SelectDecoys_loop n (i + 1)%N sharedSecret pool (<[N.to_nat i := d]> decoys).
Proof.
  intros Hne Hd. rewrite SelectDecoys_loop_unfold.
  destruct (Z.eqb_spec (Z.of_nat (length pool)) 0) as [E|E].
  { destruct pool; [done | simpl in E; lia]. }
  rewrite Hd. reflexivity.
Qed.

Lemma SelectDecoys_loop_spec sharedSecret pool :
  pool <> [] ->
  forall n i decoys,
    length decoys = (N.to_nat i + n)%nat ->
    exists ds,
      SelectDecoys_loop n i sharedSecret pool decoys = Done ds /\
      length ds = length decoys /\
      (forall j, (j < N.to_nat i)%nat -> ds !! j = decoys !! j) /\
      (forall j, (N.to_nat i <= j < N.to_nat i + n)%nat ->
                 ds !! j = pool !! decoy_index sharedSecret pool (N.of_nat j)).
Proof.
  intros Hne. induction n as [|n IH]; intros i decoys Hlen.
  - exists decoys. split; [reflexivity|]. split; [reflexivity|].
    split; [done|]. intros j Hj. lia.
  - destruct (lookup_lt_is_Some_2 pool _ (decoy_index_lt sharedSecret pool i Hne))
      as [d Hd].
    rewrite (SelectDecoys_loop_step n i sharedSecret pool decoys d Hne Hd).
    destruct (IH (i + 1)%N (<[N.to_nat i := d]> decoys)) as (ds & Hrun & Hl & Hlow & Hhigh).
    { rewrite length_insert. lia. }
    exists ds. rewrite length_insert in Hl.
    split; [exact Hrun|]. split; [exact Hl|]. split.
    + intros j Hj. rewrite Hlow by lia. apply list_lookup_insert_ne. lia.
    + intros j Hj. destruct (decide (j = N.to_nat i)) as [->|Hne'].
      * rewrite Hlow by lia. rewrite N2Nat.id, Hd.
        apply list_lookup_insert_eq. lia.
      * apply Hhigh. lia.
Qed.

(** C5, on the code. With an empty pool and a width of at least one,
    [SelectDecoys] does not return: [big.Int.Mod] divides by zero in the
    first iteration. *)
Theorem SelectDecoys_empty_pool_panics a sharedSecret version width :
  decoy_pool a version = [] -> width <> 0%N ->
  SelectDecoys a sharedSecret version width = Panic "division by zero".
Proof.
  intros Hpool Hw. unfold SelectDecoys. rewrite Hpool.
  destruct (N.to_nat width) as [|n] eqn:E; [lia|].
  rewrite SelectDecoys_loop_unfold. reflexivity.
Qed.

(** With a width of zero the loop is not entered and the slice is empty. *)
Lemma SelectDecoys_width_zero a sharedSecret version :
  SelectDecoys a sharedSecret version 0 = Done [].
Proof. reflexivity. Qed.

(** With a non-empty pool [SelectDecoys] returns [width] decoys. *)
Lemma SelectDecoys_returns a sharedSecret version width :
  decoy_pool a version <> [] ->
  exists decoys,
    SelectDecoys a sharedSecret version width = Done decoys /\
    length decoys = N.to_nat width.
Proof.
  intros Hne. unfold SelectDecoys.
  destruct (SelectDecoys_loop_spec sharedSecret (decoy_pool a version) Hne
              (N.to_nat width) 0%N (replicate (N.to_nat width) None))
    as (ds & Hrun & Hl & _).
  { rewrite length_replicate. simpl. lia. }
  exists ds. rewrite length_replicate in Hl. by split.
Qed.

(** C6. With a non-empty pool for the family, [SelectDecoys] returns [width]
    decoys; the [i]-th is [pool[idx]] for [idx] the HMAC-SHA256 of
    "registrationdecoy" followed by the decimal [i] under the shared secret,
    read as a big-endian unsigned integer, in absolute value, modulo the size
    of the pool; and the result is a function of the secret, the width and
    that pool alone: any asset snapshot with the same pool gives it. *)
Theorem SelectDecoys_deterministic a sharedSecret version width pool :
  decoy_pool a version = pool -> pool <> [] ->
  exists decoys,
    SelectDecoys a sharedSecret version width = Done decoys /\
    length decoys = N.to_nat width /\
    (forall i, (i < width)%N ->
       exists d,
         pool !! Z.to_nat (Z.abs (be_to_Z (HMAC.sum sharedSecret
                    (bytes_of_string ("registrationdecoy" +:+ FormatUint10 i))))
                  mod Z.of_nat (length pool)) = Some d /\
         decoys !! N.to_nat i = Some d) /\
    (forall a', decoy_pool a' version = pool ->
       SelectDecoys a' sharedSecret version width = Done decoys).
Proof.
  intros Hpool Hne. unfold SelectDecoys. rewrite Hpool.
  destruct (SelectDecoys_loop_spec sharedSecret pool Hne (N.to_nat width) 0%N
              (replicate (N.to_nat width) None)) as (ds & Hrun & Hl & _ & Hhigh).
  { rewrite length_replicate. simpl. lia. }
  exists ds. rewrite length_replicate in Hl.
  split; [exact Hrun|]. split; [exact Hl|]. split.
  - intros i Hi.
    destruct (lookup_lt_is_Some_2 pool _ (decoy_index_lt sharedSecret pool i Hne))
      as [d Hd].
    exists d. rewrite <- conjureHMAC_eq. split; [exact Hd|].
    rewrite Hhigh by (simpl; lia). by rewrite N2Nat.id.
  - intros a' Hpool'. rewrite Hpool'. exact Hrun.
Qed.

(** The absolute value is that of a number that is not negative. *)
Lemma decoy_index_unsigned sharedSecret (pool : list decoy_ptr) i :
  decoy_index sharedSecret pool i =
  Z.to_nat (be_to_Z (conjureHMAC sharedSecret ("registrationdecoy" +:+ FormatUint10 i))
            mod Z.of_nat (length pool)).
Proof. by rewrite Z.abs_eq by apply be_to_Z_nonneg. Qed.

(** ** Registration *)

Arguments IDString : simpl never.
Arguments SelectDecoys : simpl never.

Local Abbreviation unreachable r := (is_unreachable r = true).

(** All results unreachable: the loop reads them all and counts [width]. *)
Lemma tally_all_unreachable arrivals width c :
  Forall (fun r => unreachable r) arrivals -> arrivals <> [] ->
  (c + N.of_nat (length arrivals) = width)%N ->
  tally arrivals width c = Done (width, []).
Proof.
  revert c. induction arrivals as [|r rest IH]; intros c Hall Hne Hlen; [done|].
  apply Forall_cons in Hall as [Hr Hrest]. simpl. rewrite Hr.
  destruct rest as [|r' rest'].
  - simpl in Hlen. destruct (N.ltb_spec (c + 1) width) as [Hlt|Hge]; [lia|].
    f_equal. f_equal. lia.
  - destruct (N.ltb_spec (c + 1) width) as [Hlt|Hge].
    + apply IH; [exact Hrest | done | simpl length in *; lia].
    + simpl length in Hlen. lia.
Qed.

(** A first result that is not unreachable: the loop stops there, with the
    count below [width] and the later results unread. *)
Lemma tally_first_other pre r post width c :
  Forall (fun r => unreachable r) pre -> is_unreachable r = false ->
  (c + N.of_nat (length pre) < width)%N ->
  tally (pre ++ r :: post) width c = Done ((c + N.of_nat (length pre))%N, post).
Proof.
  revert c. induction pre as [|p pre IH]; intros c Hall Hr Hlt.
  - simpl. rewrite Hr. f_equal. f_equal. lia.
  - apply Forall_cons in Hall as [Hp Hpre]. simpl. rewrite Hp.
    destruct (N.ltb_spec (c + 1) width) as [Hlt'|Hge]; [|simpl length in Hlt; lia].
    rewrite IH; [|exact Hpre|exact Hr|simpl length in Hlt; lia].
    f_equal. f_equal. simpl length. lia.
Qed.

Lemma first_other (arrivals : list (option error)) :
  Forall (fun r => unreachable r) arrivals \/
  exists pre r post,
    arrivals = pre ++ r :: post /\
    Forall (fun r => unreachable r) pre /\ is_unreachable r = false.
Proof.
  induction arrivals as [|x rest IH]; [left; constructor|].
  destruct (is_unreachable x) eqn:Hx.
  - destruct IH as [Hall | (pre & r & post & -> & Hpre & Hr)].
    + left. by constructor.
    + right. exists (x :: pre), r, post. split; [done|]. split; [by constructor|done].
  - right. exists [], x, rest. split; [done|]. split; [constructor|done].
Qed.

Lemma first_other_unique (pre pre' : list (option error)) r r' post post' :
  pre ++ r :: post = pre' ++ r' :: post' ->
  Forall (fun r => unreachable r) pre -> is_unreachable r = false ->
  Forall (fun r => unreachable r) pre' -> is_unreachable r' = false ->
  pre = pre' /\ r = r' /\ post = post'.
Proof.
  revert pre'. induction pre as [|p pre IH]; intros [|p' pre'] Heq Hpre Hr Hpre' Hr'.
  - by inversion Heq.
  - inversion Heq; subst. inversion Hpre'; subst. congruence.
  - inversion Heq; subst. inversion Hpre; subst. congruence.
  - inversion Heq; subst. inversion Hpre; subst. inversion Hpre'; subst.
    destruct (IH pre') as (-> & -> & ->); done.
Qed.

Section Registration.

Variable X : Externals.

(** What [register] returns once the decoys and the phantom are chosen: the
    outcome of the tally decides. *)
Lemma register_after_selection a s k v decoys ph arrivals :
  Keys s = Some k -> V6Support s = Some v ->
  SelectDecoys a (slice_bytes (SharedSecret k)) (include v) (Width s) = Done decoys ->
  SelectPhantom X (ConjureSeed k) (support v) = (Some ph, None) ->
  register X a s arrivals =
    t ← tally arrivals (N.of_nat (length decoys)) 0%N;
    let s' := with_selection s decoys (Some ph) in
    if (t.1 =? N.of_nat (length decoys))%N
    then Done (s', t.2, (None, Some AllUnreachable))
    else Done (s', t.2,
               (Some {| seed := []; sessionIDStr := IDString s'; phantom := Some ph;
                        useProxyHeader := false; covertAddress := CovertAddress s;
                        phantomSNI := ""; v6Support := support v; transport := 0%N;
                        stats := Some empty_stats; keys := Keys s |}, None)).
Proof.
  intros Hk Hv Hdec Hph. unfold register. rewrite Hk, Hv. cbn [deref mbind outcome_bind].
  rewrite Hdec. cbn [mbind outcome_bind]. rewrite Hph. cbn. rewrite ?Hk. reflexivity.
Qed.

(** C4. For a session of width at least one whose decoys and phantom have
    been chosen, and for the [Width] results of the send goroutines in any
    order of arrival: [register] returns, with the Unreachable error exactly
    when every result is an Unreachable error; and at the first result that is
    a success or another error it stops reading (the later results stay on
    the channel) and returns a registration with the keys, the phantom, the
    covert address and the v6 flag of the session, and no error. *)
Theorem register_unreachable_iff a s k v ph arrivals :
  Keys s = Some k -> V6Support s = Some v ->
  decoy_pool a (include v) <> [] ->
  SelectPhantom X (ConjureSeed k) (support v) = (Some ph, None) ->
  (1 <= Width s)%N -> length arrivals = N.to_nat (Width s) ->
  exists s' rest res,
    register X a s arrivals = Done (s', rest, res) /\
    (res = (None, Some AllUnreachable) <->
       Forall (fun r => is_unreachable r = true) arrivals) /\
    (forall pre r post,
       arrivals = pre ++ r :: post ->
       Forall (fun r => is_unreachable r = true) pre -> is_unreachable r = false ->
       rest = post /\
       exists reg,
         res = (Some reg, None) /\ keys reg = Keys s /\ phantom reg = Some ph /\
         covertAddress reg = CovertAddress s /\ v6Support reg = support v).
Proof.
  intros Hk Hv Hpool Hph Hw Hlen.
  destruct (SelectDecoys_returns a (slice_bytes (SharedSecret k)) (include v)
              (Width s) Hpool) as (decoys & Hdec & Hdl).
  rewrite (register_after_selection a s k v decoys ph arrivals Hk Hv Hdec Hph).
  assert (Hwd : N.of_nat (length decoys) = Width s) by lia.
  rewrite Hwd.
  destruct (first_other arrivals) as [Hall | (pre0 & r0 & post0 & Harr & Hpre0 & Hr0)].
  - rewrite (tally_all_unreachable arrivals (Width s) 0%N Hall);
      [|by intros ->; simpl in Hlen; lia|lia].
    cbn. rewrite N.eqb_refl.
    eexists _, _, _. split; [reflexivity|]. split; [done|].
    intros pre r post -> Hpre Hr.
    apply Forall_app in Hall as [_ Hall]. apply Forall_cons in Hall as [Hr' _]. congruence.
  - subst arrivals.
    assert (Hlt : (0 + N.of_nat (length pre0) < Width s)%N).
    { rewrite length_app in Hlen. simpl in Hlen. lia. }
    rewrite (tally_first_other pre0 r0 post0 (Width s) 0%N Hpre0 Hr0 Hlt).
    cbn. destruct (N.eqb_spec (0 + N.of_nat (length pre0)) (Width s)) as [E|_]; [lia|].
    eexists _, _, _. split; [reflexivity|]. split.
    + split; [discriminate|]. intros Hall.
      apply Forall_app in Hall as [_ Hall]. apply Forall_cons in Hall as [Hr' _]. congruence.
    + intros pre r post Harr' Hpre Hr.
      destruct (first_other_unique _ _ _ _ _ _ Harr' Hpre0 Hr0 Hpre Hr) as (_ & _ & ->).
      split; [reflexivity|]. eexists. split; [reflexivity|]. by rewrite Hk.
Qed.

(** The registration that [register] returns, whatever the session. *)
Lemma register_reg_shape a s arrivals s' rest reg err :
  register X a s arrivals = Done (s', rest, (Some reg, err)) ->
  exists ph k,
    reg = {| seed := []; sessionIDStr := sessionIDStr reg; phantom := Some ph;
             useProxyHeader := false; covertAddress := CovertAddress s;
             phantomSNI := ""; v6Support := v6Support reg; transport := 0%N;
             stats := Some empty_stats; keys := Some k |}.
Proof.
  unfold register. intros H.
  destruct (Keys s) as [k|] eqn:Hk; [|discriminate].
  destruct (V6Support s) as [v|] eqn:Hv; [|discriminate].
  cbn [deref mbind outcome_bind] in H.
  destruct (SelectDecoys a (slice_bytes (SharedSecret k)) (include v) (Width s))
    as [decoys| |]; [|discriminate|discriminate].
  cbn [mbind outcome_bind] in H.
  destruct (SelectPhantom X (ConjureSeed k) (support v)) as [[ph|] [e|]];
    cbn in H; try discriminate.
  destruct (tally arrivals (N.of_nat (length decoys)) 0) as [t| |];
    cbn in H; try discriminate.
  destruct (t.1 =? N.of_nat (length decoys))%N; [discriminate|].
  injection H as <- <- <- <-. rewrite ?Hk. by exists ph, k.
Qed.

(** C10. Whatever the session's [Transport] and [UseProxyHeader], the
    registration that [register] returns has [transport = MinTransport] and
    [useProxyHeader = false]; so the flags byte of its FSP is the default
    without the proxy-header bit ORed in, and [Connect] on it, once the phantom
    dial has succeeded, takes the Min branch and writes the Min tag. *)
Theorem register_reg_defaults a s arrivals s' rest reg err :
  register X a s arrivals = Done (s', rest, (Some reg, err)) ->
  transport reg = MinTransport /\ useProxyHeader reg = false /\
  (forall espSize,
     generateFSP X reg espSize !! 2%nat = Some (Z_to_byte (default_flags X))) /\
  exists ph k,
    phantom reg = Some ph /\ keys reg = Some k /\
    forall W ctx conn,
      phantom_dial X W ph (reg_deadline W reg ctx) = Ok conn ->
      (Connect X W reg ctx).1 =
        [EvDial (JoinHostPort (IP_String X ph) "443") (Some (reg_deadline W reg ctx));
         EvConnWrite conn
           (conjureHMAC (slice_bytes (SharedSecret k)) "MinTrasportHMACString")].
Proof.
  intros H. destruct (register_reg_shape _ _ _ _ _ _ _ H) as (ph & k & Hreg).
  assert (Ht : transport reg = 0%N) by (rewrite Hreg; reflexivity).
  assert (Hu : useProxyHeader reg = false) by (rewrite Hreg; reflexivity).
  assert (Hp : phantom reg = Some ph) by (rewrite Hreg; reflexivity).
  assert (Hk : keys reg = Some k) by (rewrite Hreg; reflexivity).
  split; [exact Ht|]. split; [exact Hu|]. split.
  - intros espSize. unfold generateFSP. rewrite Hu. reflexivity.
  - exists ph, k. split; [exact Hp|]. split; [exact Hk|].
    intros W ctx conn Hd.
    rewrite (Connect_after_dial X W reg ctx ph k conn Hp Hk Hd); [reflexivity|].
    rewrite Ht. discriminate.
Qed.

End Registration.

(** ** The registration payloads *)

Arguments Proto.key : simpl never.
Arguments Proto.Size : simpl never.
Arguments Proto.bytes_field : simpl never.
Arguments Proto.varint_field : simpl never.
Arguments generateVSP : simpl never.
Arguments generateFSP : simpl never.

Module ProtoFacts.
Import Proto.

Lemma length_insert_field f l :
  length (concat (map snd (insert_field f l)))
  = (length f.2 + length (concat (map snd l)))%nat.
Proof.
  induction l as [|g l IH]; simpl; [by rewrite length_app|].
  destruct (f.1 <? g.1); simpl; rewrite ?length_app; [reflexivity|].
  rewrite IH. lia.
Qed.

Lemma length_by_number l :
  length (concat (map snd (by_number l))) = length (concat (map snd l)).
Proof.
  induction l as [|f l IH]; simpl; [reflexivity|].
  rewrite length_insert_field, length_app, IH. reflexivity.
Qed.

(** The message without its padding. *)
Local Abbreviation unpadded m :=
  {| CovertAddress := CovertAddress m;
     DecoyListGeneration := DecoyListGeneration m;
     V6SupportField := V6SupportField m;
     MaskedDecoyServerName := MaskedDecoyServerName m;
     Padding := None |}.

(** The size of a message is that of its other fields plus that of the
    padding field, when it is present. *)
Lemma Size_split sch m :
  Size sch m =
  (Size sch (unpadded m)
   + from_option (fun p => length (bytes_field (padding_no sch) p)) 0 (Padding m))%nat.
Proof.
  unfold Size, Marshal. rewrite !length_by_number. unfold present.
  destruct (CovertAddress m), (DecoyListGeneration m), (V6SupportField m),
    (MaskedDecoyServerName m), (Padding m); cbn; rewrite ?length_app; cbn; lia.
Qed.

Lemma length_bytes_field_short field p :
  (length p < 128)%nat ->
  length (bytes_field field p) = (length (key field 2) + 1 + length p)%nat.
Proof.
  intros Hp. unfold bytes_field, varint. rewrite !length_app.
  cbn [varint_groups].
  destruct (Z.ltb_spec (Z.of_nat (length p)) 128) as [_|Hge]; [simpl; lia | lia].
Qed.

(** The size after one more padding byte. *)
Lemma Size_append_padding sch m b :
  (length (default [] (Padding m)) < 127)%nat ->
  Size sch (append_padding m b) =
  (Size sch (unpadded m) + length (key (padding_no sch) 2) + 2
   + length (default [] (Padding m)))%nat.
Proof.
  intros Hp. rewrite Size_split. cbn [Padding append_padding from_option].
  rewrite length_bytes_field_short by (rewrite length_app; simpl; lia).
  rewrite length_app. simpl. lia.
Qed.

End ProtoFacts.

Lemma mod3_cases (n : nat) :
  (n mod 3 = 0 \/ (n + 1) mod 3 = 0 \/ (n + 2) mod 3 = 0)%nat.
Proof.
  pose proof (Nat.div_mod_eq n 3) as Hn.
  pose proof (Nat.mod_upper_bound n 3 ltac:(lia)) as Hr.
  destruct (n mod 3)%nat as [|[|[|r]]] eqn:E; [by left | | | lia].
  - right. right. replace (n + 2)%nat with ((n / 3 + 1) * 3)%nat by lia.
    apply Nat.Div0.mod_mul.
  - right. left. replace (n + 1)%nat with ((n / 3 + 1) * 3)%nat by lia.
    apply Nat.Div0.mod_mul.
Qed.

Section Payloads.

Variable X : Externals.

(** The padding loop stops within three appends, with a message that has
    the size asked for and differs from the first in its padding only. *)
Lemma pad_to_three_returns fuel m :
  Proto.Padding m = None -> (3 <= fuel)%nat ->
  exists pad,
    pad_to_three X fuel m =
      Done {| Proto.CovertAddress := Proto.CovertAddress m;
              Proto.DecoyListGeneration := Proto.DecoyListGeneration m;
              Proto.V6SupportField := Proto.V6SupportField m;
              Proto.MaskedDecoyServerName := Proto.MaskedDecoyServerName m;
              Proto.Padding := pad |} /\
    ((Proto.Size (schema X)
        {| Proto.CovertAddress := Proto.CovertAddress m;
           Proto.DecoyListGeneration := Proto.DecoyListGeneration m;
           Proto.V6SupportField := Proto.V6SupportField m;
           Proto.MaskedDecoyServerName := Proto.MaskedDecoyServerName m;
           Proto.Padding := pad |} + AES_GCM_TAG_SIZE) mod 3 = 0)%nat.
Proof.
  intros Hp Hfuel.
  destruct fuel as [|[|[|fuel]]]; [lia|lia|lia|].
  destruct m as [ca dg vs ms p]. simpl in Hp. subst p.
  pose proof (ProtoFacts.Size_append_padding (schema X)
                (Proto.Build_ClientToStation ca dg vs ms None) x00%byte) as H1.
  pose proof (ProtoFacts.Size_append_padding (schema X)
                (Proto.Build_ClientToStation ca dg vs ms (Some [x00%byte])) x00%byte) as H2.
  pose proof (ProtoFacts.Size_append_padding (schema X)
                (Proto.Build_ClientToStation ca dg vs ms
                   (Some [x00%byte; x00%byte])) x00%byte) as H3.
  specialize (H1 ltac:(simpl; lia)). specialize (H2 ltac:(simpl; lia)).
  specialize (H3 ltac:(simpl; lia)).
  unfold Proto.append_padding in H1, H2, H3.
  cbn [Proto.Padding Proto.CovertAddress Proto.DecoyListGeneration Proto.V6SupportField
       Proto.MaskedDecoyServerName default app length from_option id] in H1, H2, H3.
  cbn [pad_to_three]. unfold Proto.append_padding.
  cbn [Proto.Padding Proto.CovertAddress Proto.DecoyListGeneration Proto.V6SupportField
       Proto.MaskedDecoyServerName default app from_option id].
  unfold AES_GCM_TAG_SIZE in *.
  destruct (Nat.eqb_spec
    ((Proto.Size (schema X) (Proto.Build_ClientToStation ca dg vs ms None) + 16) mod 3) 0)
    as [E0|E0]; cbn [negb].
  { exists None. split; [reflexivity | exact E0]. }
  destruct (Nat.eqb_spec
    ((Proto.Size (schema X) (Proto.Build_ClientToStation ca dg vs ms (Some [x00%byte])) + 16)
       mod 3) 0) as [E1|E1]; cbn [negb].
  { exists (Some [x00%byte]). split; [reflexivity | exact E1]. }
  destruct (Nat.eqb_spec
    ((Proto.Size (schema X)
        (Proto.Build_ClientToStation ca dg vs ms (Some [x00%byte; x00%byte])) + 16)
       mod 3) 0) as [E2|E2]; cbn [negb].
  { exists (Some [x00%byte; x00%byte]). split; [reflexivity | exact E2]. }
  destruct (Nat.eqb_spec
    ((Proto.Size (schema X)
        (Proto.Build_ClientToStation ca dg vs ms (Some [x00%byte; x00%byte; x00%byte])) + 16)
       mod 3) 0) as [E3|E3].
  { exists (Some [x00%byte; x00%byte; x00%byte]). split; [|exact E3].
    apply Nat.eqb_eq in E3. destruct fuel; cbn [pad_to_three]; unfold AES_GCM_TAG_SIZE; by rewrite E3. }
  exfalso. rewrite H1 in E1. rewrite H2 in E2. rewrite H3 in E3.
  destruct (mod3_cases
    (Proto.Size (schema X) (Proto.Build_ClientToStation ca dg vs ms None)
     + length (Proto.key (Proto.padding_no (schema X)) 2) + 18)) as [E|[E|E]].
  - apply E1. rewrite <- E. f_equal; lia.
  - apply E2. rewrite <- E. f_equal; lia.
  - apply E3. rewrite <- E. f_equal; lia.
Qed.

(** [generateVSP] returns once the loop has fuel for three appends, and the
    payload has the size that makes the sealed payload a multiple of three. *)
Lemma generateVSP_returns fuel a reg :
  (3 <= fuel)%nat ->
  exists vsp,
    generateVSP X fuel a reg = Done (Ok vsp) /\
    ((length vsp + AES_GCM_TAG_SIZE) mod 3 = 0)%nat.
Proof.
  intros Hfuel. unfold generateVSP.
  match goal with
  | |- context [pad_to_three X fuel ?m] =>
      destruct (pad_to_three_returns fuel m eq_refl Hfuel) as (pad & Hrun & Hsize);
      rewrite Hrun
  end.
  cbn [mbind outcome_bind mret outcome_ret]. eexists. split; [reflexivity|].
  exact Hsize.
Qed.

Lemma generateFSP_length reg espSize : length (generateFSP X reg espSize) = 6%nat.
Proof. unfold generateFSP. rewrite !length_insert. reflexivity. Qed.

Lemma seal_eq plaintext key iv :
  seal X plaintext key iv = ([EvSeal key iv plaintext], Done (aesGcmEncrypt X plaintext key iv)).
Proof. reflexivity. Qed.

(** C7. With keys as [generateSharedKeys] makes them and sealing as
    AES-128-GCM: the serialised VSP plus the AEAD tag size is a multiple of
    three, and when the VSP has at most 0xFFFF bytes the tag that
    [createRequest] assembles is enc_VSP followed by the Representative
    followed by enc_FSP, the Representative of 32 bytes, enc_FSP of 22 (the
    sealed FSP of 6), and the whole of a length divisible by 3. *)
Theorem tag_layout fuel a reg k :
  aes_128_gcm X -> keys reg = Some k -> keys_wf k -> (3 <= fuel)%nat ->
  exists vsp,
    generateVSP X fuel a reg = Done (Ok vsp) /\
    ((length vsp + AES_GCM_TAG_SIZE) mod 3 = 0)%nat /\
    (Z.of_nat (length vsp) <= 65535 ->
     exists encVsp encFsp,
       aesGcmEncrypt X vsp (VspKey k) (VspIv k) = Ok encVsp /\
       aesGcmEncrypt X (generateFSP X reg (Z.of_nat (length encVsp) mod 2 ^ 16))
                     (FspKey k) (FspIv k) = Ok encFsp /\
       (assemble_tag X fuel a reg).2 = Done (Ok (encVsp ++ Representative k ++ encFsp)) /\
       (assemble_tag X fuel a reg).1 =
         [EvSeal (VspKey k) (VspIv k) vsp;
          EvSeal (FspKey k) (FspIv k)
                 (generateFSP X reg (Z.of_nat (length encVsp) mod 2 ^ 16))] /\
       length (Representative k) = 32%nat /\
       length encFsp = 22%nat /\
       (length (encVsp ++ Representative k ++ encFsp) mod 3 = 0)%nat).
Proof.
  intros Haes Hk (_ & Hrep & Hfk & Hfi & Hvk & Hvi & _) Hfuel.
  destruct (generateVSP_returns fuel a reg Hfuel) as (vsp & Hvsp & Hmod).
  exists vsp. split; [exact Hvsp|]. split; [exact Hmod|]. intros Hsmall.
  destruct (Haes vsp (VspKey k) (VspIv k) Hvk Hvi) as (encVsp & He1 & Hl1).
  destruct (Haes (generateFSP X reg (Z.of_nat (length encVsp) mod 2 ^ 16))
                 (FspKey k) (FspIv k) Hfk Hfi) as (encFsp & He2 & Hl2).
  rewrite generateFSP_length in Hl2.
  exists encVsp, encFsp. split; [exact He1|]. split; [exact He2|].
  unfold assemble_tag. rewrite Hvsp. cbn [lift mbind M_bind fst snd].
  destruct (Z.ltb_spec 65535 (Z.of_nat (length vsp))) as [Hbig|_]; [lia|].
  rewrite Hk. cbn [deref lift mbind M_bind fst snd app].
  rewrite (seal_eq vsp). rewrite He1. cbn [mbind M_bind fst snd app].
  rewrite seal_eq. rewrite He2. cbn [mbind M_bind fst snd app mret M_ret].
  rewrite <- app_assoc.
  split; [reflexivity|]. split; [reflexivity|]. split; [exact Hrep|].
  split; [exact Hl2|].
  rewrite !length_app, Hl1, Hrep, Hl2.
  unfold AES_GCM_TAG_SIZE in *.
  replace (length vsp + 16 + (32 + (6 + 16)))%nat
    with ((length vsp + 16) + 18 * 3)%nat by lia.
  rewrite Nat.Div0.mod_add. exact Hmod.
Qed.

Lemma length_bytes_of_string s : length (bytes_of_string s) = String.length s.
Proof.
  unfold bytes_of_string, list_byte_of_string. rewrite length_map.
  induction s as [|c s IH]; simpl; [reflexivity | by rewrite IH].
Qed.

Lemma length_string_of_list_ascii l : String.length (string_of_list_ascii l) = length l.
Proof. induction l as [|c l IH]; simpl; [reflexivity | by rewrite IH]. Qed.

(** The serialised message is at least as long as its covert address. *)
Lemma Marshal_covers_covert sch m s :
  Proto.CovertAddress m = Some s ->
  (String.length s <= length (Proto.Marshal sch m))%nat.
Proof.
  intros Hs. unfold Proto.Marshal. rewrite ProtoFacts.length_by_number.
  unfold Proto.present. rewrite Hs. cbn [fmap option_fmap option_map omap list_omap id].
  cbn [map snd concat]. rewrite length_app. unfold Proto.bytes_field at 1.
  rewrite !length_app, length_bytes_of_string. lia.
Qed.

Lemma pad_to_three_covert fuel m m' :
  pad_to_three X fuel m = Done m' -> Proto.CovertAddress m' = Proto.CovertAddress m.
Proof.
  revert m. induction fuel as [|fuel IH]; intros m; cbn [pad_to_three].
  - destruct (negb _); [discriminate|]. by intros [= <-].
  - destruct (negb _); [|by intros [= <-]].
    intros H. by rewrite (IH _ H).
Qed.

Lemma generateVSP_covers_covert fuel a reg vsp :
  generateVSP X fuel a reg = Done (Ok vsp) ->
  (String.length (covertAddress reg) <= length vsp)%nat.
Proof.
  unfold generateVSP.
  match goal with |- context [pad_to_three X fuel ?m] =>
    destruct (pad_to_three X fuel m) as [m'| |] eqn:Hrun; [|discriminate|discriminate]
  end.
  cbn [mbind outcome_bind mret outcome_ret]. intros [= <-].
  apply pad_to_three_covert in Hrun. cbn [Proto.CovertAddress] in Hrun.
  destruct (Nat.ltb_spec 0 (String.length (covertAddress reg))) as [Hpos|Hzero]; [|lia].
  by apply Marshal_covers_covert.
Qed.

Variable W : World.

Lemma assemble_tag_oversized fuel a reg vsp :
  generateVSP X fuel a reg = Done (Ok vsp) -> 65535 < Z.of_nat (length vsp) ->
  assemble_tag X fuel a reg = ([], Done (Err PayloadTooLarge)).
Proof.
  intros Hvsp Hbig. unfold assemble_tag. rewrite Hvsp. cbn [lift mbind M_bind fst snd].
  destruct (Z.ltb_spec 65535 (Z.of_nat (length vsp))) as [_|Hsmall]; [reflexivity|lia].
Qed.

Lemma createRequest_oversized fuel a reg tlsConn decoy vsp :
  generateVSP X fuel a reg = Done (Ok vsp) -> 65535 < Z.of_nat (length vsp) ->
  createRequest X W fuel a reg tlsConn decoy = ([], Done (Err PayloadTooLarge)).
Proof.
  intros Hvsp Hbig. unfold createRequest.
  rewrite (assemble_tag_oversized fuel a reg vsp Hvsp Hbig). reflexivity.
Qed.

(** The payload does not depend on the statistics that [send] sets. *)
Lemma generateVSP_stats fuel a reg t t' :
  generateVSP X fuel a (setTLSToDecoy (setTCPToDecoy reg t) t') = generateVSP X fuel a reg.
Proof. reflexivity. Qed.

(** What [send] does with a payload that is too long once its dial and its
    handshake have succeeded: the dial, the handshake, and the post of the
    error. [sn] is the server name of the handshake: the hostname of the
    decoy, or the host part of its address if it has none. *)
Lemma send_oversized fuel a reg vsp decoy dialConn tlsConn sn port :
  generateVSP X fuel a reg = Done (Ok vsp) -> 65535 < Z.of_nat (length vsp) ->
  DialContext W (GetIpAddrStr decoy) None = Ok dialConn ->
  (if String.eqb (GetHostname decoy) ""
   then SplitHostPort X (GetIpAddrStr decoy) = Ok (sn, port)
   else sn = GetHostname decoy) ->
  Handshake W dialConn sn
    (Now W + getRandomDuration W
               (1061 * rttInt (tcp_ms W (GetIpAddrStr decoy)) * 2)
               (1953 * rttInt (tcp_ms W (GetIpAddrStr decoy)) * 3)) = Ok tlsConn ->
  (send X W fuel a reg decoy).1 =
    [EvDial (GetIpAddrStr decoy) None;
     EvHandshake dialConn sn
       (Now W + getRandomDuration W
                  (1061 * rttInt (tcp_ms W (GetIpAddrStr decoy)) * 2)
                  (1953 * rttInt (tcp_ms W (GetIpAddrStr decoy)) * 3));
     EvPost (Some PayloadTooLarge)].
Proof.
  intros Hvsp Hbig Hd Hsn Hh. unfold send, dial.
  cbn [mbind M_bind emit mret M_ret fst snd app]. rewrite Hd.
  cbn [setTCPToDecoy stats TcpToDecoy deref lift mbind M_bind fst snd app].
  unfold createTLSConn.
  assert (Hreq : forall t t',
    createRequest X W fuel a (setTLSToDecoy (setTCPToDecoy reg t) t') tlsConn decoy
    = ([], Done (Err PayloadTooLarge))).
  { intros t t'. apply (createRequest_oversized _ _ _ _ _ vsp); [|exact Hbig].
    rewrite generateVSP_stats. exact Hvsp. }
  destruct (String.eqb (GetHostname decoy) "").
  - rewrite Hsn. cbn [mbind M_bind emit mret M_ret fst snd app]. rewrite Hh.
    cbn [mbind M_bind emit mret M_ret fst snd app]. rewrite Hreq.
    reflexivity.
  - subst sn. cbn [mbind M_bind emit mret M_ret fst snd app]. rewrite Hh.
    cbn [mbind M_bind emit mret M_ret fst snd app]. rewrite Hreq.
    reflexivity.
Qed.

(** C8, as the code has it. When the serialised VSP is longer than 0xFFFF
    bytes, [createRequest] returns the payload-size error having done
    nothing else: its trace is empty, so nothing was sealed, no keystream
    was asked for and nothing was written. The [send] that called it seals
    nothing and writes no request either, and does not report a success.
    The check does not come before all that happens on the network: [send]
    dials the decoy and makes the TLS handshake before it calls
    [createRequest], and with both succeeding its effects are the dial, the
    handshake and the post of the error, in this order. *)
Theorem oversized_vsp_rejected fuel a reg vsp :
  generateVSP X fuel a reg = Done (Ok vsp) -> 65535 < Z.of_nat (length vsp) ->
  (forall tlsConn decoy,
     createRequest X W fuel a reg tlsConn decoy = ([], Done (Err PayloadTooLarge))) /\
  (forall decoy,
     Forall (fun e => is_seal e = false /\ is_write e = false /\ e <> EvPost None)
            (send X W fuel a reg decoy).1) /\
  (forall decoy dialConn tlsConn sn port,
     DialContext W (GetIpAddrStr decoy) None = Ok dialConn ->
     (if String.eqb (GetHostname decoy) ""
      then SplitHostPort X (GetIpAddrStr decoy) = Ok (sn, port)
      else sn = GetHostname decoy) ->
     Handshake W dialConn sn
       (Now W + getRandomDuration W
                  (1061 * rttInt (tcp_ms W (GetIpAddrStr decoy)) * 2)
                  (1953 * rttInt (tcp_ms W (GetIpAddrStr decoy)) * 3)) = Ok tlsConn ->
     (send X W fuel a reg decoy).1 =
       [EvDial (GetIpAddrStr decoy) None;
        EvHandshake dialConn sn
          (Now W + getRandomDuration W
                     (1061 * rttInt (tcp_ms W (GetIpAddrStr decoy)) * 2)
                     (1953 * rttInt (tcp_ms W (GetIpAddrStr decoy)) * 3));
        EvPost (Some PayloadTooLarge)]).
Proof.
  intros Hvsp Hbig. split.
  { intros tlsConn decoy. exact (createRequest_oversized fuel a reg tlsConn decoy vsp Hvsp Hbig). }
  split.
  2: { intros decoy dialConn tlsConn sn port Hd Hsn Hh.
       exact (send_oversized fuel a reg vsp decoy dialConn tlsConn sn port
                Hvsp Hbig Hd Hsn Hh). }
  intros decoy. unfold send, dial.
  cbn [mbind M_bind emit mret M_ret fst snd app].
  destruct (DialContext W (GetIpAddrStr decoy) None) as [dialConn|err].
  - cbn [setTCPToDecoy stats TcpToDecoy deref lift mbind M_bind fst snd app].
    unfold createTLSConn.
    assert (Hreq : forall tlsConn t t',
      createRequest X W fuel a (setTLSToDecoy (setTCPToDecoy reg t) t') tlsConn decoy
      = ([], Done (Err PayloadTooLarge))).
    { intros tlsConn t t'. apply (createRequest_oversized _ _ _ _ _ vsp); [|exact Hbig].
      rewrite generateVSP_stats. exact Hvsp. }
    destruct (String.eqb (GetHostname decoy) "").
    + destruct (SplitHostPort X (GetIpAddrStr decoy)) as [hp|e].
      * cbn [mbind M_bind emit mret M_ret fst snd app].
        destruct (Handshake W dialConn hp.1 _) as [tlsConn|e].
        -- cbn [mbind M_bind emit mret M_ret fst snd app]. rewrite Hreq.
           cbn [mbind M_bind emit mret M_ret post fst snd app].
           repeat constructor; discriminate.
        -- cbn [mbind M_bind emit mret M_ret post fst snd app].
           repeat constructor; discriminate.
      * cbn [mbind M_bind emit mret M_ret post fst snd app].
        repeat constructor; discriminate.
    + cbn [mbind M_bind emit mret M_ret fst snd app].
      destruct (Handshake W dialConn (GetHostname decoy) _) as [tlsConn|e].
      * cbn [mbind M_bind emit mret M_ret fst snd app]. rewrite Hreq.
        cbn [mbind M_bind emit mret M_ret post fst snd app].
        repeat constructor; discriminate.
      * cbn [mbind M_bind emit mret M_ret post fst snd app].
        repeat constructor; discriminate.
  - destruct err as [c m|c m|text inner|m];
      try (cbn [mbind M_bind emit mret M_ret post fst snd app];
           repeat constructor; discriminate).
    destruct (String.eqb inner "connect: network is unreachable");
      cbn [mbind M_bind emit mret M_ret post fst snd app];
      repeat constructor; discriminate.
Qed.

(** The same for a covert address of more than 0xFFFF characters. *)
Corollary long_covert_rejected fuel a reg tlsConn decoy :
  (3 <= fuel)%nat -> 65535 < Z.of_nat (String.length (covertAddress reg)) ->
  createRequest X W fuel a reg tlsConn decoy = ([], Done (Err PayloadTooLarge)).
Proof.
  intros Hfuel Hlong.
  destruct (generateVSP_returns fuel a reg Hfuel) as (vsp & Hvsp & _).
  apply (createRequest_oversized fuel a reg tlsConn decoy vsp Hvsp).
  pose proof (generateVSP_covers_covert fuel a reg vsp Hvsp). lia.
Qed.

End Payloads.

(** ** One result per send *)

Section SendPosts.

Variable X : Externals.
Variable W : World.

(** The number of results a trace posts on the channel. *)
Local Abbreviation posts tr := (length (filter (fun e => is_post e = true) tr)).

Lemma assemble_tag_no_post fuel a reg :
  posts (assemble_tag X fuel a reg).1 = 0%nat.
Proof.
  unfold assemble_tag, seal, lift, emit.
  destruct (generateVSP X fuel a reg) as [[vsp|e]| |]; cbn [mbind M_bind mret M_ret fst snd app];
    try reflexivity.
  destruct (65535 <? Z.of_nat (length vsp)); [reflexivity|].
  destruct (keys reg) as [k|]; cbn [deref mbind M_bind mret M_ret fst snd app];
    [|reflexivity].
  destruct (aesGcmEncrypt X vsp (VspKey k) (VspIv k)) as [c1|e];
    cbn [mbind M_bind mret M_ret fst snd app]; [|reflexivity].
  destruct (aesGcmEncrypt X _ (FspKey k) (FspIv k)) as [c2|e];
    cbn [mbind M_bind mret M_ret fst snd app]; reflexivity.
Qed.

Lemma createRequest_no_post fuel a reg tlsConn decoy :
  posts (createRequest X W fuel a reg tlsConn decoy).1 = 0%nat.
Proof.
  unfold createRequest. pose proof (assemble_tag_no_post fuel a reg) as Htag.
  destruct (assemble_tag X fuel a reg) as [tr [[tag|e]| |]];
    cbn [mbind M_bind mret M_ret fst snd] in *; rewrite ?app_nil_r; try exact Htag.
  unfold out_keystream, emit. cbn [mbind M_bind mret M_ret fst snd app].
  destruct (GetOutKeystream W tlsConn _) as [ks|e];
    cbn [mbind M_bind mret M_ret fst snd app].
  - destruct (_ <? _)%nat; cbn [lift fst snd];
      rewrite filter_app, length_app, Htag; reflexivity.
  - rewrite filter_app, length_app, Htag; reflexivity.
Qed.

(** A [send] that returns has posted exactly one result on the channel, so
    [Width] sends make [Width] arrivals. *)
Lemma send_posts_once fuel a reg decoy r :
  (send X W fuel a reg decoy).2 = Done r ->
  posts (send X W fuel a reg decoy).1 = 1%nat.
Proof.
  unfold send, dial, post, emit.
  cbn [mbind M_bind mret M_ret fst snd app].
  destruct (DialContext W (GetIpAddrStr decoy) None) as [dialConn|err].
  - cbn [setTCPToDecoy stats TcpToDecoy deref lift mbind M_bind mret M_ret fst snd app].
    unfold createTLSConn, emit.
    destruct (String.eqb (GetHostname decoy) "");
      [destruct (SplitHostPort X (GetIpAddrStr decoy)) as [hp|e]|];
      cbn [mbind M_bind mret M_ret fst snd app];
      try (intros _; reflexivity).
    all: destruct (Handshake W dialConn _ _) as [tlsConn|e];
      cbn [mbind M_bind mret M_ret fst snd app]; try (intros _; reflexivity).
    all: match goal with |- context [createRequest _ _ ?f ?a0 ?rg ?c ?d] =>
           pose proof (createRequest_no_post f a0 rg c d) as Hreq;
           destruct (createRequest X W f a0 rg c d) as [tr [[req|e']| |]]
         end;
      cbn [mbind M_bind mret M_ret fst snd app] in *; try discriminate.
    all: try (match goal with |- context [TLSWrite W ?c ?q] => destruct (TLSWrite W c q) end);
      cbn [mbind M_bind mret M_ret fst snd app]; intros _;
      rewrite !filter_cons_False by discriminate;
      rewrite filter_app, length_app, Hreq; reflexivity.
  - destruct err as [c m|c m|text inner|m]; cbn [mbind M_bind mret M_ret fst snd app];
      try (intros _; reflexivity).
    destruct (String.eqb inner "connect: network is unreachable");
      cbn [mbind M_bind mret M_ret fst snd app]; intros _; reflexivity.
Qed.

End SendPosts.

(** ** The session identifier *)

Lemma length_hex_encode bs : length (hex_encode bs) = (2 * length bs)%nat.
Proof. induction bs as [|b bs IH]; simpl; [reflexivity | rewrite IH; lia]. Qed.

(** C9, as the code has it. With keys whose SharedSecret has at least three
    bytes, [IDString] is "[", the decimal session id, "-", the first 6
    hexadecimal digits of the SharedSecret, "]"; with a shorter SharedSecret,
    with nil keys or with a nil SharedSecret it is "[", the decimal session
    id, "-000000]". *)
Theorem IDString_six_digits s :
  (forall k sharedSecret,
     Keys s = Some k -> SharedSecret k = Some sharedSecret ->
     (3 <= length sharedSecret)%nat ->
     IDString s = "[" +:+ FormatUint10 (SessionID s) +:+ "-"
                  +:+ string_of_list_ascii (take 6 (hex_encode sharedSecret)) +:+ "]" /\
     length (take 6 (hex_encode sharedSecret)) = 6%nat) /\
  (forall k sharedSecret,
     Keys s = Some k -> SharedSecret k = Some sharedSecret ->
     (length sharedSecret < 3)%nat ->
     IDString s = "[" +:+ FormatUint10 (SessionID s) +:+ "-000000]") /\
  (Keys s = None \/ (exists k, Keys s = Some k /\ SharedSecret k = None) ->
   IDString s = "[" +:+ FormatUint10 (SessionID s) +:+ "-000000]").
Proof.
  split; [|split].
  - intros k ss Hk Hss Hlen. unfold IDString. rewrite Hk, Hss.
    destruct (Nat.ltb_spec (length (hex_encode ss)) 6) as [Hlt|Hge].
    { rewrite length_hex_encode in Hlt. lia. }
    split; [reflexivity|]. rewrite length_take, length_hex_encode. lia.
  - intros k ss Hk Hss Hlen. unfold IDString. rewrite Hk, Hss.
    destruct (Nat.ltb_spec (length (hex_encode ss)) 6) as [Hlt|Hge]; [reflexivity|].
    rewrite length_hex_encode in Hge. lia.
  - intros [Hk | (k & Hk & Hss)]; unfold IDString; rewrite Hk; [reflexivity|].
    by rewrite Hss.
Qed.

(** C9 as the spec words it fails: for the session with id 7 and the secret
    abcdef0123456789..., the identifier has six digits of the secret, not
    twelve. *)
Lemma IDString_not_twelve_digits :
  SharedSecret Demo.shared_keys = Some Demo.secret /\
  IDString Demo.session = "[7-abcdef]" /\
  IDString Demo.session <>
    "[" +:+ FormatUint10 (SessionID Demo.session) +:+ "-"
    +:+ string_of_list_ascii (take 12 (hex_encode Demo.secret)) +:+ "]".
Proof. vm_compute. split; [reflexivity|]. split; [reflexivity|discriminate]. Qed.

Example IDString_without_keys : IDString Demo.session_without_keys = "[7-000000]".
Proof. vm_compute. reflexivity. Qed.

(** ** Key derivation *)

Lemma HMAC_sum_length key msg : length (HMAC.sum key msg) = 32%nat.
Proof. unfold HMAC.sum. apply SHA256_sum_length. Qed.

Lemma length_expand_blocks n prk info prev i :
  length (HKDF.expand_blocks n prk info prev i) = (32 * n)%nat.
Proof.
  revert prev i. induction n as [|n IH]; intros prev i; [reflexivity|].
  cbn [HKDF.expand_blocks]. rewrite length_app, HMAC_sum_length, IH. lia.
Qed.

Lemma read_key_ok r n :
  (HKDF.offset r + n <= 255 * 32)%nat ->
  exists b,
    read_key (Some r) n = (b, Some (HKDF.Reader (HKDF.prk r) (HKDF.info r) (HKDF.offset r + n)))
    /\ length b = n.
Proof.
  intros Hle. unfold read_key, HKDF.Read, SHA256.Size.
  destruct (Nat.ltb_spec (255 * 32) (HKDF.offset r + n)) as [Hlt|_]; [lia|].
  eexists. split; [reflexivity|].
  rewrite length_take, length_drop, length_expand_blocks.
  pose proof (Nat.div_mod_eq (HKDF.offset r + n + 32 - 1) 32).
  pose proof (Nat.mod_upper_bound (HKDF.offset r + n + 32 - 1) 32 ltac:(lia)).
  lia.
Qed.

(** The keys that [generateSharedKeys] returns have the sizes that the rest
    of the file relies on, given a shared secret and a representative of 32
    bytes each from the Elligator step. *)
Lemma generateSharedKeys_wf W pubkey sharedSecret representative :
  generateEligatorTransformedKey W pubkey = Ok (sharedSecret, representative) ->
  length sharedSecret = 32%nat -> length representative = 32%nat ->
  exists k, generateSharedKeys W pubkey = (Some k, None) /\ keys_wf k /\
            SharedSecret k = Some sharedSecret /\ Representative k = representative.
Proof.
  intros He Hs Hr. unfold generateSharedKeys. rewrite He.
  destruct (read_key_ok (HKDF.New sharedSecret
              (bytes_of_string "conjureconjureconjureconjure") []) 16)
    as (b1 & E1 & L1); [simpl; lia|]. rewrite E1.
  match type of E1 with _ = (_, Some ?r) =>
    destruct (read_key_ok r 12) as (b2 & E2 & L2); [simpl; lia|]; rewrite E2 end.
  match type of E2 with _ = (_, Some ?r) =>
    destruct (read_key_ok r 16) as (b3 & E3 & L3); [simpl; lia|]; rewrite E3 end.
  match type of E3 with _ = (_, Some ?r) =>
    destruct (read_key_ok r 12) as (b4 & E4 & L4); [simpl; lia|]; rewrite E4 end.
  match type of E4 with _ = (_, Some ?r) =>
    destruct (read_key_ok r 48) as (b5 & E5 & L5); [simpl; lia|]; rewrite E5 end.
  match type of E5 with _ = (_, Some ?r) =>
    destruct (read_key_ok r 16) as (b6 & E6 & L6); [simpl; lia|]; rewrite E6 end.
  eexists. split; [reflexivity|]. split; [|split; reflexivity].
  unfold keys_wf. cbn [SharedSecret Representative FspKey FspIv VspKey VspIv
                       NewMasterSecret ConjureSeed slice_bytes default from_option id].
  repeat split; assumption.
Qed.

(** ** The statements at the example data *)

(** The sealing of the examples has the sizes of AES-128-GCM. *)
Lemma demo_aes_128_gcm : aes_128_gcm Demo.externals.
Proof.
  intros plaintext key iv Hk Hi. cbn [aesGcmEncrypt Demo.externals].
  rewrite Hk, Hi. cbn [Nat.eqb andb]. eexists. split; [reflexivity|].
  rewrite length_app. unfold zero_bytes. by rewrite length_replicate.
Qed.

(** The keys of the examples are well formed, and are those that
    [generateSharedKeys] derives in the example world. *)
Lemma demo_keys_wf : keys_wf Demo.shared_keys.
Proof. unfold keys_wf. vm_compute. repeat split; reflexivity. Qed.

Lemma demo_keys_derived :
  generateSharedKeys Demo.world (zero_bytes 32) = (Some Demo.shared_keys, None).
Proof. vm_compute. reflexivity. Qed.

(** What [register] returns for the example session. *)
Lemma demo_registered :
  register Demo.externals Demo.assets Demo.session Demo.arrivals =
    Done (Demo.session_after, [], (Some Demo.registration, None)).
Proof. vm_compute. reflexivity. Qed.

Example demo_min_tag :
  hex_string (conjureHMAC Demo.secret "MinTrasportHMACString")
  = "01aee47f9b0b6aacbd89259d695e398575f94fdedea5965595666b63b8e66346"%string.
Proof. vm_compute. reflexivity. Qed.

(** [Connect_returns_nil] at the example registration: the dial gives
    connection 7 and [Connect] returns no connection. *)
Lemma Connect_returns_nil_witness :
  phantom_dial Demo.externals Demo.world Demo.phantom_ip
    (reg_deadline Demo.world Demo.reg Demo.ctx) = Ok 7%N /\
  (Connect Demo.externals Demo.world Demo.reg Demo.ctx).2 = Done (None, None).
Proof.
  split; [reflexivity|].
  apply (Connect_returns_nil Demo.externals Demo.world Demo.reg Demo.ctx
           Demo.phantom_ip Demo.shared_keys 7%N);
    [reflexivity | reflexivity | reflexivity | discriminate].
Defined.

(** [Connect_null_writes_tag] at the example registration with the Null
    transport. *)
Lemma Connect_null_writes_tag_witness :
  transport Demo.null_reg = NullTransport /\
  written_to 7%N (Connect Demo.externals Demo.world Demo.null_reg Demo.ctx).1 =
    [conjureHMAC (slice_bytes (SharedSecret Demo.shared_keys)) "MinTrasportHMACString"] /\
  length (conjureHMAC (slice_bytes (SharedSecret Demo.shared_keys))
            "MinTrasportHMACString") = 32%nat.
Proof.
  split; [reflexivity|].
  apply (Connect_null_writes_tag Demo.externals Demo.world Demo.null_reg Demo.ctx
           Demo.phantom_ip Demo.shared_keys 7%N);
    [reflexivity | reflexivity | reflexivity | reflexivity].
Defined.

(** [Connect_min_tag] at the example registration with the Min transport. *)
Lemma Connect_min_tag_witness :
  (Connect Demo.externals Demo.world Demo.reg Demo.ctx).1 =
    [EvDial (JoinHostPort (IP_String Demo.externals Demo.phantom_ip) "443")
            (Some (reg_deadline Demo.world Demo.reg Demo.ctx));
     EvConnWrite 7%N (HMAC.sum (slice_bytes (SharedSecret Demo.shared_keys))
                               (bytes_of_string "MinTrasportHMACString"))] /\
  written_to 7%N (Connect Demo.externals Demo.world Demo.reg Demo.ctx).1 =
    [HMAC.sum (slice_bytes (SharedSecret Demo.shared_keys))
              (bytes_of_string "MinTrasportHMACString")] /\
  length (HMAC.sum (slice_bytes (SharedSecret Demo.shared_keys))
                   (bytes_of_string "MinTrasportHMACString")) = 32%nat /\
  list_ascii_of_string "MinTrasportHMACString" =
    map ascii_of_byte (unhex "4d696e54726173706f7274484d4143537472696e67").
Proof.
  apply (Connect_min_tag Demo.externals Demo.world Demo.reg Demo.ctx
           Demo.phantom_ip Demo.shared_keys 7%N);
    [reflexivity | reflexivity | reflexivity | discriminate | discriminate].
Defined.

(** [register_unreachable_iff] at the example session, of width 2, with one
    unreachable result followed by a success. *)
Lemma register_unreachable_iff_witness :
  exists s' rest res,
    register Demo.externals Demo.assets Demo.session Demo.arrivals = Done (s', rest, res) /\
    (res = (None, Some AllUnreachable) <->
       Forall (fun r => is_unreachable r = true) Demo.arrivals) /\
    (forall pre r post,
       Demo.arrivals = pre ++ r :: post ->
       Forall (fun r => is_unreachable r = true) pre -> is_unreachable r = false ->
       rest = post /\
       exists reg,
         res = (Some reg, None) /\ keys reg = Keys Demo.session /\
         phantom reg = Some Demo.phantom_ip /\
         covertAddress reg = CovertAddress Demo.session /\
         v6Support reg = support Demo.v4_only).
Proof.
  apply (register_unreachable_iff Demo.externals Demo.assets Demo.session
           Demo.shared_keys Demo.v4_only Demo.phantom_ip Demo.arrivals);
    [reflexivity | reflexivity | discriminate | reflexivity | discriminate | reflexivity].
Defined.

(** [SelectDecoys_empty_pool_panics] at the example assets, which have no
    v6 decoys, for a width of one. *)
Lemma SelectDecoys_empty_pool_panics_witness :
  decoy_pool Demo.assets v6 = [] /\
  SelectDecoys Demo.assets Demo.secret v6 1 = Panic "division by zero".
Proof.
  split; [reflexivity|].
  apply (SelectDecoys_empty_pool_panics Demo.assets Demo.secret v6 1);
    [reflexivity | discriminate].
Defined.

(** [SelectDecoys_deterministic] at the example assets and their v4 pool. *)
Lemma SelectDecoys_deterministic_witness :
  exists decoys,
    SelectDecoys Demo.assets Demo.secret v4 2 = Done decoys /\
    length decoys = N.to_nat 2 /\
    (forall i, (i < 2)%N ->
       exists d,
         GetV4Decoys Demo.assets
           !! Z.to_nat (Z.abs (be_to_Z (HMAC.sum Demo.secret
                    (bytes_of_string ("registrationdecoy" +:+ FormatUint10 i))))
                  mod Z.of_nat (length (GetV4Decoys Demo.assets))) = Some d /\
         decoys !! N.to_nat i = Some d) /\
    (forall a', decoy_pool a' v4 = GetV4Decoys Demo.assets ->
       SelectDecoys a' Demo.secret v4 2 = Done decoys).
Proof.
  apply (SelectDecoys_deterministic Demo.assets Demo.secret v4 2
           (GetV4Decoys Demo.assets));
    [reflexivity | discriminate].
Defined.

Example demo_selection :
  SelectDecoys Demo.assets Demo.secret v4 3
  = Done [Demo.decoy "1"; Demo.decoy "1"; Demo.decoy "2"].
Proof. vm_compute. reflexivity. Qed.

(** [tag_layout] at the example registration and keys. *)
Lemma tag_layout_witness :
  exists vsp,
    generateVSP Demo.externals 3 Demo.assets Demo.reg = Done (Ok vsp) /\
    ((length vsp + AES_GCM_TAG_SIZE) mod 3 = 0)%nat /\
    (Z.of_nat (length vsp) <= 65535 ->
     exists encVsp encFsp,
       aesGcmEncrypt Demo.externals vsp (VspKey Demo.shared_keys) (VspIv Demo.shared_keys)
         = Ok encVsp /\
       aesGcmEncrypt Demo.externals
         (generateFSP Demo.externals Demo.reg (Z.of_nat (length encVsp) mod 2 ^ 16))
         (FspKey Demo.shared_keys) (FspIv Demo.shared_keys) = Ok encFsp /\
       (assemble_tag Demo.externals 3 Demo.assets Demo.reg).2 =
         Done (Ok (encVsp ++ Representative Demo.shared_keys ++ encFsp)) /\
       (assemble_tag Demo.externals 3 Demo.assets Demo.reg).1 =
         [EvSeal (VspKey Demo.shared_keys) (VspIv Demo.shared_keys) vsp;
          EvSeal (FspKey Demo.shared_keys) (FspIv Demo.shared_keys)
                 (generateFSP Demo.externals Demo.reg
                    (Z.of_nat (length encVsp) mod 2 ^ 16))] /\
       length (Representative Demo.shared_keys) = 32%nat /\
       length encFsp = 22%nat /\
       (length (encVsp ++ Representative Demo.shared_keys ++ encFsp) mod 3 = 0)%nat).
Proof.
  apply (tag_layout Demo.externals 3 Demo.assets Demo.reg Demo.shared_keys);
    [exact demo_aes_128_gcm | reflexivity | exact demo_keys_wf | lia].
Defined.

Example demo_tag_length :
  (fun r => match r with Done (Ok tag) => Some (length tag) | _ => None end)
    (assemble_tag Demo.externals 3 Demo.assets Demo.reg).2 = Some 99%nat.
Proof. vm_compute. reflexivity. Qed.

(** The payload for a covert address of 70000 characters is too long. *)
Lemma demo_long_vsp :
  exists vsp,
    generateVSP Demo.externals 3 Demo.assets Demo.long_reg = Done (Ok vsp) /\
    65535 < Z.of_nat (length vsp).
Proof.
  destruct (generateVSP_returns Demo.externals 3 Demo.assets Demo.long_reg ltac:(lia))
    as (vsp & Hvsp & _).
  exists vsp. split; [exact Hvsp|].
  pose proof (generateVSP_covers_covert Demo.externals 3 Demo.assets Demo.long_reg vsp Hvsp)
    as Hle.
  change (covertAddress Demo.long_reg)
    with (string_of_list_ascii (replicate (Z.to_nat 70000) "a"%char)) in Hle.
  rewrite length_string_of_list_ascii, length_replicate in Hle. lia.
Qed.

(** [oversized_vsp_rejected] at the registration with a covert address of
    70000 characters. *)
Lemma oversized_vsp_rejected_witness :
  String.length (covertAddress Demo.long_reg) = Z.to_nat 70000 /\
  (forall tlsConn decoy,
     createRequest Demo.externals Demo.world 3 Demo.assets Demo.long_reg tlsConn decoy
     = ([], Done (Err PayloadTooLarge))) /\
  (forall decoy,
     Forall (fun e => is_seal e = false /\ is_write e = false /\ e <> EvPost None)
            (send Demo.externals Demo.world 3 Demo.assets Demo.long_reg decoy).1) /\
  (forall decoy dialConn tlsConn sn port,
     DialContext Demo.world (GetIpAddrStr decoy) None = Ok dialConn ->
     (if String.eqb (GetHostname decoy) ""
      then SplitHostPort Demo.externals (GetIpAddrStr decoy) = Ok (sn, port)
      else sn = GetHostname decoy) ->
     Handshake Demo.world dialConn sn
       (Now Demo.world + getRandomDuration Demo.world
                  (1061 * rttInt (tcp_ms Demo.world (GetIpAddrStr decoy)) * 2)
                  (1953 * rttInt (tcp_ms Demo.world (GetIpAddrStr decoy)) * 3))
       = Ok tlsConn ->
     (send Demo.externals Demo.world 3 Demo.assets Demo.long_reg decoy).1 =
       [EvDial (GetIpAddrStr decoy) None;
        EvHandshake dialConn sn
          (Now Demo.world + getRandomDuration Demo.world
                     (1061 * rttInt (tcp_ms Demo.world (GetIpAddrStr decoy)) * 2)
                     (1953 * rttInt (tcp_ms Demo.world (GetIpAddrStr decoy)) * 3));
        EvPost (Some PayloadTooLarge)]).
Proof.
  split.
  { change (covertAddress Demo.long_reg)
      with (string_of_list_ascii (replicate (Z.to_nat 70000) "a"%char)).
    by rewrite length_string_of_list_ascii, length_replicate. }
  destruct demo_long_vsp as (vsp & Hvsp & Hbig).
  exact (oversized_vsp_rejected Demo.externals Demo.world 3 Demo.assets Demo.long_reg
           vsp Hvsp Hbig).
Defined.

(** C8 as the claim words it fails: the check does not come before all
    network activity. For the registration with a covert address of 70000
    characters, [createRequest] returns the error without an effect, but
    the [send] to the first decoy has by then dialled the decoy and made
    the TLS handshake with it. *)
Lemma oversized_send_dials_first :
  createRequest Demo.externals Demo.world 3 Demo.assets Demo.long_reg 8%N (Demo.decoy "1")
    = ([], Done (Err PayloadTooLarge)) /\
  (send Demo.externals Demo.world 3 Demo.assets Demo.long_reg (Demo.decoy "1")).1 =
    [EvDial "10.0.0.1:443" None;
     EvHandshake 7%N "1.example.org" 84880;
     EvPost (Some (ErrorString "Variable-Size Payload exceeds 65535"))].
Proof.
  destruct demo_long_vsp as (vsp & Hvsp & Hbig). split.
  - exact (createRequest_oversized Demo.externals Demo.world 3 Demo.assets Demo.long_reg
             8%N (Demo.decoy "1") vsp Hvsp Hbig).
  - exact (send_oversized Demo.externals Demo.world 3 Demo.assets Demo.long_reg vsp
             (Demo.decoy "1") 7%N 8%N "1.example.org" "443" Hvsp Hbig
             eq_refl eq_refl eq_refl).
Qed.

(** [register_reg_defaults] at the example session, which asks for the Null
    transport and the proxy header. *)
Lemma register_reg_defaults_witness :
  Transport Demo.session = NullTransport /\ UseProxyHeader Demo.session = true /\
  transport Demo.registration = MinTransport /\
  useProxyHeader Demo.registration = false /\
  (forall espSize,
     generateFSP Demo.externals Demo.registration espSize !! 2%nat
     = Some (Z_to_byte (default_flags Demo.externals))) /\
  exists ph k,
    phantom Demo.registration = Some ph /\ keys Demo.registration = Some k /\
    forall W ctx conn,
      phantom_dial Demo.externals W ph (reg_deadline W Demo.registration ctx) = Ok conn ->
      (Connect Demo.externals W Demo.registration ctx).1 =
        [EvDial (JoinHostPort (IP_String Demo.externals ph) "443")
                (Some (reg_deadline W Demo.registration ctx));
         EvConnWrite conn
           (conjureHMAC (slice_bytes (SharedSecret k)) "MinTrasportHMACString")].
Proof.
  split; [reflexivity|]. split; [reflexivity|].
  exact (register_reg_defaults Demo.externals Demo.assets Demo.session Demo.arrivals
           Demo.session_after [] Demo.registration None demo_registered).
Defined.


(** * Further properties *)

(** ** What [send] does to the channel and to the registration *)

Section SendMore.

Variable X : Externals.
Variable W : World.

(** X1. A [send] that returns has posted exactly one result on the channel:
    each of the [Width] goroutines accounts for one arrival. *)
Theorem send_posts_exactly_once fuel a reg decoy r :
  (send X W fuel a reg decoy).2 = Done r ->
  length (filter (fun e => is_post e = true) (send X W fuel a reg decoy).1) = 1%nat.
Proof. apply send_posts_once. Qed.

(** X2. When the dial to the decoy fails, [send] posts one error and does
    nothing else: the Unreachable [RegError] carrying the text of the dial
    error when that is a [*net.OpError] whose inner error reads "connect:
    network is unreachable", the dial error itself otherwise. No handshake
    is attempted. *)
Theorem send_dial_failure fuel a reg decoy err :
  DialContext W (GetIpAddrStr decoy) None = Err err ->
  exists posted,
    send X W fuel a reg decoy =
      ([EvDial (GetIpAddrStr decoy) None; EvPost (Some posted)],
       Done (setTCPToDecoy reg (Some (tcp_ms W (GetIpAddrStr decoy))))) /\
    match err with
    | OpError text inner =>
        if String.eqb inner "connect: network is unreachable"
        then posted = RegErrorV Unreachable text /\ is_unreachable (Some posted) = true
        else posted = err /\ is_unreachable (Some posted) = false
    | _ => posted = err
    end.
Proof.
  intros Hd. unfold send, dial, post, emit.
  cbn [mbind M_bind mret M_ret fst snd app]. rewrite Hd.
  destruct err as [c m|c m|text inner|m]; cbn [mbind M_bind mret M_ret fst snd app];
    try (eexists; split; reflexivity).
  destruct (String.eqb inner "connect: network is unreachable");
    cbn [mbind M_bind mret M_ret fst snd app]; eexists; (split; [reflexivity|]);
    split; reflexivity.
Qed.

(** X3. The comment on [send] forbids changes to the registration; what a
    [send] that returns has changed is its statistics only, where the time
    of the TCP dial is set whether the dial succeeded or not. *)
Theorem send_keeps_registration fuel a reg decoy r :
  (send X W fuel a reg decoy).2 = Done r ->
  seed r = seed reg /\ sessionIDStr r = sessionIDStr reg /\ phantom r = phantom reg /\
  useProxyHeader r = useProxyHeader reg /\ covertAddress r = covertAddress reg /\
  phantomSNI r = phantomSNI reg /\ v6Support r = v6Support reg /\
  transport r = transport reg /\ keys r = keys reg /\
  exists st, stats r = Some st /\ TcpToDecoy st = Some (tcp_ms W (GetIpAddrStr decoy)).
Proof.
  unfold send, dial, post, emit.
  cbn [mbind M_bind mret M_ret fst snd app].
  destruct (DialContext W (GetIpAddrStr decoy) None) as [dialConn|err].
  - cbn [setTCPToDecoy stats TcpToDecoy deref lift mbind M_bind mret M_ret fst snd app].
    unfold createTLSConn, emit.
    destruct (String.eqb (GetHostname decoy) "");
      [destruct (SplitHostPort X (GetIpAddrStr decoy)) as [hp|e]|];
      cbn [mbind M_bind mret M_ret fst snd app].
    2: { intros [= <-]. cbn. repeat split. eexists. split; reflexivity. }
    all: destruct (Handshake W dialConn _ _) as [tlsConn|e];
      cbn [mbind M_bind mret M_ret fst snd app].
    2, 4: intros [= <-]; cbn; repeat split; eexists; split; reflexivity.
    all: match goal with |- context [createRequest _ _ ?f ?a0 ?rg ?c ?d] =>
           destruct (createRequest X W f a0 rg c d) as [tr [[req|e']| |]]
         end;
      cbn [mbind M_bind mret M_ret fst snd app]; try discriminate.
    all: try (match goal with |- context [TLSWrite W ?c ?q] => destruct (TLSWrite W c q) end);
      cbn [mbind M_bind mret M_ret fst snd app];
      intros [= <-]; cbn; repeat split; eexists; split; reflexivity.
  - destruct err as [c m|c m|text inner|m]; cbn [mbind M_bind mret M_ret fst snd app];
      try (intros [= <-]; cbn; repeat split; eexists; split; reflexivity).
    destruct (String.eqb inner "connect: network is unreachable");
      cbn [mbind M_bind mret M_ret fst snd app];
      intros [= <-]; cbn; repeat split; eexists; split; reflexivity.
Qed.

Lemma no_post_not_In (tr : list event) r :
  length (filter (fun e => is_post e = true) tr) = 0%nat -> ~ In (EvPost r) tr.
Proof.
  intros Hlen Hin. apply nil_length_inv in Hlen.
  apply list_elem_of_In in Hin.
  assert (Hf : EvPost r ∈ filter (fun e => is_post e = true) tr)
    by (apply list_elem_of_filter; split; [reflexivity | exact Hin]).
  rewrite Hlen in Hf. by apply not_elem_of_nil in Hf.
Qed.

(** X4. [send] reports a success only after it has written the request that
    [createRequest] built into the TLS connection and the write has
    succeeded: a trace with a posted [nil] ends with that write, the post,
    the drain of the connection and the callback, in this order. *)
Theorem send_success_follows_write fuel a reg decoy :
  In (EvPost None) (send X W fuel a reg decoy).1 ->
  exists dialConn tlsConn reg' req pre,
    (createRequest X W fuel a reg' tlsConn decoy).2 = Done (Ok req) /\
    TLSWrite W tlsConn req = None /\
    ~ In (EvPost None) pre /\
    (send X W fuel a reg decoy).1 =
      pre ++ [EvTLSWrite tlsConn req; EvPost None; EvReadAndClose dialConn; EvCallback].
Proof.
  unfold send, dial, post, emit.
  cbn [mbind M_bind mret M_ret fst snd app].
  destruct (DialContext W (GetIpAddrStr decoy) None) as [dialConn|err].
  - cbn [setTCPToDecoy stats TcpToDecoy deref lift mbind M_bind mret M_ret fst snd app].
    unfold createTLSConn, emit.
    destruct (String.eqb (GetHostname decoy) "");
      [destruct (SplitHostPort X (GetIpAddrStr decoy)) as [hp|e]|];
      cbn [mbind M_bind mret M_ret fst snd app].
    2: { intros Hin. simpl in Hin. intuition discriminate. }
    all: destruct (Handshake W dialConn _ _) as [tlsConn|e];
      cbn [mbind M_bind mret M_ret fst snd app].
    2, 4: intros Hin; simpl in Hin; intuition discriminate.
    all: match goal with |- context [createRequest _ _ ?f ?a0 ?rg ?c ?d] =>
           pose proof (createRequest_no_post X W f a0 rg c d) as Hreq;
           remember (createRequest X W f a0 rg c d) as cr eqn:Hcr;
           destruct cr as [tr [[req|e']| |]]
         end;
      cbn [mbind M_bind mret M_ret fst snd app] in *;
      pose proof (no_post_not_In tr None Hreq) as Hno.
    all: try (intros Hin; exfalso; simpl in Hin;
              destruct Hin as [Hin|[Hin|Hin]]; [discriminate|discriminate|];
              first [ exact (Hno Hin)
                    | apply in_app_or in Hin as [Hin|Hin]; [exact (Hno Hin)|];
                      simpl in Hin; intuition discriminate ]).
    all: match goal with |- context [TLSWrite W ?c ?q] =>
           destruct (TLSWrite W c q) as [e|] eqn:Hw end;
      cbn [mbind M_bind mret M_ret fst snd app].
    all: try (intros Hin; exfalso; simpl in Hin;
              destruct Hin as [Hin|[Hin|Hin]]; [discriminate|discriminate|];
              apply in_app_or in Hin as [Hin|Hin]; [exact (Hno Hin)|];
              simpl in Hin; intuition discriminate).
    all: intros _;
      match type of Hcr with _ = createRequest _ _ _ _ ?rg _ _ =>
        match goal with |- context [EvHandshake ?dc ?sn ?dl] =>
          exists dialConn, tlsConn, rg, req,
            ([EvDial (GetIpAddrStr decoy) None; EvHandshake dc sn dl] ++ tr)
        end
      end;
      (split; [by rewrite <- Hcr|]); (split; [exact Hw|]); split;
      [ intros Hin; simpl in Hin; destruct Hin as [Hin|[Hin|Hin]];
        [discriminate|discriminate|exact (Hno Hin)]
      | reflexivity ].
  - intros Hin. exfalso.
    destruct err as [c m|c m|text inner|m]; cbn [mbind M_bind mret M_ret fst snd app] in Hin;
      try (simpl in Hin; intuition discriminate).
    destruct (String.eqb inner "connect: network is unreachable");
      cbn [mbind M_bind mret M_ret fst snd app] in Hin; simpl in Hin; intuition discriminate.
Qed.

End SendMore.


(** ** More on the payloads *)

Lemma byte_to_Z_to_byte z : byte_to_Z (Z_to_byte z) = z mod 256.
Proof.
  unfold byte_to_Z, Z_to_byte.
  pose proof (Z.mod_pos_bound z 256 ltac:(lia)) as Hz.
  pose proof (byte_of_ascii_via_N (ascii_of_N (Z.to_N (z mod 256)))) as Hb.
  symmetry in Hb. apply Byte.to_of_N in Hb. rewrite Hb.
  rewrite N_ascii_embedding by lia. lia.
Qed.

Lemma be_to_Z_two a b : be_to_Z [a; b] = byte_to_Z a * 256 + byte_to_Z b.
Proof. unfold be_to_Z. simpl. lia. Qed.

Section PayloadsMore.

Variable X : Externals.
Variable W : World.

(** The message that [generateVSP] starts from, with [n] zero bytes of
    padding ([n = 0]: no padding field). *)
Local Abbreviation vsp_message a reg n :=
  {| Proto.CovertAddress :=
       if Nat.ltb 0 (String.length (covertAddress reg)) then Some (covertAddress reg) else None;
     Proto.DecoyListGeneration := Some (GetGeneration a);
     Proto.V6SupportField := Some (v6Support reg);
     Proto.MaskedDecoyServerName :=
       if Nat.ltb 0 (String.length (phantomSNI reg)) then Some (phantomSNI reg) else None;
     Proto.Padding := match n%nat return option (list byte) with
                      | O => None
                      | S _ => Some (zero_bytes n)
                      end |}.

Lemma pad_to_three_least fuel ca dg vs ms :
  (3 <= fuel)%nat ->
  let msg n := Proto.Build_ClientToStation ca dg vs ms
                 (match n with O => None | S _ => Some (zero_bytes n) end) in
  exists n, (n <= 3)%nat /\
    pad_to_three X fuel (msg 0%nat) = Done (msg n) /\
    ((Proto.Size (schema X) (msg n) + AES_GCM_TAG_SIZE) mod 3 = 0)%nat /\
    forall m, (m < n)%nat ->
      ((Proto.Size (schema X) (msg m) + AES_GCM_TAG_SIZE) mod 3 <> 0)%nat.
Proof.
  intros Hfuel msg.
  destruct fuel as [|[|[|fuel]]]; [lia|lia|lia|].
  pose proof (ProtoFacts.Size_append_padding (schema X) (msg 0%nat) x00%byte) as H1.
  pose proof (ProtoFacts.Size_append_padding (schema X) (msg 1%nat) x00%byte) as H2.
  pose proof (ProtoFacts.Size_append_padding (schema X) (msg 2%nat) x00%byte) as H3.
  subst msg. cbv beta in *.
  specialize (H1 ltac:(simpl; lia)). specialize (H2 ltac:(simpl; lia)).
  specialize (H3 ltac:(simpl; lia)).
  unfold Proto.append_padding in H1, H2, H3.
  cbn [Proto.Padding Proto.CovertAddress Proto.DecoyListGeneration Proto.V6SupportField
       Proto.MaskedDecoyServerName default app length from_option id zero_bytes
       replicate] in H1, H2, H3.
  cbn [pad_to_three]. unfold Proto.append_padding.
  cbn [Proto.Padding Proto.CovertAddress Proto.DecoyListGeneration Proto.V6SupportField
       Proto.MaskedDecoyServerName default app from_option id zero_bytes replicate].
  unfold AES_GCM_TAG_SIZE in *.
  destruct (Nat.eqb_spec
    ((Proto.Size (schema X) (Proto.Build_ClientToStation ca dg vs ms None) + 16) mod 3) 0)
    as [E0|E0]; cbn [negb].
  { exists 0%nat. cbn [zero_bytes replicate]. split; [lia|]. split; [reflexivity|]. split; [exact E0|]. intros m Hm; lia. }
  destruct (Nat.eqb_spec
    ((Proto.Size (schema X) (Proto.Build_ClientToStation ca dg vs ms (Some [x00%byte])) + 16)
       mod 3) 0) as [E1|E1]; cbn [negb].
  { exists 1%nat. cbn [zero_bytes replicate]. split; [lia|]. split; [reflexivity|]. split; [exact E1|].
    intros [|m] Hm; [exact E0|lia]. }
  destruct (Nat.eqb_spec
    ((Proto.Size (schema X)
        (Proto.Build_ClientToStation ca dg vs ms (Some [x00%byte; x00%byte])) + 16)
       mod 3) 0) as [E2|E2]; cbn [negb].
  { exists 2%nat. cbn [zero_bytes replicate]. split; [lia|]. split; [reflexivity|]. split; [exact E2|].
    intros [|[|m]] Hm; [exact E0|exact E1|lia]. }
  destruct (Nat.eqb_spec
    ((Proto.Size (schema X)
        (Proto.Build_ClientToStation ca dg vs ms (Some [x00%byte; x00%byte; x00%byte])) + 16)
       mod 3) 0) as [E3|E3].
  { exists 3%nat. cbn [zero_bytes replicate]. split; [lia|]. split.
    { apply Nat.eqb_eq in E3.
      destruct fuel; cbn [pad_to_three]; unfold AES_GCM_TAG_SIZE; by rewrite E3. }
    split; [exact E3|]. intros [|[|[|m]]] Hm; [exact E0|exact E1|exact E2|lia]. }
  exfalso. rewrite H1 in E1. rewrite H2 in E2. rewrite H3 in E3.
  destruct (mod3_cases
    (Proto.Size (schema X) (Proto.Build_ClientToStation ca dg vs ms None)
     + length (Proto.key (Proto.padding_no (schema X)) 2) + 18)) as [E|[E|E]].
  - apply E1. rewrite <- E. f_equal; lia.
  - apply E2. rewrite <- E. f_equal; lia.
  - apply E3. rewrite <- E. f_equal; lia.
Qed.

(** X8. [generateVSP] serialises the covert address (when it is not empty),
    the generation of the assets, the v6 flag and the phantom SNI (when not
    empty), padded with the least number of zero bytes, at most three, that
    makes the size plus the AEAD tag a multiple of three. *)
Theorem generateVSP_padding fuel a reg :
  (3 <= fuel)%nat ->
  exists n, (n <= 3)%nat /\
    generateVSP X fuel a reg = Done (Ok (Proto.Marshal (schema X) (vsp_message a reg n))) /\
    ((length (Proto.Marshal (schema X) (vsp_message a reg n)) + AES_GCM_TAG_SIZE) mod 3
     = 0)%nat /\
    forall m, (m < n)%nat ->
      ((length (Proto.Marshal (schema X) (vsp_message a reg m)) + AES_GCM_TAG_SIZE) mod 3
       <> 0)%nat.
Proof.
  intros Hfuel.
  destruct (pad_to_three_least fuel
    (if (0 <? String.length (covertAddress reg))%nat then Some (covertAddress reg) else None)
    (Some (GetGeneration a)) (Some (v6Support reg))
    (if (0 <? String.length (phantomSNI reg))%nat then Some (phantomSNI reg) else None)
    Hfuel) as (n & Hn & Hrun & Hsize & Hleast).
  exists n. split; [exact Hn|]. split; [|split; [exact Hsize | exact Hleast]].
  unfold generateVSP. cbv zeta in Hrun. rewrite Hrun. reflexivity.
Qed.

(** The run of the first half of [createRequest] when the payload fits. *)
Lemma assemble_tag_run fuel a reg k vsp :
  aes_128_gcm X -> keys reg = Some k -> keys_wf k ->
  generateVSP X fuel a reg = Done (Ok vsp) -> Z.of_nat (length vsp) <= 65535 ->
  exists encVsp encFsp,
    aesGcmEncrypt X vsp (VspKey k) (VspIv k) = Ok encVsp /\
    length encVsp = (length vsp + 16)%nat /\ length encFsp = 22%nat /\
    assemble_tag X fuel a reg =
      ([EvSeal (VspKey k) (VspIv k) vsp;
        EvSeal (FspKey k) (FspIv k)
               (generateFSP X reg (Z.of_nat (length encVsp) mod 2 ^ 16))],
       Done (Ok ((encVsp ++ Representative k) ++ encFsp))).
Proof.
  intros Haes Hk (_ & Hrep & Hfk & Hfi & Hvk & Hvi & _) Hvsp Hsmall.
  destruct (Haes vsp (VspKey k) (VspIv k) Hvk Hvi) as (encVsp & He1 & Hl1).
  destruct (Haes (generateFSP X reg (Z.of_nat (length encVsp) mod 2 ^ 16))
                 (FspKey k) (FspIv k) Hfk Hfi) as (encFsp & He2 & Hl2).
  rewrite generateFSP_length in Hl2.
  exists encVsp, encFsp. split; [exact He1|]. split; [exact Hl1|]. split; [exact Hl2|].
  unfold assemble_tag. rewrite Hvsp. cbn [lift mbind M_bind fst snd].
  destruct (Z.ltb_spec 65535 (Z.of_nat (length vsp))) as [Hbig|_]; [lia|].
  rewrite Hk. cbn [deref lift mbind M_bind fst snd app].
  rewrite (seal_eq X vsp). rewrite He1. cbn [mbind M_bind fst snd app].
  rewrite seal_eq. rewrite He2. cbn [mbind M_bind fst snd app mret M_ret].
  reflexivity.
Qed.

Lemma generateFSP_bytes reg espSize :
  0 <= espSize < 2 ^ 16 ->
  generateFSP X reg espSize =
    [Z_to_byte (Z.shiftr espSize 8); Z_to_byte espSize;
     Z_to_byte (if useProxyHeader reg
                then Z.lor (default_flags X) (tdFlagProxyHeader X)
                else default_flags X);
     x00; x00; x00]%byte /\
  be_to_Z (take 2 (generateFSP X reg espSize)) = espSize.
Proof.
  intros Hsize.
  assert (Heq : generateFSP X reg espSize =
    [Z_to_byte (Z.shiftr espSize 8); Z_to_byte espSize;
     Z_to_byte (if useProxyHeader reg
                then Z.lor (default_flags X) (tdFlagProxyHeader X)
                else default_flags X);
     x00; x00; x00]%byte) by reflexivity.
  split; [exact Heq|]. rewrite Heq. cbn [take firstn].
  rewrite be_to_Z_two, !byte_to_Z_to_byte, Z.shiftr_div_pow2 by lia.
  change (2 ^ 8) with 256.
  assert (0 <= espSize / 256 < 256)
    by (split; [apply Z.div_pos; lia | apply Z.div_lt_upper_bound; lia]).
  rewrite (Z.mod_small (espSize / 256)) by lia.
  pose proof (Z.div_mod espSize 256 ltac:(lia)). lia.
Qed.

(** X6. The fixed-size payload is six bytes: the size of the sealed VSP as a
    big-endian 16-bit number, which reads back as the size given, the flags
    byte (the default flags, with the proxy-header flag ORed in when the
    registration asks for the proxy header), and three zero bytes. *)
Theorem generateFSP_layout reg espSize :
  0 <= espSize < 2 ^ 16 ->
  generateFSP X reg espSize =
    [Z_to_byte (Z.shiftr espSize 8); Z_to_byte espSize;
     Z_to_byte (if useProxyHeader reg
                then Z.lor (default_flags X) (tdFlagProxyHeader X)
                else default_flags X);
     x00; x00; x00]%byte /\
  be_to_Z (take 2 (generateFSP X reg espSize)) = espSize.
Proof. apply generateFSP_bytes. Qed.

(** X7. The size that [createRequest] writes into the FSP is the size of the
    sealed VSP reduced modulo 2^16: the check on the VSP is made before the
    16 bytes of the AEAD tag are added, so for a VSP of 65520 to 65535 bytes
    the request is built and the size in the FSP is not that of the sealed
    VSP. *)
Theorem fsp_size_field fuel a reg k vsp :
  aes_128_gcm X -> keys reg = Some k -> keys_wf k ->
  generateVSP X fuel a reg = Done (Ok vsp) -> Z.of_nat (length vsp) <= 65535 ->
  exists encVsp fsp tag,
    assemble_tag X fuel a reg =
      ([EvSeal (VspKey k) (VspIv k) vsp; EvSeal (FspKey k) (FspIv k) fsp], Done (Ok tag)) /\
    aesGcmEncrypt X vsp (VspKey k) (VspIv k) = Ok encVsp /\
    be_to_Z (take 2 fsp) = (Z.of_nat (length vsp) + 16) mod 2 ^ 16 /\
    (be_to_Z (take 2 fsp) = Z.of_nat (length encVsp) <-> Z.of_nat (length vsp) <= 65519).
Proof.
  intros Haes Hk Hwf Hvsp Hsmall.
  destruct (assemble_tag_run fuel a reg k vsp Haes Hk Hwf Hvsp Hsmall)
    as (encVsp & encFsp & He1 & Hl1 & Hl2 & Hrun).
  assert (Hlen : Z.of_nat (length encVsp) = Z.of_nat (length vsp) + 16) by lia.
  eexists encVsp, _, _.
  split; [exact Hrun|]. split; [exact He1|].
  pose proof (Z.mod_pos_bound (Z.of_nat (length encVsp)) (2 ^ 16) ltac:(lia)) as Hb.
  destruct (generateFSP_bytes reg _ Hb) as [_ Hback].
  rewrite Hback, Hlen. split; [reflexivity|].
  split.
  - intros Hm. destruct (Z.le_gt_cases (Z.of_nat (length vsp)) 65519) as [|Hgt]; [done|].
    rewrite Z.mod_eq in Hm by lia.
    assert (1 <= (Z.of_nat (length vsp) + 16) / 2 ^ 16)
      by (apply Z.div_le_lower_bound; lia).
    lia.
  - intros Hle. apply Z.mod_small. lia.
Qed.

(** X5. When the payload fits, [createRequest] seals the two payloads and
    then asks the TLS connection, once, for as much keystream as the HTTP
    beginning has bytes plus four for every three of the tag plus four. If
    the keystream is refused the error is returned; if it is shorter than the
    HTTP beginning the slice faults; otherwise the request is the HTTP
    beginning, the tag reverse-encrypted under the keystream that follows
    it, and an empty line. *)
Theorem createRequest_layout fuel a reg k vsp tlsConn decoy :
  aes_128_gcm X -> keys reg = Some k -> keys_wf k ->
  generateVSP X fuel a reg = Done (Ok vsp) -> Z.of_nat (length vsp) <= 65535 ->
  let beginning := generateHTTPRequestBeginning X (GetHostname decoy) in
  exists seals tag,
    assemble_tag X fuel a reg = (seals, Done (Ok tag)) /\
    length tag = (length vsp + 70)%nat /\
    let n := (length beginning + 4 * (length tag / 3) + 4)%nat in
    (createRequest X W fuel a reg tlsConn decoy).1 = seals ++ [EvGetOutKeystream tlsConn n] /\
    (createRequest X W fuel a reg tlsConn decoy).2 =
      match GetOutKeystream W tlsConn n with
      | Err err => Done (Err err)
      | Ok keystream =>
          if (length keystream <? length beginning)%nat
          then Panic "slice bounds out of range"
          else Done (Ok (beginning
                         ++ reverseEncrypt X tag (drop (length beginning) keystream)
                         ++ bytes_of_string (crlf +:+ crlf)))
      end.
Proof.
  intros Haes Hk Hwf Hvsp Hsmall beginning.
  pose proof Hwf as (_ & Hrep & _).
  destruct (assemble_tag_run fuel a reg k vsp Haes Hk Hwf Hvsp Hsmall)
    as (encVsp & encFsp & _ & Hl1 & Hl2 & Hrun).
  eexists _, _. split; [exact Hrun|].
  split; [rewrite !length_app, Hl1, Hrep, Hl2; lia|].
  intros n. unfold createRequest. rewrite Hrun.
  cbn [mbind M_bind mret M_ret fst snd app]. unfold out_keystream, emit.
  cbn [mbind M_bind mret M_ret fst snd app]. fold beginning.
  replace ((length ((encVsp ++ Representative k) ++ encFsp) / 3 + 1) * 4
           + length beginning)%nat with n by (subst n; lia).
  destruct (GetOutKeystream W tlsConn n) as [ks|e];
    cbn [mbind M_bind mret M_ret fst snd app].
  - destruct (length ks <? length beginning)%nat; cbn [lift fst snd];
      rewrite ?app_nil_r; split; try reflexivity.
    by rewrite <- app_assoc.
  - split; reflexivity.
Qed.

End PayloadsMore.

(** ** More on key derivation *)

Lemma expand_blocks_prefix n m prk info prev i :
  exists rest,
    HKDF.expand_blocks (n + m) prk info prev i = HKDF.expand_blocks n prk info prev i ++ rest.
Proof.
  revert prev i. induction n as [|n IH]; intros prev i.
  - eexists. reflexivity.
  - cbn [Nat.add HKDF.expand_blocks].
    destruct (IH (HMAC.sum prk (prev ++ info ++ [Z_to_byte i])) (i + 1)) as [rest Hrest].
    exists rest. rewrite Hrest. by rewrite app_assoc.
Qed.

(** A read that ends within the first four blocks is a slice of them. *)
Lemma read_key_slice prk info off n :
  (off + n <= 128)%nat ->
  read_key (Some (HKDF.Reader prk info off)) n =
    (take n (drop off (HKDF.expand_blocks 4 prk info [] 1)),
     Some (HKDF.Reader prk info (off + n))).
Proof.
  intros Hle. unfold read_key, HKDF.Read, SHA256.Size.
  cbn [HKDF.offset HKDF.prk HKDF.info].
  destruct (Nat.ltb_spec (255 * 32) (off + n)) as [Hlt|_]; [lia|].
  f_equal.
  set (nb := ((off + n + 32 - 1) / 32)%nat).
  assert (Hnb : (off + n <= 32 * nb /\ nb <= 4)%nat).
  { subst nb.
    pose proof (Nat.div_mod_eq (off + n + 32 - 1) 32).
    pose proof (Nat.mod_upper_bound (off + n + 32 - 1) 32 ltac:(lia)).
    lia. }
  destruct Hnb as [Hlo Hhi].
  destruct (expand_blocks_prefix nb (4 - nb) prk info [] 1) as [rest Hrest].
  replace (nb + (4 - nb))%nat with 4%nat in Hrest by lia.
  rewrite Hrest.
  rewrite drop_app_le by (rewrite length_expand_blocks; lia).
  rewrite take_app_le by (rewrite length_drop, length_expand_blocks; lia).
  reflexivity.
Qed.

(** What [generateSharedKeys] returns, by the result of the Elligator step. *)
Lemma generateSharedKeys_result W pubkey :
  match generateEligatorTransformedKey W pubkey with
  | Err err => generateSharedKeys W pubkey = (None, Some err)
  | Ok (sharedSecret, representative) =>
      exists k, generateSharedKeys W pubkey = (Some k, None) /\
        SharedSecret k = Some sharedSecret /\ Representative k = representative /\
        length (FspKey k) = 16%nat /\ length (FspIv k) = 12%nat /\
        length (VspKey k) = 16%nat /\ length (VspIv k) = 12%nat /\
        length (NewMasterSecret k) = 48%nat /\ length (ConjureSeed k) = 16%nat
  end.
Proof.
  unfold generateSharedKeys.
  destruct (generateEligatorTransformedKey W pubkey) as [[sharedSecret representative]|err];
    [|reflexivity].
  unfold HKDF.New.
  rewrite !read_key_slice by lia.
  eexists. split; [reflexivity|].
  cbn [SharedSecret Representative FspKey FspIv VspKey VspIv NewMasterSecret ConjureSeed].
  rewrite !length_take, !length_drop, !length_expand_blocks.
  repeat split; lia.
Qed.

(** X9. [generateSharedKeys] fails only where the Elligator step fails, and
    then returns no keys and that error. Otherwise it returns keys and no
    error: the six reads take 120 bytes, far below the limit of the HKDF
    stream, so the entropy error of the reads never comes out. The keys
    hold the shared secret and the representative as the Elligator step
    gave them, and the sizes of the six derived keys are 16, 12, 16, 12, 48
    and 16 bytes. *)
Theorem generateSharedKeys_cases W pubkey :
  match generateEligatorTransformedKey W pubkey with
  | Err err => generateSharedKeys W pubkey = (None, Some err)
  | Ok (sharedSecret, representative) =>
      exists k, generateSharedKeys W pubkey = (Some k, None) /\
        SharedSecret k = Some sharedSecret /\ Representative k = representative /\
        length (FspKey k) = 16%nat /\ length (FspIv k) = 12%nat /\
        length (VspKey k) = 16%nat /\ length (VspIv k) = 12%nat /\
        length (NewMasterSecret k) = 48%nat /\ length (ConjureSeed k) = 16%nat
  end.
Proof. apply generateSharedKeys_result. Qed.

(** X10. The six keys are consecutive slices of one HKDF-SHA256 stream, in
    the order FSP key, FSP IV, VSP key, VSP IV, master secret, seed: the
    stream is the first four blocks expanded, with an empty info string,
    from the key extracted from the shared secret under the salt
    "conjureconjureconjureconjure". *)
Theorem generateSharedKeys_schedule W pubkey k e :
  generateSharedKeys W pubkey = (Some k, e) ->
  let stream :=
    HKDF.expand_blocks 4
      (HMAC.sum (bytes_of_string "conjureconjureconjureconjure") (slice_bytes (SharedSecret k)))
      [] [] 1 in
  FspKey k ++ FspIv k ++ VspKey k ++ VspIv k ++ NewMasterSecret k ++ ConjureSeed k
    = take 120 stream /\
  FspKey k = take 16 stream /\
  FspIv k = take 12 (drop 16 stream) /\
  VspKey k = take 16 (drop 28 stream) /\
  VspIv k = take 12 (drop 44 stream) /\
  NewMasterSecret k = take 48 (drop 56 stream) /\
  ConjureSeed k = take 16 (drop 104 stream).
Proof.
  unfold generateSharedKeys.
  destruct (generateEligatorTransformedKey W pubkey) as [[sharedSecret representative]|err];
    [|discriminate].
  unfold HKDF.New, HKDF.extract.
  rewrite !read_key_slice by lia.
  remember (HKDF.expand_blocks 4
    (HMAC.sum (bytes_of_string "conjureconjureconjureconjure") sharedSecret) [] [] 1)
    as S eqn:HS.
  cbv beta iota zeta. intros H. apply (f_equal fst) in H. cbn [fst] in H.
  apply (inj Some) in H. subst k.
  cbn [SharedSecret Representative FspKey FspIv VspKey VspIv NewMasterSecret ConjureSeed
       slice_bytes default from_option id].
  rewrite <- HS. clear HS. cbv zeta.
  assert (Hsplit : forall a b o, take a (drop o S) ++ take b (drop (o + a) S)
                               = take (a + b) (drop o S)).
  { intros a b o. rewrite <- (drop_drop S a o). apply take_take_drop. }
  split; [|repeat split; reflexivity].
  rewrite (Hsplit 48 16 (0 + 16 + 12 + 16 + 12))%nat.
  rewrite (Hsplit 12 (48 + 16) (0 + 16 + 12 + 16))%nat.
  rewrite (Hsplit 16 (12 + (48 + 16)) (0 + 16 + 12))%nat.
  rewrite (Hsplit 12 (16 + (12 + (48 + 16))) (0 + 16))%nat.
  rewrite (Hsplit 16 (12 + (16 + (12 + (48 + 16)))) 0)%nat.
  reflexivity.
Qed.

(** ** More on the connect path *)

Section ConnectMore.

Variable X : Externals.
Variable W : World.

(** X11. When [reg.Connect] returns an error it has written nothing: its
    only effect is the dial to the phantom. The error is that of the dial,
    or, with a dial that succeeded and the Obfs4 transport, "connect not yet
    implemented"; in that case the connection just dialled is neither
    returned nor closed. *)
Theorem Connect_error_writes_nothing reg ctx c err :
  (Connect X W reg ctx).2 = Done (c, Some err) ->
  c = None /\
  exists ph,
    phantom reg = Some ph /\
    (Connect X W reg ctx).1 =
      [EvDial (JoinHostPort (IP_String X ph) "443") (Some (reg_deadline W reg ctx))] /\
    (phantom_dial X W ph (reg_deadline W reg ctx) = Err err \/
     exists conn,
       phantom_dial X W ph (reg_deadline W reg ctx) = Ok conn /\
       transport reg = Obfs4Transport /\
       err = ErrorString "connect not yet implemented").
Proof.
  unfold Connect, phantom_dial, reg_deadline, dial, conn_write, emit.
  destruct (phantom reg) as [ph|]; cbn [deref lift mbind M_bind mret M_ret fst snd app];
    [|discriminate].
  destruct (DialContext W _ _) as [conn|e] eqn:Hd;
    cbn [mbind M_bind mret M_ret fst snd app].
  - destruct (N.eqb_spec (transport reg) MinTransport) as [E|E].
    { destruct (keys reg); cbn [deref lift mbind M_bind mret M_ret fst snd app]; discriminate. }
    destruct (N.eqb_spec (transport reg) Obfs4Transport) as [E'|E'].
    + cbn [mbind M_bind mret M_ret fst snd app]. intros [= <- <-].
      split; [reflexivity|]. exists ph. split; [reflexivity|]. split; [reflexivity|].
      right. exists conn. done.
    + destruct (keys reg); cbn [deref lift mbind M_bind mret M_ret fst snd app]; discriminate.
  - intros [= <- <-]. split; [reflexivity|]. exists ph.
    split; [reflexivity|]. split; [reflexivity|]. by left.
Qed.

(** [reg.Connect] hands no connection to its caller, whatever it did. *)
Lemma Connect_no_conn reg ctx c e :
  (Connect X W reg ctx).2 = Done (c, e) -> c = None.
Proof.
  unfold Connect, dial, conn_write, emit.
  destruct (phantom reg) as [ph|]; cbn [deref lift mbind M_bind mret M_ret fst snd app];
    [|discriminate].
  destruct (DialContext W _ _) as [conn|err];
    cbn [mbind M_bind mret M_ret fst snd app]; [|by intros [= <- _]].
  destruct (transport reg =? MinTransport)%N;
    [destruct (keys reg); cbn [deref lift mbind M_bind mret M_ret fst snd app];
       [by intros [= <- _] | discriminate]|].
  destruct (transport reg =? Obfs4Transport)%N;
    cbn [mbind M_bind mret M_ret fst snd app]; [by intros [= <- _]|].
  destruct (keys reg); cbn [deref lift mbind M_bind mret M_ret fst snd app];
    [by intros [= <- _] | discriminate].
Qed.

(** The first effect of [reg.Connect] is the dial to port 443 of the
    phantom, under the deadline. *)
Lemma Connect_dials_first reg ctx ph :
  phantom reg = Some ph ->
  exists rest,
    (Connect X W reg ctx).1 =
      EvDial (JoinHostPort (IP_String X ph) "443") (Some (reg_deadline W reg ctx)) :: rest.
Proof.
  intros Hph. unfold Connect, reg_deadline, dial, conn_write, emit. rewrite Hph.
  cbn [deref lift mbind M_bind mret M_ret fst snd app].
  destruct (DialContext W _ _) as [conn|err];
    cbn [mbind M_bind mret M_ret fst snd app]; [|by eexists].
  destruct (transport reg =? MinTransport)%N;
    [destruct (keys reg); cbn [deref lift mbind M_bind mret M_ret fst snd app]; by eexists|].
  destruct (transport reg =? Obfs4Transport)%N;
    cbn [mbind M_bind mret M_ret fst snd app]; [by eexists|].
  destruct (keys reg); cbn [deref lift mbind M_bind mret M_ret fst snd app]; by eexists.
Qed.

Lemma rttInt_pos millis : 1 <= rttInt millis.
Proof. unfold rttInt. destruct (N.eqb_spec millis 0); lia. Qed.

(** The random duration lies between the base plus the round-trip time
    times the thousandth part of the least random number, and the same for
    the greatest. *)
Lemma getRandomDuration_bounds rtt base min max :
  0 <= min -> 1 <= rtt ->
  min <= getRandInt W min max <= max ->
  Millisecond * (base + rtt * (min / 1000))
    <= Millisecond * (base + rtt * Z.quot (getRandInt W min max) 1000)
    <= Millisecond * (base + rtt * (max / 1000)).
Proof.
  intros Hmin Hrtt [Hlo Hhi]. unfold Millisecond.
  rewrite Z.quot_div_nonneg by lia.
  pose proof (Z.div_le_mono min (getRandInt W min max) 1000 ltac:(lia) Hlo).
  pose proof (Z.div_le_mono (getRandInt W min max) max 1000 ltac:(lia) Hhi).
  nia.
Qed.

(** X12. The deadline of the phantom dial: the one of the context if it has
    one; otherwise, with a random source that keeps to its bounds, between
    two and five round-trip times from now, the round-trip time being that
    of the TCP dial to a decoy in milliseconds, or 300 ms if none was
    recorded. *)
Theorem Connect_deadline reg ctx ph :
  phantom reg = Some ph ->
  1061 * 2 <= getRandInt W (1061 * 2) (1953 * 3) <= 1953 * 3 ->
  exists d rest,
    (Connect X W reg ctx).1 = EvDial (JoinHostPort (IP_String X ph) "443") (Some d) :: rest /\
    match Deadline ctx with
    | Some d0 => d = d0
    | None =>
        let rtt := if (reg_getTcpToDecoy reg =? 0)%N then 300
                   else Z.of_N (reg_getTcpToDecoy reg) in
        Now W + 2 * rtt * Millisecond <= d <= Now W + 5 * rtt * Millisecond
    end.
Proof.
  intros Hph Hrand.
  destruct (Connect_dials_first reg ctx ph Hph) as [rest Hrest].
  exists (reg_deadline W reg ctx), rest. split; [exact Hrest|].
  unfold reg_deadline. destruct (Deadline ctx) as [d0|]; [reflexivity|].
  unfold reg_getRandomDuration.
  pose proof (getRandomDuration_bounds (rttInt (reg_getTcpToDecoy reg)) 0
                (1061 * 2) (1953 * 3) ltac:(lia) (rttInt_pos _) Hrand) as Hb.
  change (1061 * 2 / 1000) with 2 in Hb. change (1953 * 3 / 1000) with 5 in Hb.
  unfold rttInt in *. cbv zeta in *.
  destruct (reg_getTcpToDecoy reg =? 0)%N; lia.
Qed.

End ConnectMore.

(** ** [DialConjure] *)

Section DialMore.

Variable X : Externals.
Variable W : World.
Variable v6Decoy : decoy_ptr.

(** What the v6 probe does: the dial to the v6 decoy, and the close of the
    connection if the dial has come back with one in time. *)
Local Abbreviation probe_effects probe :=
  (EvDial (GetIpAddrStr v6Decoy) None ::
   (if probe : bool then []
    else match DialContext W (GetIpAddrStr v6Decoy) None with
         | Ok conn => [EvConnClose conn]
         | Err _ => []
         end)).

Lemma testV6_run probe :
  testV6 W v6Decoy probe = (probe_effects probe, Done probe).
Proof.
  unfold testV6, dial, emit. cbn [mbind M_bind mret M_ret fst snd app].
  destruct probe; [reflexivity|].
  destruct (DialContext W (GetIpAddrStr v6Decoy) None); reflexivity.
Qed.

(** [Register] is the probe followed by [register] on the session with the
    [V6] set from the probe's answer. *)
Lemma Register_run probe a s arrivals :
  Register X W v6Decoy probe a s arrivals =
    (probe_effects probe,
     s1 ← setV6Support s (if probe then both else v4); register X a s1 arrivals).
Proof.
  unfold Register. rewrite testV6_run. unfold mbind at 1, M_bind. cbn [fst snd].
  destruct probe;
    (destruct (setV6Support s _) as [s1| |];
     cbn [lift mbind M_bind outcome_bind fst snd app]; rewrite ?app_nil_r;
     [destruct (register X a s1 arrivals)|..]; reflexivity).
Qed.

(** What [register] does to the session: it sets the decoys and the
    phantom and leaves the rest, the [V6] included. *)
Lemma register_session a s arrivals s' rest res :
  register X a s arrivals = Done (s', rest, res) ->
  exists k v decoys,
    Keys s = Some k /\ V6Support s = Some v /\
    SelectDecoys a (slice_bytes (SharedSecret k)) (include v) (Width s) = Done decoys /\
    s' = with_selection s decoys (SelectPhantom X (ConjureSeed k) (support v)).1.
Proof.
  unfold register.
  destruct (Keys s) as [k|]; cbn [deref mbind outcome_bind]; [|discriminate].
  destruct (V6Support s) as [v|]; cbn [deref mbind outcome_bind]; [|discriminate].
  destruct (SelectDecoys a _ _ _) as [decoys| |] eqn:Hsel; cbn [mbind outcome_bind];
    try discriminate.
  intros H. exists k, v, decoys. do 2 (split; [reflexivity|]). split; [exact Hsel|].
  destruct (SelectPhantom X (ConjureSeed k) (support v)) as [ph e].
  cbn [fst snd with_selection Phantom RegDecoys] in *.
  destruct e as [e|]; [by injection H as <- _ _|].
  destruct ph as [ph|]; [|by injection H as <- _ _].
  destruct (tally arrivals _ 0%N) as [t| |]; cbn [mbind outcome_bind] in H; try discriminate.
  destruct (_ =? _)%N; by injection H as <- _ _.
Qed.

(** What a [Register] that returns has called [register] on. *)
Lemma Register_register (probe : bool) a s arrivals r :
  (Register X W v6Decoy probe a s arrivals).2 = Done r ->
  exists v,
    V6Support s = Some v /\
    register X a (with_V6 s {| support := probe; include := if probe then both else v4;
                               checked := checked v |}) arrivals = Done r.
Proof.
  rewrite Register_run. cbn [snd]. unfold setV6Support.
  destruct (V6Support s) as [v|]; [|destruct probe; discriminate].
  intros H. exists v. split; [reflexivity|].
  destruct probe; exact H.
Qed.

(** The [V6] that [Register] leaves in the session. *)
Lemma Register_session probe a s arrivals s' rest res :
  (Register X W v6Decoy probe a s arrivals).2 = Done (s', rest, res) ->
  exists v,
    V6Support s = Some v /\
    V6Support s' = Some {| support := probe; include := if probe then both else v4;
                           checked := checked v |}.
Proof.
  intros H. apply Register_register in H as (v & Hv & H).
  exists v. split; [exact Hv|].
  apply register_session in H as (k & v' & decoys & _ & Hv' & _ & ->).
  cbn [with_V6 V6Support with_selection] in *. congruence.
Qed.

(** X13. [DialConjure] never returns a connection: on every path on which
    it returns, its first result is [nil]. After a registration that
    succeeded the caller gets [(nil, nil)] or [(nil, err)]. *)
Theorem DialConjure_never_returns_conn probe a cjSession arrivals seen ctx d :
  (DialConjure X W v6Decoy probe a cjSession arrivals seen ctx).2 = Done d ->
  (returned d).1 = None.
Proof.
  unfold DialConjure.
  destruct cjSession as [s|]; [|by intros [= <-]].
  destruct (Register X W v6Decoy probe a s arrivals) as [tr0 [[[s' rest] [r e]]| |]];
    cbn [mbind M_bind mret M_ret fst snd app]; try discriminate.
  destruct e as [e|]; cbn [mbind M_bind mret M_ret fst snd app]; [by intros [= <-]|].
  destruct r as [reg|]; cbn [fmap option_fmap option_map ptr_Connect lift fst snd];
    [|discriminate].
  destruct (Connect X W (with_stats reg seen) ctx) as [tr [[c e]| |]] eqn:Hc;
    cbn [mbind M_bind mret M_ret fst snd app]; try discriminate.
  intros [= <-]. cbn [returned fst].
  apply (Connect_no_conn X W (with_stats reg seen) ctx c e). by rewrite Hc.
Qed.

(** X14. [DialConjure] stores a [V6] in the assets only after a registration
    that returned no error, and what it stores is the answer of the probe:
    v6 support as probed, both families included if the probe succeeded and
    v4 alone if not. The time of the last check stays as it was, so the
    probe never refreshes the two-hour cache that [useV4] and [useV6]
    read. *)
Theorem DialConjure_stores_probe probe a cjSession arrivals seen ctx d v' :
  (DialConjure X W v6Decoy probe a cjSession arrivals seen ctx).2 = Done d ->
  stored_v6 d = Some v' ->
  exists s v,
    cjSession = Some s /\ V6Support s = Some v /\
    v' = {| support := probe; include := if probe then both else v4;
            checked := checked v |} /\
    exists s' rest reg,
      (Register X W v6Decoy probe a s arrivals).2 = Done (s', rest, (reg, None)).
Proof.
  unfold DialConjure.
  destruct cjSession as [s|]; [|by intros [= <-]].
  destruct (Register X W v6Decoy probe a s arrivals) as [tr0 [[[s' rest] [r e]]| |]] eqn:HR;
    cbn [mbind M_bind mret M_ret fst snd app]; try discriminate.
  destruct e as [e|]; cbn [mbind M_bind mret M_ret fst snd app]; [by intros [= <-]|].
  destruct (ptr_Connect X W _ ctx) as [tr [res| |]];
    cbn [mbind M_bind mret M_ret fst snd app]; try discriminate.
  intros [= <-]. cbn [stored_v6]. intros Hs.
  assert (HR2 : (Register X W v6Decoy probe a s arrivals).2 = Done (s', rest, (r, None)))
    by (by rewrite HR).
  destruct (Register_session probe a s arrivals s' rest (r, None) HR2) as (v & Hv & Hv').
  exists s, v. split; [reflexivity|]. split; [exact Hv|]. split; [congruence|].
  by exists s', rest, r.
Qed.

(** X15. The sleep between registration and connect is at least three
    seconds and at most three seconds plus three round-trip times, for a
    random source that keeps to its bounds; the round-trip time is the TCP
    time that the send goroutines have recorded when [Register] returns, or
    300 ms if that is zero or none. *)
Theorem DialConjure_sleep probe a cjSession arrivals seen ctx d t :
  212 <= getRandInt W 212 3449 <= 3449 ->
  (DialConjure X W v6Decoy probe a cjSession arrivals seen ctx).2 = Done d ->
  slept d = Some t ->
  let rtt := if (GetTcpToDecoy seen =? 0)%N then 300 else Z.of_N (GetTcpToDecoy seen) in
  3000 * Millisecond <= t <= (3000 + 3 * rtt) * Millisecond.
Proof.
  intros Hrand. unfold DialConjure.
  destruct cjSession as [s|]; [|by intros [= <-]].
  destruct (Register X W v6Decoy probe a s arrivals) as [tr0 [[[s' rest] [r e]]| |]];
    cbn [mbind M_bind mret M_ret fst snd app]; try discriminate.
  destruct e as [e|]; cbn [mbind M_bind mret M_ret fst snd app]; [by intros [= <-]|].
  destruct r as [reg|]; cbn [fmap option_fmap option_map ptr_Connect lift fst snd];
    [|discriminate].
  destruct (Connect X W (with_stats reg seen) ctx) as [tr [res| |]];
    cbn [mbind M_bind mret M_ret fst snd app]; try discriminate.
  intros [= <-]. cbn [slept]. intros [= <-]. cbv zeta.
  cbn [ptr_getRandomDuration]. unfold reg_getRandomDuration.
  pose proof (getRandomDuration_bounds W
                (rttInt (reg_getTcpToDecoy (with_stats reg seen))) 3000
                212 3449 ltac:(lia) (rttInt_pos _) Hrand) as Hb.
  change (212 / 1000) with 0 in Hb. change (3449 / 1000) with 3 in Hb.
  unfold reg_getTcpToDecoy in *. cbn [with_stats stats] in *.
  unfold rttInt in *. cbv zeta in *.
  destruct (GetTcpToDecoy seen =? 0)%N; lia.
Qed.


End DialMore.

(** ** The v6 policy *)

(** X17. [setV6Support] writes the [support] and [include] fields of the
    session's [V6] and nothing else: [support] is false for [v4] alone,
    [include] is the argument if that is one of [v4], [v6] and [both] and
    [v6] otherwise, the two agree with each other, and the time of the last
    check and the rest of the session stay as they were. *)
Theorem setV6Support_spec s arg s' :
  setV6Support s arg = Done s' ->
  exists v v',
    V6Support s = Some v /\ V6Support s' = Some v' /\
    (support v' = false <-> arg = v4) /\
    include v' = (if (arg <=? both)%N then arg else v6) /\
    support v' = negb (include v' =? v4)%N /\
    checked v' = checked v /\
    Keys s' = Keys s /\ Width s' = Width s /\ UseProxyHeader s' = UseProxyHeader s /\
    SessionID s' = SessionID s /\ RegDecoys s' = RegDecoys s /\ Phantom s' = Phantom s /\
    Transport s' = Transport s /\ CovertAddress s' = CovertAddress s /\
    session_stats s' = session_stats s.
Proof.
  unfold setV6Support. destruct (V6Support s) as [v|]; [|discriminate].
  cbn [deref mbind outcome_bind mret outcome_ret]. intros [= <-].
  eexists v, _. split; [reflexivity|]. split; [reflexivity|].
  unfold v4, v6, both.
  destruct (N.eqb_spec arg 0) as [->|H0].
  { cbn. repeat split; reflexivity. }
  destruct (N.eqb_spec arg 1) as [->|H1].
  { cbn. repeat split; try reflexivity; discriminate. }
  destruct (N.eqb_spec arg 2) as [->|H2].
  { cbn. repeat split; try reflexivity; discriminate. }
  destruct (N.leb_spec arg 2) as [Hle|Hgt]; [lia|].
  cbn. repeat split; try reflexivity; try discriminate. intros ->. done.
Qed.

(** X18. [useV4] and [useV6] never both answer yes. If the last check is
    more than two hours old both answer no; otherwise exactly one answers
    yes, [useV4] if only v4 is included. *)
Theorem useV4_useV6_exclusive s now b4 b6 :
  useV4 s now = Done b4 -> useV6 s now = Done b6 ->
  exists v,
    V6Support s = Some v /\
    b4 && b6 = false /\
    (checked v < now - 2 * Hour -> b4 = false /\ b6 = false) /\
    (now - 2 * Hour <= checked v -> b4 = negb b6 /\ (b4 = true <-> include v = v4)).
Proof.
  unfold useV4, useV6. destruct (V6Support s) as [v|]; [|discriminate].
  cbn [deref mbind outcome_bind mret outcome_ret]. intros H4 H6.
  exists v. split; [reflexivity|].
  destruct (Z.ltb_spec (checked v) (now + - 2 * Hour)) as [Hs|Hs].
  { injection H4 as <-. injection H6 as <-. repeat split; try reflexivity; lia. }
  destruct (N.eqb_spec (include v) v4) as [E|E]; cbn [negb] in *;
    injection H4 as <-; injection H6 as <-;
    repeat split; try reflexivity; try lia; try done.
Qed.

(** X19. [setV6Support] does not touch the time of the last check, so after
    it the two questions are answered from the argument only while the
    check on record is less than two hours old: then [useV4] says whether
    the argument was [v4] and [useV6] the opposite; with an older check both
    say no, whatever was set. *)
Theorem setV6Support_then_use s arg s' v now :
  setV6Support s arg = Done s' -> V6Support s = Some v ->
  let stale := checked v <? now + - 2 * Hour in
  useV4 s' now = Done (if stale then false else (arg =? v4)%N) /\
  useV6 s' now = Done (if stale then false else negb (arg =? v4)%N).
Proof.
  unfold setV6Support. intros H Hv. rewrite Hv in H.
  cbn [deref mbind outcome_bind mret outcome_ret] in H. injection H as <-.
  cbv zeta. unfold useV4, useV6.
  cbn [with_V6 V6Support deref mbind outcome_bind mret outcome_ret].
  unfold v4, v6, both.
  destruct (N.eqb_spec arg 0) as [->|H0]; cbn [checked include].
  { destruct (checked v <? now + - 2 * Hour); split; reflexivity. }
  destruct (N.eqb_spec arg 1) as [->|H1]; cbn [checked include].
  { destruct (checked v <? now + - 2 * Hour); split; reflexivity. }
  destruct (N.eqb_spec arg 2) as [->|H2]; cbn [checked include].
  { destruct (checked v <? now + - 2 * Hour); split; reflexivity. }
  destruct (checked v <? now + - 2 * Hour); split; reflexivity.
Qed.

(** ** More on decoy selection and registration *)

(** The decoys selected are members of the pool of the family. *)
Lemma SelectDecoys_members a sharedSecret version width decoys :
  SelectDecoys a sharedSecret version width = Done decoys ->
  length decoys = N.to_nat width /\
  Forall (fun d => d ∈ decoy_pool a version) decoys /\
  decoy_pool a version =
    (if (version =? v6)%N then GetV6Decoys a
     else if (version =? v4)%N then GetV4Decoys a else GetAllDecoys a).
Proof.
  intros H.
  assert (Hpool : decoy_pool a version =
    (if (version =? v6)%N then GetV6Decoys a
     else if (version =? v4)%N then GetV4Decoys a else GetAllDecoys a)).
  { unfold decoy_pool. by repeat destruct (_ =? _)%N. }
  split; [|split; [|exact Hpool]].
  all: unfold SelectDecoys in H; cbv zeta in H.
  all: destruct (decide (decoy_pool a version = [])) as [Hnil|Hne].
  1, 3: destruct (N.to_nat width) as [|n] eqn:E;
      [cbn in H; injection H as <-; by constructor|];
      rewrite Hnil, SelectDecoys_loop_unfold in H; discriminate.
  all: destruct (SelectDecoys_loop_spec sharedSecret (decoy_pool a version) Hne
              (N.to_nat width) 0%N (replicate (N.to_nat width) None))
    as (ds & Hrun & Hl & _ & Hhigh); [rewrite length_replicate; simpl; lia|];
    pose proof (eq_trans (eq_sym Hrun) H) as Heq; injection Heq as <-;
    rewrite length_replicate in Hl.
  - exact Hl.
  - apply Forall_lookup_2. intros j d Hj.
    pose proof (lookup_lt_Some _ _ _ Hj) as Hlt.
    rewrite Hhigh in Hj by (simpl; lia).
    by apply list_elem_of_lookup_2 in Hj.
Qed.

(** X20. Whatever [SelectDecoys] returns are [width] members of the pool of
    the family asked for: the v6 decoys for [v6], the v4 decoys for [v4],
    all decoys for [both] and for any other value. *)
Theorem SelectDecoys_from_pool a sharedSecret version width decoys :
  SelectDecoys a sharedSecret version width = Done decoys ->
  length decoys = N.to_nat width /\
  Forall (fun d => d ∈ decoy_pool a version) decoys /\
  decoy_pool a version =
    (if (version =? v6)%N then GetV6Decoys a
     else if (version =? v4)%N then GetV4Decoys a else GetAllDecoys a).
Proof. apply SelectDecoys_members. Qed.

Section RegisterMore.

Variable X : Externals.
Variable W : World.
Variable v6Decoy : decoy_ptr.

(** X21. [Register] selects by the answer of the v6 probe: with a probe that
    succeeded the decoys come from all decoys and the phantom is selected
    with v6 support, otherwise the decoys are v4 decoys and the phantom is
    selected without. The session it leaves holds these decoys, this
    phantom and a [V6] set accordingly. *)
Theorem Register_selection (probe : bool) a s arrivals s' rest res :
  (Register X W v6Decoy probe a s arrivals).2 = Done (s', rest, res) ->
  exists k v,
    Keys s = Some k /\ V6Support s = Some v /\
    SelectDecoys a (slice_bytes (SharedSecret k)) (if probe then both else v4) (Width s)
      = Done (RegDecoys s') /\
    Forall (fun d => d ∈ (if probe then GetAllDecoys a else GetV4Decoys a)) (RegDecoys s') /\
    Phantom s' = (SelectPhantom X (ConjureSeed k) probe).1 /\
    V6Support s' = Some {| support := probe; include := if probe then both else v4;
                           checked := checked v |}.
Proof.
  intros H. apply Register_register in H as (v & Hv & H).
  apply register_session in H as (k & v' & decoys & Hk & Hv' & Hsel & ->).
  cbn [with_V6 V6Support Keys Width] in *.
  injection Hv' as <-. cbn [include support] in *.
  exists k, v. split; [exact Hk|]. split; [exact Hv|].
  cbn [with_selection RegDecoys Phantom V6Support].
  split; [exact Hsel|]. split; [|split; reflexivity].
  apply SelectDecoys_members in Hsel as (_ & Hall & _).
  destruct probe; exact Hall.
Qed.

(** X22. If the selection of the phantom fails, with an error or with a nil
    phantom, [register] returns a nil registration and that error without
    reading the channel; the session already holds the decoys selected and
    whatever phantom came back. *)
Theorem register_phantom_failure a s k v decoys ph e arrivals :
  Keys s = Some k -> V6Support s = Some v ->
  SelectDecoys a (slice_bytes (SharedSecret k)) (include v) (Width s) = Done decoys ->
  SelectPhantom X (ConjureSeed k) (support v) = (ph, e) ->
  e <> None \/ ph = None ->
  register X a s arrivals = Done (with_selection s decoys ph, arrivals, (None, e)).
Proof.
  intros Hk Hv Hsel Hph Hfail. unfold register. rewrite Hk, Hv.
  cbn [deref mbind outcome_bind]. rewrite Hsel. cbn [mbind outcome_bind].
  rewrite Hph. cbn [fst snd with_selection Phantom].
  destruct e as [e|]; [reflexivity|].
  destruct Hfail as [Hfail| ->]; [done|reflexivity].
Qed.

(** X23. With a width of zero no decoy is selected and no send is started,
    so nothing ever arrives on the channel: once the phantom is selected
    [register] waits on the channel and does not return. *)
Theorem register_zero_width_blocks a s k v ph :
  Keys s = Some k -> V6Support s = Some v -> Width s = 0%N ->
  SelectPhantom X (ConjureSeed k) (support v) = (Some ph, None) ->
  SelectDecoys a (slice_bytes (SharedSecret k)) (include v) (Width s) = Done [] /\
  register X a s [] = Blocked.
Proof.
  intros Hk Hv Hw Hph. rewrite Hw.
  split; [reflexivity|].
  unfold register. rewrite Hk, Hv, Hw.
  cbn [deref mbind outcome_bind]. rewrite SelectDecoys_width_zero.
  cbn [mbind outcome_bind]. rewrite Hph. reflexivity.
Qed.

End RegisterMore.

(** ** Session creation and the dial by address *)

Section DialAddr.

Variable X : Externals.
Variable W : World.
Variable v6Decoy : decoy_ptr.

(** X24. [makeConjureSession] gives a session exactly when the Elligator
    step succeeds: then the session has the keys derived from it, the
    default width of five, the Null transport, no decoys and no phantom yet,
    and the number that the session counter held, and the counter is
    advanced by one (modulo 2^64). If the step fails there is no session and
    the counter is not touched. *)
Theorem makeConjureSession_cases pubkey v sessionsTotal covert :
  match generateEligatorTransformedKey W pubkey with
  | Err _ => makeConjureSession W pubkey v sessionsTotal covert = (None, sessionsTotal)
  | Ok (sharedSecret, representative) =>
      exists k,
        generateSharedKeys W pubkey = (Some k, None) /\
        SharedSecret k = Some sharedSecret /\
        makeConjureSession W pubkey v sessionsTotal covert =
          (Some {| Keys := Some k; Width := 5; V6Support := v; UseProxyHeader := false;
                   SessionID := sessionsTotal; RegDecoys := []; Phantom := None;
                   Transport := NullTransport; CovertAddress := covert;
                   session_stats := None |},
           ((sessionsTotal + 1) mod 2 ^ 64)%N)
  end.
Proof.
  pose proof (generateSharedKeys_result W pubkey) as H. unfold makeConjureSession.
  destruct (generateEligatorTransformedKey W pubkey) as [[sharedSecret representative]|err].
  - destruct H as (k & -> & Hs & _). exists k. done.
  - by rewrite H.
Qed.

(** X25. If the Elligator step fails, [DialConjureAddr] does nothing on the
    network and returns the error "No Session Provided": the error of the
    key generation is dropped with the session, and the v6 probe is not
    reached. *)
Theorem DialConjureAddr_key_failure probe a pubkey v sessionsTotal arrivals seen ctx
    address err :
  generateEligatorTransformedKey W pubkey = Err err ->
  DialConjureAddr X W v6Decoy probe a pubkey v sessionsTotal arrivals seen ctx address =
    ([], Done {| stored_v6 := None; slept := None;
                 returned := (None, Some (ErrorString "No Session Provided")) |}).
Proof.
  intros He. unfold DialConjureAddr, makeConjureSession, generateSharedKeys.
  rewrite He. reflexivity.
Qed.

(** X26. The dial by address from end to end. With keys derived, a pool
    that is not empty, a phantom selected, fewer than five unreachable
    results before the first other one, and a phantom that accepts the
    dial: after the v6 probe (its dial, and the close of its connection if
    it came back in time) [DialConjureAddr] dials the phantom, writes the
    32 bytes of the Min-transport tag into the connection, although the
    session it made asks for the Null transport, and returns [(nil, nil)];
    the [V6] it stores in the assets is the answer of the probe. *)
Theorem DialConjureAddr_end_to_end (probe : bool) a pubkey v0 sessionsTotal arrivals seen ctx
    address k ph pre r post conn :
  generateSharedKeys W pubkey = (Some k, None) ->
  decoy_pool a (if probe then both else v4) <> [] ->
  SelectPhantom X (ConjureSeed k) probe = (Some ph, None) ->
  arrivals = pre ++ r :: post ->
  Forall (fun r => is_unreachable r = true) pre -> is_unreachable r = false ->
  (length pre < 5)%nat ->
  (forall d, phantom_dial X W ph d = Ok conn) ->
  exists d t,
    DialConjureAddr X W v6Decoy probe a pubkey (Some v0) sessionsTotal arrivals seen ctx
      address =
      (EvDial (GetIpAddrStr v6Decoy) None ::
       (if probe then []
        else match DialContext W (GetIpAddrStr v6Decoy) None with
             | Ok probed => [EvConnClose probed]
             | Err _ => []
             end) ++
       [EvDial (JoinHostPort (IP_String X ph) "443") (Some d);
        EvConnWrite conn
          (conjureHMAC (slice_bytes (SharedSecret k)) "MinTrasportHMACString")],
       Done {| stored_v6 := Some {| support := probe;
                                    include := if probe then both else v4;
                                    checked := checked v0 |};
               slept := Some t; returned := (None, None) |}) /\
    length (conjureHMAC (slice_bytes (SharedSecret k)) "MinTrasportHMACString") = 32%nat.
Proof.
  intros Hkeys Hpool Hph -> Hpre Hr Hlen Hdial.
  unfold DialConjureAddr, makeConjureSession. rewrite Hkeys. cbn [fst snd GetAndInc].
  set (s := {| Keys := Some k; Width := defaultRegWidth; V6Support := Some v0;
               UseProxyHeader := false; SessionID := sessionsTotal; RegDecoys := [];
               Phantom := None; Transport := NullTransport; CovertAddress := address;
               session_stats := None |}).
  set (v := {| support := probe; include := if probe then both else v4;
               checked := checked v0 |}).
  destruct (SelectDecoys_returns a (slice_bytes (SharedSecret k))
              (if probe then both else v4) defaultRegWidth Hpool) as (decoys & Hdec & Hdl).
  assert (Hreg : exists reg,
    (s1 ← setV6Support s (if probe then both else v4);
     register X a s1 (pre ++ r :: post)) =
      Done (with_selection (with_V6 s v) decoys (Some ph), post, (Some reg, None)) /\
    phantom reg = Some ph /\ keys reg = Some k /\ transport reg = MinTransport).
  { assert (Hset : setV6Support s (if probe then both else v4) = Done (with_V6 s v)).
    { subst v. destruct probe; reflexivity. }
    rewrite Hset. cbn [mbind outcome_bind].
    rewrite (register_after_selection X a (with_V6 s v) k v decoys ph (pre ++ r :: post));
      [|reflexivity|reflexivity| |].
    2: { subst v. cbn [include with_V6 Width s]. exact Hdec. }
    2: { subst v. cbn [support]. exact Hph. }
    assert (Hw : N.of_nat (length decoys) = 5%N) by (unfold defaultRegWidth in Hdl; lia).
    rewrite Hw.
    rewrite (tally_first_other pre r post 5%N 0%N Hpre Hr) by lia.
    cbn [mbind outcome_bind fst snd].
    destruct (N.eqb_spec (0 + N.of_nat (length pre)) 5) as [E|_]; [lia|].
    eexists. split; [reflexivity|]. cbn [phantom keys transport with_V6 Keys s].
    done. }
  destruct Hreg as (reg & HRg & Hp & Hk & Ht).
  unfold DialConjure. rewrite Register_run, HRg.
  cbn [lift mbind M_bind mret M_ret fst snd app fmap option_fmap option_map ptr_Connect].
  rewrite (Connect_after_dial X W (with_stats reg seen) ctx ph k conn);
    [|exact Hp|exact Hk|apply Hdial|cbn [with_stats transport]; by rewrite Ht].
  cbn [mbind M_bind mret M_ret fst snd app].
  eexists _, _. split; [reflexivity|apply conjureHMAC_length].
Qed.

End DialAddr.

(** ** The command line *)

Module CliFacts.

Import Cli.

Lemma Split_nonempty s : Split s <> [].
Proof.
  destruct s as [|c r]; [done|]. cbn [Split].
  destruct (Ascii.eqb c ","); [done|]. by destruct (Split r).
Qed.

(** [strings.Split] cuts at every comma: there is one part more than there
    are commas, and the parts joined by commas are the string. *)
Lemma Split_length s :
  length (Split s) = S (count_occ ascii_dec (list_ascii_of_string s) ","%char).
Proof.
  induction s as [|c r IH]; [reflexivity|].
  cbn [Split list_ascii_of_string count_occ].
  destruct (Ascii.eqb_spec c ",") as [->|Hne].
  - destruct (ascii_dec "," ","); [|done]. cbn [length]. by rewrite IH.
  - destruct (ascii_dec c ","); [done|].
    pose proof (Split_nonempty r). destruct (Split r) as [|h t]; [done|].
    cbn [length] in *. exact IH.
Qed.

Lemma Split_concat s : String.concat "," (Split s) = s.
Proof.
  induction s as [|c r IH]; [reflexivity|].
  cbn [Split]. pose proof (Split_nonempty r) as Hne.
  destruct (Ascii.eqb c ",") eqn:E.
  - apply Ascii.eqb_eq in E as ->.
    destruct (Split r) as [|h t]; [done|].
    change (String.concat "," ("" :: h :: t))
      with (String "," (String.concat "," (h :: t))).
    by rewrite IH.
  - destruct (Split r) as [|h t]; [done|].
    destruct t as [|h' t'].
    + cbn [String.concat] in *. by rewrite IH.
    + change (String.concat "," (String c h :: h' :: t'))
        with (String c (String.concat "," (h :: h' :: t'))).
      by rewrite IH.
Qed.

End CliFacts.

Section SingleDecoy.

Variable net : Cli.Net.

(** X27. [setSingleDecoyHost] leaves the configuration as it was whenever it
    returns an error; and with two commas or more in the argument it
    returns the error that there are too many, without resolving or parsing
    anything. *)
Theorem setSingleDecoyHost_errors (conf : Cli.ClientConf) decoy :
  (forall conf' e,
     Cli.setSingleDecoyHost net conf decoy = Done (conf', Some e) -> conf' = conf) /\
  ((2 <= count_occ ascii_dec (list_ascii_of_string decoy) ","%char)%nat ->
   Cli.setSingleDecoyHost net conf decoy =
     Done (conf, Some (ErrorString
       (Cli.dquote +:+ decoy +:+ Cli.dquote +:+ " contains too many commas")))).
Proof.
  split.
  - intros conf' e. unfold Cli.setSingleDecoyHost.
    destruct (length (Cli.Split decoy)) as [|[|[|n]]].
    + by intros [= <- _].
    + destruct (Cli.LookupHost net decoy) as [ips|err];
        cbn [mret outcome_ret]; [|by intros [= <- _]].
      destruct (ips !! 0%nat); [|discriminate].
      destruct (Cli.Split decoy !! 0%nat); cbn [deref mbind outcome_bind mret outcome_ret];
        discriminate.
    + destruct (Cli.Split decoy !! 1%nat) as [ip|]; [|discriminate].
      destruct (Cli.ParseIP net ip); cbn [mret outcome_ret]; [|by intros [= <- _]].
      destruct (Cli.Split decoy !! 0%nat); cbn [deref mbind outcome_bind mret outcome_ret];
        discriminate.
    + by intros [= <- _].
  - intros Hc. unfold Cli.setSingleDecoyHost. rewrite CliFacts.Split_length.
    destruct (count_occ ascii_dec (list_ascii_of_string decoy) ","%char) as [|[|n]];
      [lia|lia|reflexivity].
Qed.

(** X28. When [setSingleDecoyHost] succeeds, the configuration holds exactly
    one decoy and the greatest generation, 2^32 - 1. Either the argument has
    no comma, is itself the SNI and resolves, and the address is the first
    one resolved; or it is the SNI, a comma and the address, and the address
    parses as an IP address. *)
Theorem setSingleDecoyHost_success conf decoy conf' :
  Cli.setSingleDecoyHost net conf decoy = Done (conf', None) ->
  exists sni ip,
    conf' = {| Cli.DecoyList := [Some (Cli.InitTLSDecoySpec net ip sni)];
               Cli.Generation := Some 4294967295%N |} /\
    ((decoy = sni /\ exists rest, Cli.LookupHost net decoy = Ok (ip :: rest)) \/
     (decoy = sni +:+ "," +:+ ip /\ Cli.ParseIP net ip <> None)).
Proof.
  unfold Cli.setSingleDecoyHost.
  pose proof (CliFacts.Split_concat decoy) as Hcat.
  destruct (Cli.Split decoy) as [|sni [|ip [|x l]]]; cbn [length lookup list_lookup];
    try discriminate.
  - cbn [String.concat] in Hcat. subst sni.
    destruct (Cli.LookupHost net decoy) as [[|ip rest]|err]; cbn [lookup list_lookup];
      try discriminate.
    cbn [deref mbind outcome_bind mret outcome_ret]. intros [= <-].
    exists decoy, ip. split; [reflexivity|]. left. split; [reflexivity|]. by exists rest.
  - cbn [String.concat] in Hcat.
    destruct (Cli.ParseIP net ip) as [parsed|] eqn:Hp; [|discriminate].
    cbn [deref mbind outcome_bind mret outcome_ret]. intros [= <-].
    exists sni, ip. split; [reflexivity|]. right. split; [by rewrite <- Hcat|].
    by rewrite Hp.
Qed.

End SingleDecoy.

(** ** The two copies of the connect path, and the handshake of [send] *)

Section Copies.

Variable X : Externals.
Variable W : World.

(** X29. [cjSession.connect] and [reg.Connect] are two copies of one
    routine. For a registration that holds the phantom, the keys, the
    transport and the TCP time of the session, and a transport other than
    Null, they have the same effects, in the same order, and end alike:
    with the same fault, or returning the same error, the session-level
    copy with whatever connection it returns and the registration-level
    copy with none. *)
Theorem connect_vs_Connect s reg ctx :
  phantom reg = Phantom s -> keys reg = Keys s -> transport reg = Transport s ->
  reg_getTcpToDecoy reg = session_getTcpToDecoy s ->
  Transport s <> NullTransport ->
  (Connect X W reg ctx).1 = (connect X W s ctx).1 /\
  match (connect X W s ctx).2, (Connect X W reg ctx).2 with
  | Done (c, e), Done (c', e') => c' = None /\ e' = e
  | Panic m, Panic m' => m = m'
  | Blocked, Blocked => True
  | _, _ => False
  end.
Proof.
  intros Hp Hk Ht Hrtt Hnull.
  unfold Connect, connect, reg_getRandomDuration, session_getRandomDuration,
    dial, conn_write, emit.
  rewrite Hp, Hk, Ht, Hrtt.
  destruct (Phantom s) as [ph|]; cbn [deref lift mbind M_bind mret M_ret fst snd app];
    [|done].
  destruct (DialContext W _ _) as [conn|err];
    cbn [mbind M_bind mret M_ret fst snd app]; [|done].
  destruct (N.eqb_spec (Transport s) MinTransport) as [E|E].
  { destruct (Keys s); cbn [deref lift mbind M_bind mret M_ret fst snd app]; done. }
  destruct (N.eqb_spec (Transport s) Obfs4Transport) as [E'|E'];
    cbn [mbind M_bind mret M_ret fst snd app]; [done|].
  destruct (N.eqb_spec (Transport s) NullTransport) as [E''|E'']; [done|].
  destruct (Keys s); cbn [deref lift mbind M_bind mret M_ret fst snd app]; done.
Qed.

(** The effects of [createRequest] are seals and one request for the
    keystream. *)
Lemma createRequest_events fuel a reg tlsConn decoy :
  Forall (fun e => is_seal e = true \/ exists n, e = EvGetOutKeystream tlsConn n)
         (createRequest X W fuel a reg tlsConn decoy).1.
Proof.
  assert (Htag : Forall (fun e => is_seal e = true \/ exists n, e = EvGetOutKeystream tlsConn n)
                        (assemble_tag X fuel a reg).1).
  { unfold assemble_tag, seal, lift, emit.
    destruct (generateVSP X fuel a reg) as [[vsp|e]| |];
      cbn [mbind M_bind mret M_ret fst snd app]; try by constructor.
    destruct (65535 <? Z.of_nat (length vsp)); [by constructor|].
    destruct (keys reg) as [k|]; cbn [deref mbind M_bind mret M_ret fst snd app];
      [|by constructor].
    destruct (aesGcmEncrypt X vsp (VspKey k) (VspIv k)) as [c1|e];
      cbn [mbind M_bind mret M_ret fst snd app];
      [|by repeat (constructor; [by left|])].
    destruct (aesGcmEncrypt X _ (FspKey k) (FspIv k)) as [c2|e];
      cbn [mbind M_bind mret M_ret fst snd app];
      by repeat (constructor; [by left|]). }
  unfold createRequest.
  destruct (assemble_tag X fuel a reg) as [tr [[tag|e]| |]];
    cbn [mbind M_bind mret M_ret fst snd] in *; rewrite ?app_nil_r; try exact Htag.
  unfold out_keystream, emit. cbn [mbind M_bind mret M_ret fst snd app].
  destruct (GetOutKeystream W tlsConn _) as [ks|e];
    cbn [mbind M_bind mret M_ret fst snd app].
  - destruct (_ <? _)%nat; cbn [lift fst snd]; rewrite ?app_nil_r;
      (apply Forall_app; split; [exact Htag|]);
      constructor; [right; by eexists|constructor|right; by eexists|constructor].
  - apply Forall_app; split; [exact Htag|].
    constructor; [right; by eexists|constructor].
Qed.

Lemma createRequest_no_handshake fuel a reg tlsConn decoy c sn dl :
  ~ In (EvHandshake c sn dl) (createRequest X W fuel a reg tlsConn decoy).1.
Proof.
  intros Hin. apply list_elem_of_In in Hin.
  pose proof (createRequest_events fuel a reg tlsConn decoy) as Hall.
  rewrite Forall_forall in Hall. destruct (Hall _ Hin) as [Hs|[n Hn]]; discriminate.
Qed.

(** X30. The TLS handshake of a [send] is made on the connection that the
    dial to the decoy returned, under a deadline a random time from now
    that is drawn between 1061 * 2 and 1953 * 3 times the round-trip time
    of that very dial (300 for a time of zero milliseconds), and with the
    hostname of the decoy as server name, or, if the decoy has no hostname,
    the host part of its address. *)
Theorem send_handshake fuel a reg decoy c sn dl :
  In (EvHandshake c sn dl) (send X W fuel a reg decoy).1 ->
  let rtt := rttInt (tcp_ms W (GetIpAddrStr decoy)) in
  DialContext W (GetIpAddrStr decoy) None = Ok c /\
  dl = Now W + getRandomDuration W (1061 * rtt * 2) (1953 * rtt * 3) /\
  (if String.eqb (GetHostname decoy) ""
   then exists port, SplitHostPort X (GetIpAddrStr decoy) = Ok (sn, port)
   else sn = GetHostname decoy).
Proof.
  unfold send, dial, post, emit.
  cbn [mbind M_bind mret M_ret fst snd app].
  destruct (DialContext W (GetIpAddrStr decoy) None) as [dialConn|err].
  - cbn [setTCPToDecoy stats TcpToDecoy deref lift mbind M_bind mret M_ret fst snd app].
    unfold createTLSConn, emit.
    destruct (String.eqb (GetHostname decoy) "");
      [destruct (SplitHostPort X (GetIpAddrStr decoy)) as [[host port]|e]|];
      cbn [mbind M_bind mret M_ret fst snd app].
    2: { intros Hin. simpl in Hin. intuition discriminate. }
    all: destruct (Handshake W dialConn _ _) as [tlsConn|e];
      cbn [mbind M_bind mret M_ret fst snd app].
    2, 4: intros [Hin|[Hin|Hin]]; [discriminate| |simpl in Hin; intuition discriminate];
      injection Hin as <- <- <-; cbv zeta; repeat split; by eexists.
    all: match goal with |- context [createRequest _ _ ?f ?a0 ?rg ?c0 ?d] =>
           pose proof (createRequest_no_handshake f a0 rg c0 d c sn dl) as Hno;
           destruct (createRequest X W f a0 rg c0 d) as [tr [[req|e']| |]]
         end;
      cbn [mbind M_bind mret M_ret fst snd app] in *.
    all: try (match goal with |- context [TLSWrite W ?c0 ?q] =>
                destruct (TLSWrite W c0 q) end);
      cbn [mbind M_bind mret M_ret fst snd app].
    all: intros [Hin|[Hin|Hin]]; [discriminate| |exfalso];
      [ injection Hin as <- <- <-; cbv zeta; repeat split; by eexists
      | rewrite ?app_nil_r in Hin;
        first [ exact (Hno Hin)
              | apply in_app_or in Hin as [Hin|Hin]; [exact (Hno Hin)|];
                simpl in Hin; intuition discriminate ] ].
  - intros Hin. exfalso.
    destruct err as [c0 m|c0 m|text inner|m];
      cbn [mbind M_bind mret M_ret fst snd app] in Hin;
      try (simpl in Hin; intuition discriminate).
    destruct (String.eqb inner "connect: network is unreachable");
      cbn [mbind M_bind mret M_ret fst snd app] in Hin; simpl in Hin; intuition discriminate.
Qed.

End Copies.

(** ** The further properties at the example data *)

(** [send_posts_exactly_once] at the example registration and its first
    decoy, in the world where everything succeeds. *)
Lemma send_posts_exactly_once_witness :
  exists r,
    (send Demo.externals Demo.world 3 Demo.assets Demo.reg (Demo.decoy "1")).2 = Done r /\
    length (filter (fun e => is_post e = true)
              (send Demo.externals Demo.world 3 Demo.assets Demo.reg (Demo.decoy "1")).1)
      = 1%nat.
Proof.
  eexists. split; [vm_compute; reflexivity|].
  eapply (send_posts_exactly_once Demo.externals Demo.world 3 Demo.assets Demo.reg
            (Demo.decoy "1")).
  vm_compute. reflexivity.
Defined.

(** [send_dial_failure] in the world without a route. *)
Lemma send_dial_failure_witness :
  exists posted,
    send Demo.externals Scenario.unreachable_world 3 Demo.assets Demo.reg (Demo.decoy "1") =
      ([EvDial (GetIpAddrStr (Demo.decoy "1")) None; EvPost (Some posted)],
       Done (setTCPToDecoy Demo.reg (Some 40%N))) /\
    posted = RegErrorV Unreachable Scenario.unreachable_text /\
    is_unreachable (Some posted) = true.
Proof.
  exact (send_dial_failure Demo.externals Scenario.unreachable_world 3 Demo.assets Demo.reg
           (Demo.decoy "1")
           (OpError Scenario.unreachable_text "connect: network is unreachable") eq_refl).
Defined.

(** [send_keeps_registration] at the example registration. *)
Lemma send_keeps_registration_witness :
  exists r,
    (send Demo.externals Demo.world 3 Demo.assets Demo.reg (Demo.decoy "1")).2 = Done r /\
    seed r = seed Demo.reg /\ sessionIDStr r = sessionIDStr Demo.reg /\
    phantom r = phantom Demo.reg /\ useProxyHeader r = useProxyHeader Demo.reg /\
    covertAddress r = covertAddress Demo.reg /\ phantomSNI r = phantomSNI Demo.reg /\
    v6Support r = v6Support Demo.reg /\ transport r = transport Demo.reg /\
    keys r = keys Demo.reg /\
    exists st, stats r = Some st /\ TcpToDecoy st = Some 40%N.
Proof.
  eexists. split; [vm_compute; reflexivity|].
  eapply (send_keeps_registration Demo.externals Demo.world 3 Demo.assets Demo.reg
            (Demo.decoy "1")).
  vm_compute. reflexivity.
Defined.

(** [send_success_follows_write] at the example registration. *)
Lemma send_success_follows_write_witness :
  In (EvPost None)
     (send Demo.externals Demo.world 3 Demo.assets Demo.reg (Demo.decoy "1")).1 /\
  exists dialConn tlsConn reg' req pre,
    (createRequest Demo.externals Demo.world 3 Demo.assets reg' tlsConn (Demo.decoy "1")).2
      = Done (Ok req) /\
    TLSWrite Demo.world tlsConn req = None /\
    ~ In (EvPost None) pre /\
    (send Demo.externals Demo.world 3 Demo.assets Demo.reg (Demo.decoy "1")).1 =
      pre ++ [EvTLSWrite tlsConn req; EvPost None; EvReadAndClose dialConn; EvCallback].
Proof.
  assert (Hin : In (EvPost None)
     (send Demo.externals Demo.world 3 Demo.assets Demo.reg (Demo.decoy "1")).1).
  { vm_compute. do 6 right. left. reflexivity. }
  split; [exact Hin|].
  exact (send_success_follows_write Demo.externals Demo.world 3 Demo.assets Demo.reg
           (Demo.decoy "1") Hin).
Defined.

(** [createRequest_layout] at the example registration and keys. *)
Lemma createRequest_layout_witness :
  exists vsp,
    generateVSP Demo.externals 3 Demo.assets Demo.reg = Done (Ok vsp) /\
    exists seals tag,
      assemble_tag Demo.externals 3 Demo.assets Demo.reg = (seals, Done (Ok tag)) /\
      length tag = (length vsp + 70)%nat /\
      (createRequest Demo.externals Demo.world 3 Demo.assets Demo.reg 8%N
         (Demo.decoy "1")).1 =
        seals ++ [EvGetOutKeystream 8%N
                    (length (generateHTTPRequestBeginning Demo.externals
                               (GetHostname (Demo.decoy "1")))
                     + 4 * (length tag / 3) + 4)%nat].
Proof.
  eexists. split; [vm_compute; reflexivity|].
  destruct (createRequest_layout Demo.externals Demo.world 3 Demo.assets Demo.reg
              Demo.shared_keys _ 8%N (Demo.decoy "1") demo_aes_128_gcm eq_refl
              demo_keys_wf eq_refl ltac:(vm_compute; discriminate))
    as (seals & tag & Hrun & Hlen & Htr & _).
  exists seals, tag. split; [exact Hrun|]. split; [exact Hlen|]. exact Htr.
Defined.

(** [generateFSP_layout] for a sealed VSP of 77 bytes. *)
Lemma generateFSP_layout_witness :
  generateFSP Demo.externals Demo.reg 77 =
    [Z_to_byte (Z.shiftr 77 8); Z_to_byte 77;
     Z_to_byte (if useProxyHeader Demo.reg
                then Z.lor (default_flags Demo.externals) (tdFlagProxyHeader Demo.externals)
                else default_flags Demo.externals);
     x00; x00; x00]%byte /\
  be_to_Z (take 2 (generateFSP Demo.externals Demo.reg 77)) = 77.
Proof. apply (generateFSP_layout Demo.externals Demo.reg 77). lia. Defined.

(** [fsp_size_field] at the example registration and keys. *)
Lemma fsp_size_field_witness :
  exists vsp,
    generateVSP Demo.externals 3 Demo.assets Demo.reg = Done (Ok vsp) /\
    exists encVsp fsp tag,
      assemble_tag Demo.externals 3 Demo.assets Demo.reg =
        ([EvSeal (VspKey Demo.shared_keys) (VspIv Demo.shared_keys) vsp;
          EvSeal (FspKey Demo.shared_keys) (FspIv Demo.shared_keys) fsp], Done (Ok tag)) /\
      aesGcmEncrypt Demo.externals vsp (VspKey Demo.shared_keys) (VspIv Demo.shared_keys)
        = Ok encVsp /\
      be_to_Z (take 2 fsp) = (Z.of_nat (length vsp) + 16) mod 2 ^ 16 /\
      (be_to_Z (take 2 fsp) = Z.of_nat (length encVsp) <-> Z.of_nat (length vsp) <= 65519).
Proof.
  eexists. split; [vm_compute; reflexivity|].
  exact (fsp_size_field Demo.externals 3 Demo.assets Demo.reg Demo.shared_keys _
           demo_aes_128_gcm eq_refl demo_keys_wf eq_refl
           ltac:(vm_compute; discriminate)).
Defined.

(** [generateVSP_padding] at the example registration. *)
Lemma generateVSP_padding_witness :
  exists n vsp,
    (n <= 3)%nat /\
    generateVSP Demo.externals 3 Demo.assets Demo.reg = Done (Ok vsp) /\
    ((length vsp + AES_GCM_TAG_SIZE) mod 3 = 0)%nat.
Proof.
  destruct (generateVSP_padding Demo.externals 3 Demo.assets Demo.reg ltac:(lia))
    as (n & Hn & Hrun & Hmod & _).
  exists n. eexists. split; [exact Hn|]. split; [exact Hrun|]. exact Hmod.
Defined.

(** [generateSharedKeys_cases] in the example world, where the Elligator
    step succeeds, and in the world where it fails. *)
Lemma generateSharedKeys_cases_witness :
  (exists k, generateSharedKeys Demo.world (zero_bytes 32) = (Some k, None) /\
     SharedSecret k = Some Demo.secret /\ Representative k = Demo.representative /\
     length (FspKey k) = 16%nat /\ length (FspIv k) = 12%nat /\
     length (VspKey k) = 16%nat /\ length (VspIv k) = 12%nat /\
     length (NewMasterSecret k) = 48%nat /\ length (ConjureSeed k) = 16%nat) /\
  generateSharedKeys Scenario.keyless_world (zero_bytes 32) =
    (None, Some (ErrorString "elligator: no representative")).
Proof.
  split.
  - exact (generateSharedKeys_cases Demo.world (zero_bytes 32)).
  - exact (generateSharedKeys_cases Scenario.keyless_world (zero_bytes 32)).
Defined.

(** [generateSharedKeys_schedule] at the keys of the examples. *)
Lemma generateSharedKeys_schedule_witness :
  FspKey Demo.shared_keys ++ FspIv Demo.shared_keys ++ VspKey Demo.shared_keys
    ++ VspIv Demo.shared_keys ++ NewMasterSecret Demo.shared_keys
    ++ ConjureSeed Demo.shared_keys
  = take 120 (HKDF.expand_blocks 4
      (HMAC.sum (bytes_of_string "conjureconjureconjureconjure")
                (slice_bytes (SharedSecret Demo.shared_keys))) [] [] 1) /\
  length (FspKey Demo.shared_keys ++ FspIv Demo.shared_keys ++ VspKey Demo.shared_keys
    ++ VspIv Demo.shared_keys ++ NewMasterSecret Demo.shared_keys
    ++ ConjureSeed Demo.shared_keys) = 120%nat.
Proof.
  split; [|reflexivity].
  exact (proj1 (generateSharedKeys_schedule Demo.world (zero_bytes 32) Demo.shared_keys None
                  demo_keys_derived)).
Defined.

(** [Connect_error_writes_nothing] at the example registration with the
    Obfs4 transport: the dial gives connection 7, which is not used. *)
Lemma Connect_error_writes_nothing_witness :
  (Connect Demo.externals Demo.world Scenario.obfs4_reg Demo.ctx).2 =
    Done (None, Some (ErrorString "connect not yet implemented")) /\
  exists ph,
    phantom Scenario.obfs4_reg = Some ph /\
    (Connect Demo.externals Demo.world Scenario.obfs4_reg Demo.ctx).1 =
      [EvDial (JoinHostPort (IP_String Demo.externals ph) "443")
              (Some (reg_deadline Demo.world Scenario.obfs4_reg Demo.ctx))] /\
    (phantom_dial Demo.externals Demo.world ph
       (reg_deadline Demo.world Scenario.obfs4_reg Demo.ctx)
       = Err (ErrorString "connect not yet implemented") \/
     exists conn,
       phantom_dial Demo.externals Demo.world ph
         (reg_deadline Demo.world Scenario.obfs4_reg Demo.ctx) = Ok conn /\
       transport Scenario.obfs4_reg = Obfs4Transport /\
       ErrorString "connect not yet implemented"
         = ErrorString "connect not yet implemented").
Proof.
  split; [reflexivity|].
  exact (proj2 (Connect_error_writes_nothing Demo.externals Demo.world Scenario.obfs4_reg
                  Demo.ctx None (ErrorString "connect not yet implemented") eq_refl)).
Defined.

(** [Connect_deadline] at the example registration, which has no TCP time
    on record, under a context without a deadline. *)
Lemma Connect_deadline_witness :
  exists d rest,
    (Connect Demo.externals Demo.world Demo.reg Demo.ctx).1 =
      EvDial (JoinHostPort (IP_String Demo.externals Demo.phantom_ip) "443") (Some d)
        :: rest /\
    Now Demo.world + 2 * 300 * Millisecond <= d <= Now Demo.world + 5 * 300 * Millisecond.
Proof.
  exact (Connect_deadline Demo.externals Demo.world Demo.reg Demo.ctx Demo.phantom_ip
           eq_refl ltac:(vm_compute; split; discriminate)).
Defined.

(** The run of [DialConjure] for the example session. *)
Lemma demo_dialed :
  DialConjure Demo.externals Demo.world Scenario.v6_decoy false Demo.assets
       (Some Demo.session)
    Demo.arrivals Scenario.seen Demo.ctx = Scenario.dialed.
Proof. vm_compute. reflexivity. Qed.

(** [DialConjure_never_returns_conn] at the example session. *)
Lemma DialConjure_never_returns_conn_witness :
  exists d,
    (DialConjure Demo.externals Demo.world Scenario.v6_decoy false Demo.assets
       (Some Demo.session)
       Demo.arrivals Scenario.seen Demo.ctx).2 = Done d /\
    returned d = (None, None) /\
    (returned d).1 = None.
Proof.
  eexists. split; [rewrite demo_dialed; reflexivity|]. split; [reflexivity|].
  eapply (DialConjure_never_returns_conn Demo.externals Demo.world Scenario.v6_decoy false
            Demo.assets
            (Some Demo.session) Demo.arrivals Scenario.seen Demo.ctx).
  rewrite demo_dialed. reflexivity.
Defined.

(** [DialConjure_stores_probe] at the example session, with a probe that
    found no v6. *)
Lemma DialConjure_stores_probe_witness :
  exists d v',
    (DialConjure Demo.externals Demo.world Scenario.v6_decoy false Demo.assets
       (Some Demo.session) Demo.arrivals Scenario.seen Demo.ctx).2 = Done d /\
    stored_v6 d = Some v' /\
    exists s v,
      Some Demo.session = Some s /\ V6Support s = Some v /\
      v' = {| support := false; include := v4; checked := checked v |} /\
      exists s' rest reg,
        (Register Demo.externals Demo.world Scenario.v6_decoy false Demo.assets s
           Demo.arrivals).2 = Done (s', rest, (reg, None)).
Proof.
  eexists. eexists. split; [rewrite demo_dialed; reflexivity|]. split; [reflexivity|].
  eapply (DialConjure_stores_probe Demo.externals Demo.world Scenario.v6_decoy false
            Demo.assets (Some Demo.session) Demo.arrivals Scenario.seen Demo.ctx);
    [rewrite demo_dialed; reflexivity | reflexivity].
Defined.

(** [DialConjure_sleep] at the example session, with a TCP time of 40 ms on
    record. *)
Lemma DialConjure_sleep_witness :
  exists d t,
    (DialConjure Demo.externals Demo.world Scenario.v6_decoy false Demo.assets
       (Some Demo.session)
       Demo.arrivals Scenario.seen Demo.ctx).2 = Done d /\
    slept d = Some t /\
    3000 * Millisecond <= t <= (3000 + 3 * 40) * Millisecond.
Proof.
  eexists. eexists. split; [rewrite demo_dialed; reflexivity|]. split; [reflexivity|].
  eapply (DialConjure_sleep Demo.externals Demo.world Scenario.v6_decoy false Demo.assets
            (Some Demo.session) Demo.arrivals Scenario.seen Demo.ctx);
    [vm_compute; split; discriminate | rewrite demo_dialed; reflexivity | reflexivity].
Defined.


(** [setV6Support_spec] at the example session, for a value that is none of
    the three. *)
Lemma setV6Support_spec_witness :
  exists s',
    setV6Support Demo.session 7 = Done s' /\
    exists v v',
      V6Support Demo.session = Some v /\ V6Support s' = Some v' /\
      (support v' = false <-> 7%N = v4) /\
      include v' = v6 /\
      support v' = negb (include v' =? v4)%N /\
      checked v' = checked v /\
      Keys s' = Keys Demo.session /\ Width s' = Width Demo.session /\
      UseProxyHeader s' = UseProxyHeader Demo.session /\
      SessionID s' = SessionID Demo.session /\ RegDecoys s' = RegDecoys Demo.session /\
      Phantom s' = Phantom Demo.session /\ Transport s' = Transport Demo.session /\
      CovertAddress s' = CovertAddress Demo.session /\
      session_stats s' = session_stats Demo.session.
Proof.
  eexists. split; [reflexivity|].
  exact (setV6Support_spec Demo.session 7 _ eq_refl).
Defined.

(** [useV4_useV6_exclusive] at the example session, one hour after its
    check. *)
Lemma useV4_useV6_exclusive_witness :
  useV4 Demo.session Hour = Done true /\ useV6 Demo.session Hour = Done false /\
  exists v,
    V6Support Demo.session = Some v /\
    true && false = false /\
    (checked v < Hour - 2 * Hour -> true = false /\ false = false) /\
    (Hour - 2 * Hour <= checked v -> true = negb false /\ (true = true <-> include v = v4)).
Proof.
  split; [reflexivity|]. split; [reflexivity|].
  exact (useV4_useV6_exclusive Demo.session Hour true false eq_refl eq_refl).
Defined.

(** [setV6Support_then_use] at the example session, three hours after its
    check: v6 has just been set, and neither question is answered yes. *)
Lemma setV6Support_then_use_witness :
  exists s',
    setV6Support Demo.session both = Done s' /\
    useV4 s' (3 * Hour) = Done false /\ useV6 s' (3 * Hour) = Done false.
Proof.
  eexists. split; [reflexivity|].
  exact (setV6Support_then_use Demo.session both _ Demo.v4_only (3 * Hour) eq_refl eq_refl).
Defined.

(** [SelectDecoys_from_pool] at the example assets: three decoys from the
    v4 pool, one of them twice. *)
Lemma SelectDecoys_from_pool_witness :
  SelectDecoys Demo.assets Demo.secret v4 3
    = Done [Demo.decoy "1"; Demo.decoy "1"; Demo.decoy "2"] /\
  length [Demo.decoy "1"; Demo.decoy "1"; Demo.decoy "2"] = N.to_nat 3 /\
  Forall (fun d => d ∈ decoy_pool Demo.assets v4)
         [Demo.decoy "1"; Demo.decoy "1"; Demo.decoy "2"] /\
  decoy_pool Demo.assets v4 = GetV4Decoys Demo.assets.
Proof.
  split; [exact demo_selection|].
  exact (SelectDecoys_from_pool Demo.assets Demo.secret v4 3 _ demo_selection).
Defined.

(** [Register_selection] at the example session, with a probe that found no
    v6. *)
Lemma Register_selection_witness :
  exists s' rest res,
    (Register Demo.externals Demo.world Scenario.v6_decoy false Demo.assets Demo.session
       Demo.arrivals).2 = Done (s', rest, res) /\
    exists k v,
      Keys Demo.session = Some k /\ V6Support Demo.session = Some v /\
      SelectDecoys Demo.assets (slice_bytes (SharedSecret k)) v4 (Width Demo.session)
        = Done (RegDecoys s') /\
      Forall (fun d => d ∈ GetV4Decoys Demo.assets) (RegDecoys s') /\
      Phantom s' = (SelectPhantom Demo.externals (ConjureSeed k) false).1 /\
      V6Support s' = Some {| support := false; include := v4; checked := checked v |}.
Proof.
  eexists. eexists. eexists. split; [vm_compute; reflexivity|].
  eapply (Register_selection Demo.externals Demo.world Scenario.v6_decoy false Demo.assets
            Demo.session Demo.arrivals).
  vm_compute. reflexivity.
Defined.

(** [register_phantom_failure] with a phantom selection that returns
    nothing. *)
Lemma register_phantom_failure_witness :
  exists decoys,
    SelectDecoys Demo.assets (slice_bytes (SharedSecret Demo.shared_keys)) v4 2
      = Done decoys /\
    register Scenario.no_phantom Demo.assets Demo.session Demo.arrivals =
      Done (with_selection Demo.session decoys None, Demo.arrivals, (None, None)).
Proof.
  destruct (SelectDecoys_returns Demo.assets (slice_bytes (SharedSecret Demo.shared_keys))
              v4 2 ltac:(discriminate)) as (decoys & Hd & _).
  exists decoys. split; [exact Hd|].
  exact (register_phantom_failure Scenario.no_phantom Demo.assets Demo.session
           Demo.shared_keys Demo.v4_only decoys None None Demo.arrivals
           eq_refl eq_refl Hd eq_refl (or_intror eq_refl)).
Defined.

(** [register_zero_width_blocks] at the example session with a width of
    zero. *)
Lemma register_zero_width_blocks_witness :
  SelectDecoys Demo.assets (slice_bytes (SharedSecret Demo.shared_keys))
    (include Demo.v4_only) (Width Scenario.zero_width_session) = Done [] /\
  register Demo.externals Demo.assets Scenario.zero_width_session [] = Blocked.
Proof.
  exact (register_zero_width_blocks Demo.externals Demo.assets Scenario.zero_width_session
           Demo.shared_keys Demo.v4_only Demo.phantom_ip eq_refl eq_refl eq_refl eq_refl).
Defined.

(** [makeConjureSession_cases] in the example world, for the session
    counter at its greatest value, and in the world where the Elligator
    step fails. *)
Lemma makeConjureSession_cases_witness :
  (exists k,
     generateSharedKeys Demo.world (zero_bytes 32) = (Some k, None) /\
     SharedSecret k = Some Demo.secret /\
     makeConjureSession Demo.world (zero_bytes 32) (Some Demo.v4_only)
       (2 ^ 64 - 1) "example.com:443" =
       (Some {| Keys := Some k; Width := 5; V6Support := Some Demo.v4_only;
                UseProxyHeader := false; SessionID := (2 ^ 64 - 1)%N; RegDecoys := [];
                Phantom := None; Transport := NullTransport;
                CovertAddress := "example.com:443"; session_stats := None |},
        0%N)) /\
  makeConjureSession Scenario.keyless_world (zero_bytes 32) (Some Demo.v4_only) 3
    "example.com:443" = (None, 3%N).
Proof.
  split.
  - exact (makeConjureSession_cases Demo.world (zero_bytes 32) (Some Demo.v4_only)
             (2 ^ 64 - 1) "example.com:443").
  - exact (makeConjureSession_cases Scenario.keyless_world (zero_bytes 32)
             (Some Demo.v4_only) 3 "example.com:443").
Defined.

(** [DialConjureAddr_key_failure] in the world where the Elligator step
    fails. *)
Lemma DialConjureAddr_key_failure_witness :
  DialConjureAddr Demo.externals Scenario.keyless_world Scenario.v6_decoy false Demo.assets
    (zero_bytes 32) (Some Demo.v4_only) 3 Demo.arrivals Scenario.seen Demo.ctx
    "example.com:443" =
    ([], Done {| stored_v6 := None; slept := None;
                 returned := (None, Some (ErrorString "No Session Provided")) |}).
Proof.
  exact (DialConjureAddr_key_failure Demo.externals Scenario.keyless_world Scenario.v6_decoy
           false Demo.assets (zero_bytes 32) (Some Demo.v4_only) 3 Demo.arrivals
           Scenario.seen Demo.ctx "example.com:443"
           (ErrorString "elligator: no representative") eq_refl).
Defined.

(** [DialConjureAddr_end_to_end] in the example world: one unreachable
    result, then a success. *)
Lemma DialConjureAddr_end_to_end_witness :
  exists d t,
    DialConjureAddr Demo.externals Demo.world Scenario.v6_decoy false Demo.assets
      (zero_bytes 32) (Some Demo.v4_only) 3 Demo.arrivals Scenario.seen Demo.ctx
      "example.com:443" =
      ([EvDial "[2001:db8::1]:443" None; EvConnClose 7%N;
        EvDial (JoinHostPort (IP_String Demo.externals Demo.phantom_ip) "443") (Some d);
        EvConnWrite 7%N
          (conjureHMAC (slice_bytes (SharedSecret Demo.shared_keys))
             "MinTrasportHMACString")],
       Done {| stored_v6 := Some {| support := false; include := v4;
                                    checked := checked Demo.v4_only |};
               slept := Some t; returned := (None, None) |}) /\
    length (conjureHMAC (slice_bytes (SharedSecret Demo.shared_keys))
              "MinTrasportHMACString") = 32%nat.
Proof.
  apply (DialConjureAddr_end_to_end Demo.externals Demo.world Scenario.v6_decoy false
           Demo.assets (zero_bytes 32) Demo.v4_only 3 Demo.arrivals Scenario.seen Demo.ctx
           "example.com:443" Demo.shared_keys Demo.phantom_ip
           [Some (RegErrorV Unreachable
                    "dial tcp 10.0.0.1:443: connect: network is unreachable")]
           None [] 7%N).
  - exact demo_keys_derived.
  - discriminate.
  - reflexivity.
  - reflexivity.
  - repeat constructor.
  - reflexivity.
  - simpl. lia.
  - intros d. reflexivity.
Defined.

(** [setSingleDecoyHost_errors] for an argument with two commas, and for an
    address that does not parse. *)
Lemma setSingleDecoyHost_errors_witness :
  Cli.setSingleDecoyHost Scenario.net Scenario.conf "example.org,192.0.2.7,443" =
    Done (Scenario.conf,
          Some (ErrorString (Cli.dquote +:+ "example.org,192.0.2.7,443" +:+ Cli.dquote
                             +:+ " contains too many commas"))) /\
  exists e,
    Cli.setSingleDecoyHost Scenario.net Scenario.conf "example.org,localhost"
      = Done (Scenario.conf, Some e).
Proof.
  split.
  - apply (proj2 (setSingleDecoyHost_errors Scenario.net Scenario.conf
                    "example.org,192.0.2.7,443")).
    vm_compute. lia.
  - destruct (Cli.setSingleDecoyHost Scenario.net Scenario.conf "example.org,localhost")
      as [[conf' [e|]]| |] eqn:Hrun; try discriminate.
    exists e.
    by rewrite (proj1 (setSingleDecoyHost_errors Scenario.net Scenario.conf
                         "example.org,localhost") conf' e Hrun).
Defined.

(** [setSingleDecoyHost_success] for an SNI and an address. *)
Lemma setSingleDecoyHost_success_witness :
  exists conf',
    Cli.setSingleDecoyHost Scenario.net Scenario.conf "example.org,192.0.2.7"
      = Done (conf', None) /\
    exists sni ip,
      conf' = {| Cli.DecoyList := [Some (Cli.InitTLSDecoySpec Scenario.net ip sni)];
                 Cli.Generation := Some 4294967295%N |} /\
      (("example.org,192.0.2.7"%string = sni /\
        exists rest, Cli.LookupHost Scenario.net "example.org,192.0.2.7" = Ok (ip :: rest)) \/
       ("example.org,192.0.2.7"%string = sni +:+ "," +:+ ip /\
        Cli.ParseIP Scenario.net ip <> None)).
Proof.
  eexists. split; [vm_compute; reflexivity|].
  eapply (setSingleDecoyHost_success Scenario.net Scenario.conf "example.org,192.0.2.7").
  vm_compute. reflexivity.
Defined.

(** [connect_vs_Connect] at the example session and registration with the
    Min transport. *)
Lemma connect_vs_Connect_witness :
  (Connect Demo.externals Demo.world Demo.reg Demo.ctx).1 =
    (connect Demo.externals Demo.world (Demo.session_at MinTransport) Demo.ctx).1 /\
  match (connect Demo.externals Demo.world (Demo.session_at MinTransport) Demo.ctx).2,
        (Connect Demo.externals Demo.world Demo.reg Demo.ctx).2 with
  | Done (c, e), Done (c', e') => c' = None /\ e' = e
  | Panic m, Panic m' => m = m'
  | Blocked, Blocked => True
  | _, _ => False
  end.
Proof.
  apply (connect_vs_Connect Demo.externals Demo.world (Demo.session_at MinTransport)
           Demo.reg Demo.ctx);
    [reflexivity | reflexivity | reflexivity | reflexivity | discriminate].
Defined.

(** [send_handshake] at the example registration and its first decoy. *)
Lemma send_handshake_witness :
  In (EvHandshake 7%N "1.example.org" 84880)
     (send Demo.externals Demo.world 3 Demo.assets Demo.reg (Demo.decoy "1")).1 /\
  DialContext Demo.world (GetIpAddrStr (Demo.decoy "1")) None = Ok 7%N /\
  84880 = Now Demo.world
          + getRandomDuration Demo.world
              (1061 * rttInt (tcp_ms Demo.world (GetIpAddrStr (Demo.decoy "1"))) * 2)
              (1953 * rttInt (tcp_ms Demo.world (GetIpAddrStr (Demo.decoy "1"))) * 3) /\
  "1.example.org"%string = GetHostname (Demo.decoy "1").
Proof.
  assert (Hin : In (EvHandshake 7%N "1.example.org" 84880)
     (send Demo.externals Demo.world 3 Demo.assets Demo.reg (Demo.decoy "1")).1).
  { vm_compute. right. left. reflexivity. }
  split; [exact Hin|].
  exact (send_handshake Demo.externals Demo.world 3 Demo.assets Demo.reg (Demo.decoy "1")
           7%N "1.example.org" 84880 Hin).
Defined.
